(** * Inventory tracker: status/assignment state machine and bulk import

    A shallow embedding of the parts of the inventory application that
    decide its lifecycle and import behaviour:

    - [app/models.py]                 ([User.has_permission],
                                       [Equipment.is_available],
                                       [Equipment.get_tags_list],
                                       [Equipment.set_tags_list], [log_audit_event]);
    - [app/routes/inventory.py]       ([add_equipment], [edit], [delete],
                                       [checkout], [checkin]);
    - [app/utils/bulk_operations.py]  ([validate_headers], [parse_date],
                                       [import_from_dataframe]);
    - [asset_app/utils/bulk_operations.py] ([validate_headers],
                                       [import_from_dataframe]).

    Python objects are maps from attribute names to values, the database is
    a record of tables, a request handler is a function from the database
    to a response and a database, and a Python exception is the [Raise]
    branch of a result type.  Texts are ASCII. *)

From Stdlib Require Import ZArith String Ascii List Bool Lia.
From stdpp Require Import gmap strings list fin_maps pretty.

Open Scope Z_scope.

(** ** Python values and exceptions *)

Module Py.

(** The exception classes that the modelled code can raise or catch.
    [str(e)] is the message. *)
Inductive exn :=
  | ValueError (msg : string)
  | TypeError (msg : string)
  | AttributeError (msg : string)
  | OverflowError (msg : string)
  | BulkImportError (msg : string)
  | IntegrityError (msg : string)
  | OperationalError (msg : string).

Definition exn_str (e : exn) : string :=
  match e with
  | ValueError m | TypeError m | AttributeError m | OverflowError m
  | BulkImportError m | IntegrityError m | OperationalError m => m
  end.

Definition is_ValueError (e : exn) : bool :=
  match e with ValueError _ => true | _ => false end.

Inductive result (A : Type) :=
  | Ret (a : A)
  | Raise (e : exn).
Arguments Ret {A} a.
Arguments Raise {A} e.

Definition bind {A B} (r : result A) (k : A -> result B) : result B :=
  match r with
  | Ret a => k a
  | Raise e => Raise e
  end.

Notation "x <- r ;; k" := (bind r (fun x => k))
  (at level 100, r at next level, right associativity).

(** A calendar date, [datetime.date]. *)
Record date := Date { year : Z; month : Z; day : Z }.

(** A finite binary64 number [fl_m * 2 ^ fl_e], or NaN. *)
Inductive pyfloat :=
  | Fnan
  | Ffin (fl_m fl_e : Z).

(** The scalars that a cell of the uploaded table, a form field or an
    attribute of a model object can hold: [None], [pd.NA], a float
    (including [np.nan]), an int, a str and a [datetime.date].  Cells
    that hold a bool or a timestamp are not modelled. *)
Inductive value :=
  | VNone
  | VNA
  | VFloat (f : pyfloat)
  | VInt (z : Z)
  | VStr (s : string)
  | VDate (d : date).

#[global] Instance date_eq_dec : EqDecision date.
Proof. solve_decision. Defined.
#[global] Instance pyfloat_eq_dec : EqDecision pyfloat.
Proof. solve_decision. Defined.
#[global] Instance value_eq_dec : EqDecision value.
Proof. solve_decision. Defined.

(** *** Strings *)

(** The ASCII characters that [str.strip()] removes and that [\s]
    matches: TAB, LF, VT, FF, CR, FS, GS, RS, US and the space. *)
Definition is_space (c : ascii) : bool :=
  let n := Z.of_nat (nat_of_ascii c) in
  ((9 <=? n) && (n <=? 13)) || ((28 <=? n) && (n <=? 32)).

Fixpoint lstrip (l : list ascii) : list ascii :=
  match l with
  | c :: l' => if is_space c then lstrip l' else l
  | [] => []
  end.

Definition strip (s : string) : string :=
  string_of_list_ascii
    (rev (lstrip (rev (lstrip (list_ascii_of_string s))))).

Definition is_digit (c : ascii) : bool :=
  let n := Z.of_nat (nat_of_ascii c) in (48 <=? n) && (n <=? 57).

Definition digit_val (c : ascii) : Z := Z.of_nat (nat_of_ascii c) - 48.

(** Value of a run of decimal digits, most significant first. *)
Definition digits_val (l : list ascii) : Z :=
  fold_left (fun acc c => 10 * acc + digit_val c) l 0.

(** [int(s)] for a str: surrounding whitespace is ignored, then an
    optional sign, then decimal digits, where single underscores may
    separate digits. *)
Fixpoint int_digits (l : list ascii) (acc : Z) (after_digit : bool) : option Z :=
  match l with
  | [] => if after_digit then Some acc else None
  | c :: l' =>
      if is_digit c then int_digits l' (10 * acc + digit_val c) true
      else if (Ascii.eqb c "_" && after_digit)%bool then
        match l' with
        | d :: _ => if is_digit d then int_digits l' acc false else None
        | [] => None
        end
      else None
  end.

Definition int_of_string (s : string) : option Z :=
  match list_ascii_of_string (strip s) with
  | "-"%char :: l => Z.opp <$> int_digits l 0 false
  | "+"%char :: l => int_digits l 0 false
  | l => int_digits l 0 false
  end.

(** [repr(s)] for a str of printable ASCII: quoted with ['], or with ["]
    when the text has a ['] and no ["]; backslash and the quote are
    escaped. *)
Definition has_char (c : ascii) (s : string) : bool :=
  existsb (Ascii.eqb c) (list_ascii_of_string s).

Definition dquote : ascii := ascii_of_nat 34.
Definition squote : ascii := ascii_of_nat 39.
Definition backslash : ascii := ascii_of_nat 92.

Definition repr_str (s : string) : string :=
  let q := if (has_char squote s && negb (has_char dquote s))%bool
           then dquote else squote in
  let esc (c : ascii) : list ascii :=
    if (Ascii.eqb c backslash || Ascii.eqb c q)%bool then [backslash; c] else [c] in
  string_of_list_ascii
    (q :: concat (map esc (list_ascii_of_string s)) ++ [q]).

(** *** Floats

    Printing a binary64 number, and reading one from a str or an int, are
    CPython built-ins; the development is parametric in them. *)
Class FloatLib := {
  float_repr : Z -> Z -> string;               (* repr of m * 2^e *)
  float_of_string : string -> option pyfloat;  (* float(s); None: ValueError *)
  float_of_Z : Z -> option pyfloat;            (* float(n); None: OverflowError *)
}.

(** [int(x)] of a finite float truncates towards zero. *)
Definition float_trunc (m e : Z) : Z :=
  if 0 <=? e then m * 2 ^ e else Z.quot m (2 ^ (- e)).

(** [m1 * 2^e1 == m2 * 2^e2] *)
Definition float_eqb (m1 e1 m2 e2 : Z) : bool :=
  if e1 <=? e2 then m1 =? m2 * 2 ^ (e2 - e1) else m1 * 2 ^ (e1 - e2) =? m2.

(** *** Built-in functions on values *)

Definition type_name (v : value) : string :=
  match v with
  | VNone => "NoneType" | VNA => "NAType" | VFloat _ => "float"
  | VInt _ => "int" | VStr _ => "str" | VDate _ => "datetime.date"
  end.

Definition pad2 (z : Z) : string :=
  if z <? 10 then "0" +:+ pretty z else pretty z.

Definition pad4 (z : Z) : string :=
  if z <? 10 then "000" +:+ pretty z
  else if z <? 100 then "00" +:+ pretty z
  else if z <? 1000 then "0" +:+ pretty z else pretty z.

(** [d.strftime('%Y-%m-%d')], which is also [str(d)]. *)
Definition isoformat (d : date) : string :=
  pad4 (year d) +:+ "-" +:+ pad2 (month d) +:+ "-" +:+ pad2 (day d).

Section Builtins.
Context `{FloatLib}.

(** [str(v)] *)
Definition py_str (v : value) : string :=
  match v with
  | VNone => "None"
  | VNA => "<NA>"
  | VFloat Fnan => "nan"
  | VFloat (Ffin m e) => float_repr m e
  | VInt z => pretty z
  | VStr s => s
  | VDate d => isoformat d
  end.

(** [int(v)] *)
Definition py_int (v : value) : result value :=
  match v with
  | VInt z => Ret (VInt z)
  | VFloat Fnan => Raise (ValueError "cannot convert float NaN to integer")
  | VFloat (Ffin m e) => Ret (VInt (float_trunc m e))
  | VStr s =>
      match int_of_string s with
      | Some z => Ret (VInt z)
      | None => Raise (ValueError
                  ("invalid literal for int() with base 10: " +:+ repr_str s))
      end
  | _ => Raise (TypeError
           ("int() argument must be a string, a bytes-like object or a real number, not "
            +:+ repr_str (type_name v)))
  end.

(** [float(v)] *)
Definition py_float (v : value) : result value :=
  match v with
  | VFloat f => Ret (VFloat f)
  | VInt z =>
      match float_of_Z z with
      | Some f => Ret (VFloat f)
      | None => Raise (OverflowError "int too large to convert to float")
      end
  | VStr s =>
      match float_of_string s with
      | Some f => Ret (VFloat f)
      | None => Raise (ValueError
                  ("could not convert string to float: " +:+ repr_str s))
      end
  | _ => Raise (TypeError
           ("float() argument must be a string or a real number, not "
            +:+ repr_str (type_name v)))
  end.

End Builtins.

(** The outcome of [a == b]: a bool, or [pd.NA]. *)
Inductive cmp :=
  | CmpBool (b : bool)
  | CmpNA.

(** [a == b].  [pd.NA] compared with a str, a number, a date or itself is
    [pd.NA] ([NAType.__eq__]); compared with [None] neither side
    implements the comparison and the answer is [False]. *)
Definition py_eq (a b : value) : cmp :=
  match a, b with
  | VNA, VNone | VNone, VNA => CmpBool false
  | VNA, _ | _, VNA => CmpNA
  | VNone, VNone => CmpBool true
  | VStr s, VStr t => CmpBool (String.eqb s t)
  | VInt x, VInt y => CmpBool (x =? y)
  | VInt x, VFloat (Ffin m e) | VFloat (Ffin m e), VInt x =>
      CmpBool (float_eqb x 0 m e)
  | VFloat (Ffin m1 e1), VFloat (Ffin m2 e2) => CmpBool (float_eqb m1 e1 m2 e2)
  | VDate d, VDate d' => CmpBool (bool_decide (d = d'))
  | _, _ => CmpBool false
  end.

(** [a is b], for the two singletons the modelled code tests for. *)
Definition py_is (a b : value) : bool :=
  match a, b with
  | VNone, VNone | VNA, VNA => true
  | _, _ => false
  end.

(** [bool(v)]; the truth value of [pd.NA] is an error. *)
Definition NA_ambiguous : exn := TypeError "boolean value of NA is ambiguous".

Definition py_bool (v : value) : result bool :=
  match v with
  | VNone => Ret false
  | VNA => Raise NA_ambiguous
  | VFloat Fnan => Ret true
  | VFloat (Ffin m _) => Ret (negb (m =? 0))
  | VInt z => Ret (negb (z =? 0))
  | VStr s => Ret (negb (String.eqb s ""))
  | VDate _ => Ret true
  end.

(** [v in items] for a tuple [items]: the items are tried from the left,
    each by identity and then by [item == v], whose result is turned into
    a truth value.  With [pd.NA] among the items, a value that no earlier
    item matches ends in the truth value of [pd.NA == v], which is a
    [TypeError] unless [v] is [None]. *)
Fixpoint py_in (v : value) (items : list value) : result bool :=
  match items with
  | [] => Ret false
  | it :: rest =>
      if py_is it v then Ret true
      else match py_eq it v with
           | CmpBool true => Ret true
           | CmpBool false => py_in v rest
           | CmpNA => Raise NA_ambiguous
           end
  end.

Definition py_not_in (v : value) (items : list value) : result bool :=
  b <- py_in v items ;; Ret (negb b).

(** [pd.isna(v)] *)
Definition pd_isna (v : value) : bool :=
  match v with
  | VNone | VNA | VFloat Fnan => true
  | _ => false
  end.

End Py.

(** ** [datetime.strptime]

    CPython turns a format into a regular expression: a directive becomes
    a group of ordered alternatives, a run of whitespace becomes [\s+] and
    any other character stands for itself.  The expression is matched at
    the start of the text, the leftmost alternatives first, and the match
    has to reach the end of the text.  The fields then go through the
    range checks of the [datetime] constructor. *)

Module Strptime.
Import Py.

Inductive directive := DY | Dm | Dd | DH | DM | DS.

Inductive item :=
  | Lit (c : ascii)
  | Spaces
  | Dir (d : directive).

Definition directive_of (c : ascii) : option directive :=
  if Ascii.eqb c "Y" then Some DY
  else if Ascii.eqb c "m" then Some Dm
  else if Ascii.eqb c "d" then Some Dd
  else if Ascii.eqb c "H" then Some DH
  else if Ascii.eqb c "M" then Some DM
  else if Ascii.eqb c "S" then Some DS
  else None.

(** [after_space]: the previous character belonged to a run of whitespace
    that already produced its [Spaces] item.  [None]: a directive that
    the modelled code does not use, or a stray [%]. *)
Fixpoint compile (fmt : list ascii) (after_space : bool) : option (list item) :=
  match fmt with
  | [] => Some []
  | c :: fmt' =>
      if is_space c then
        (if after_space then compile fmt' true
         else cons Spaces <$> compile fmt' true)
      else if Ascii.eqb c "%" then
        match fmt' with
        | d :: fmt'' =>
            match directive_of d with
            | Some dir => cons (Dir dir) <$> compile fmt'' false
            | None => None
            end
        | [] => None
        end
      else cons (Lit c) <$> compile fmt' false
  end.

Definition is_char (c : ascii) : ascii -> bool := Ascii.eqb c.

Definition in_range (lo hi : ascii) (c : ascii) : bool :=
  let n := nat_of_ascii c in
  (Nat.leb (nat_of_ascii lo) n && Nat.leb n (nat_of_ascii hi))%bool.

(** The alternatives of each directive, in the order of the expression:
    [%d] is [3[0-1]|[1-2]\d|0[1-9]|[1-9]| [1-9]], and so on. *)
Definition alternatives (d : directive) : list (list (ascii -> bool)) :=
  match d with
  | DY => [[is_digit; is_digit; is_digit; is_digit]]
  | Dm => [[is_char "1"; in_range "0" "2"]; [is_char "0"; in_range "1" "9"];
           [in_range "1" "9"]]
  | Dd => [[is_char "3"; in_range "0" "1"]; [in_range "1" "2"; is_digit];
           [is_char "0"; in_range "1" "9"]; [in_range "1" "9"];
           [is_char " "; in_range "1" "9"]]
  | DH => [[is_char "2"; in_range "0" "3"]; [in_range "0" "1"; is_digit];
           [is_digit]]
  | DM => [[in_range "0" "5"; is_digit]; [is_digit]]
  | DS => [[is_char "6"; in_range "0" "1"]; [in_range "0" "5"; is_digit];
           [is_digit]]
  end.

(** One alternative against the start of the text: the characters it
    takes and the rest. *)
Fixpoint match_alt (alt : list (ascii -> bool)) (s : list ascii)
  : option (list ascii * list ascii) :=
  match alt with
  | [] => Some ([], s)
  | p :: alt' =>
      match s with
      | c :: s' =>
          if p c then
            match match_alt alt' s' with
            | Some (t, r) => Some (c :: t, r)
            | None => None
            end
          else None
      | [] => None
      end
  end.

(** The fields collected so far; [strptime] starts from 1900-01-01
    00:00:00. *)
Record fields := Fields { fY : Z; fm : Z; fd : Z; fH : Z; fM : Z; fS : Z }.

Definition no_fields : fields := Fields 1900 1 1 0 0 0.

Definition set_field (d : directive) (text : list ascii) (f : fields) : fields :=
  let n := digits_val (filter (fun c => is_digit c = true) text) in
  match d with
  | DY => Fields n (fm f) (fd f) (fH f) (fM f) (fS f)
  | Dm => Fields (fY f) n (fd f) (fH f) (fM f) (fS f)
  | Dd => Fields (fY f) (fm f) n (fH f) (fM f) (fS f)
  | DH => Fields (fY f) (fm f) (fd f) n (fM f) (fS f)
  | DM => Fields (fY f) (fm f) (fd f) (fH f) n (fS f)
  | DS => Fields (fY f) (fm f) (fd f) (fH f) (fM f) n
  end.

(** The ways [\s+] can take whitespace from the start of the text, the
    longest first. *)
Fixpoint space_runs (s : list ascii) : list (list ascii) :=
  match s with
  | c :: s' => if is_space c then space_runs s' ++ [s'] else []
  | [] => []
  end.

(** The ways one item can be matched at the start of the text, best
    first: the fields after it and the rest of the text. *)
Definition candidates (it : item) (s : list ascii) (f : fields)
  : list (fields * list ascii) :=
  match it with
  | Lit c =>
      match s with
      | c' :: s' => if Ascii.eqb c c' then [(f, s')] else []
      | [] => []
      end
  | Spaces => map (fun r => (f, r)) (space_runs s)
  | Dir d =>
      omap (fun alt =>
              match match_alt alt s with
              | Some (t, r) => Some (set_field d t f, r)
              | None => None
              end) (alternatives d)
  end.

Fixpoint first_some {A B} (k : A -> option B) (l : list A) : option B :=
  match l with
  | [] => None
  | a :: l' => match k a with Some b => Some b | None => first_some k l' end
  end.

(** The first match of the whole expression, by backtracking. *)
Fixpoint regex_match (items : list item) (s : list ascii) (f : fields)
  : option (fields * list ascii) :=
  match items with
  | [] => Some (f, s)
  | it :: items' =>
      first_some (fun '(f', s') => regex_match items' s' f') (candidates it s f)
  end.

Definition is_leap (y : Z) : bool :=
  ((y mod 4 =? 0) && (negb (y mod 100 =? 0) || (y mod 400 =? 0)))%bool.

Definition days_in_month (y m : Z) : Z :=
  if m =? 2 then (if is_leap y then 29 else 28)
  else if (m =? 4) || (m =? 6) || (m =? 9) || (m =? 11) then 30
  else 31.

(** The checks of [datetime(year, month, day, hour, minute, second)]. *)
Definition check_fields (f : fields) : result date :=
  if negb ((1 <=? fY f) && (fY f <=? 9999)) then
    Raise (ValueError ("year " +:+ pretty (fY f) +:+ " is out of range"))
  else if negb ((1 <=? fm f) && (fm f <=? 12)) then
    Raise (ValueError "month must be in 1..12")
  else if negb ((1 <=? fd f) && (fd f <=? days_in_month (fY f) (fm f))) then
    Raise (ValueError "day is out of range for month")
  else if negb ((0 <=? fH f) && (fH f <=? 23)) then
    Raise (ValueError "hour must be in 0..23")
  else if negb ((0 <=? fM f) && (fM f <=? 59)) then
    Raise (ValueError "minute must be in 0..59")
  else if negb ((0 <=? fS f) && (fS f <=? 59)) then
    Raise (ValueError "second must be in 0..59")
  else Ret (Date (fY f) (fm f) (fd f)).

(** [datetime.strptime(data, fmt).date()] *)
Definition strptime (data fmt : string) : result date :=
  match compile (list_ascii_of_string fmt) false with
  | None => Raise (ValueError ("bad directive in format " +:+ repr_str fmt))
  | Some items =>
      match regex_match items (list_ascii_of_string data) no_fields with
      | None =>
          Raise (ValueError ("time data " +:+ repr_str data +:+
                             " does not match format " +:+ repr_str fmt))
      | Some (f, []) => check_fields f
      | Some (_, rest) =>
          Raise (ValueError ("unconverted data remains: " +:+
                             string_of_list_ascii rest))
      end
  end.

End Strptime.

(** ** Model objects, tables and the session ([app/models.py]) *)

Module Models.
Import Py.

(** A model instance is its attribute dictionary; an attribute that was
    never set reads [None]. *)
Definition getattr (o : gmap string value) (k : string) : value :=
  default VNone (o !! k).

Definition setattr (o : gmap string value) (k : string) (v : value)
  : gmap string value := <[k := v]> o.

Record User := { user_id : Z; user_role : string }.

(** [User.has_permission] *)
Definition permissions : list (string * list string) :=
  [("Admin", ["create"; "read"; "update"; "delete"; "bulk_import"; "user_management"]);
   ("Lab Staff", ["create"; "read"; "update"; "delete"; "bulk_import"]);
   ("Researcher", ["read"; "update"; "checkout"; "checkin"]);
   ("Read-only", ["read"])].

Fixpoint dict_get {A} (d : list (string * A)) (k : string) (dflt : A) : A :=
  match d with
  | [] => dflt
  | (k', a) :: d' => if String.eqb k' k then a else dict_get d' k dflt
  end.

Definition has_permission (u : User) (action : string) : bool :=
  bool_decide (action ∈ dict_get permissions (user_role u) []).

(** [Equipment.is_available] and [Equipment.can_be_assigned] *)
Definition is_available (e : gmap string value) : bool :=
  bool_decide (getattr e "status" = VStr "Available").

Definition can_be_assigned (e : gmap string value) : bool :=
  bool_decide (getattr e "status" = VStr "Available"
               ∨ getattr e "status" = VStr "In Use").

(** Rows of [movement_logs] and [audit_logs].  Timestamps, and the
    address and client string of the request, are left out. *)
Record MovementLog := {
  ml_equipment_id : Z;
  ml_user_id : Z;
  ml_action : string;
  ml_from_location : value;
  ml_to_location : value;
  ml_from_user_id : value;
  ml_to_user_id : value;
  ml_notes : string;
}.

Record AuditLog := {
  al_user_id : Z;
  al_equipment_id : option Z;
  al_action : string;
  al_table_name : string;
  al_record_id : option Z;
  al_old_values : option (gmap string value);
  al_new_values : option (gmap string value);
}.

(** The constraints and the defaults of the entity table: the column
    declared [unique=True], the columns declared [nullable=False] that
    have no default, and the defaults. *)
Record Schema := {
  table_name : string;
  unique_col : string;
  not_null : list string;
  defaults : list (string * value);
}.

Definition equipment_schema : Schema :=
  {| table_name := "equipment";
     unique_col := "asset_tag";
     not_null := ["asset_tag"; "name"; "category"];
     defaults := [("status", VStr "Available"); ("condition", VStr "Good")] |}.

(** The committed tables.  The entity table is keyed by the primary key. *)
Record DB := {
  entities : gmap Z (gmap string value);
  movement_logs : list MovementLog;
  audit_logs : list AuditLog;
}.

(** The database, and a script that tells, for each write statement yet
    to be sent, whether the store refuses it ([true]); statements beyond
    the script succeed. *)
Record World := { tables : DB; faults : list bool }.

(** [Model.query.filter_by(col=v).first()], as a test for a hit. *)
Definition exists_with (tbl : gmap Z (gmap string value)) (col : string) (v : value)
  : bool :=
  bool_decide (∃ id row, tbl !! id = Some row ∧ getattr row col = v).

(** The next primary key: one more than the largest one in use. *)
Definition next_id (tbl : gmap Z (gmap string value)) : Z :=
  1 + map_fold (fun id _ acc => Z.max id acc) 0 tbl.

(** What a flush sends: the pending objects of the session. *)
Inductive stmt :=
  | InsertEntity (e : gmap string value)
  | UpdateEntity (id : Z) (e : gmap string value)
  | InsertMovement (m : MovementLog)
  | InsertAudit (a : AuditLog).

(** On INSERT a column that holds [None] takes its default. *)
Definition apply_defaults (sch : Schema) (e : gmap string value) : gmap string value :=
  fold_right (fun '(k, v) e => if bool_decide (getattr e k = VNone) then setattr e k v else e)
             e (defaults sch).

(** The constraints an INSERT checks. *)
Definition check_row (sch : Schema) (others : gmap Z (gmap string value))
    (e : gmap string value) : result unit :=
  match filter (fun k => getattr e k = VNone) (not_null sch) with
  | k :: _ =>
      Raise (IntegrityError ("NOT NULL constraint failed: " +:+ table_name sch
                             +:+ "." +:+ k))
  | [] =>
      if exists_with others (unique_col sch) (getattr e (unique_col sch)) then
        Raise (IntegrityError ("UNIQUE constraint failed: " +:+ table_name sch
                               +:+ "." +:+ unique_col sch))
      else Ret tt
  end.

(** An UPDATE sends the columns whose value changed, and only those can
    break a constraint. *)
Definition check_update (sch : Schema) (others : gmap Z (gmap string value))
    (old e : gmap string value) : result unit :=
  match filter (fun k => getattr e k = VNone ∧ getattr old k ≠ VNone) (not_null sch) with
  | k :: _ =>
      Raise (IntegrityError ("NOT NULL constraint failed: " +:+ table_name sch
                             +:+ "." +:+ k))
  | [] =>
      if bool_decide (getattr e (unique_col sch) ≠ getattr old (unique_col sch))
         && exists_with others (unique_col sch) (getattr e (unique_col sch)) then
        Raise (IntegrityError ("UNIQUE constraint failed: " +:+ table_name sch
                               +:+ "." +:+ unique_col sch))
      else Ret tt
  end.

Definition exec (sch : Schema) (d : DB) (s : stmt) : result DB :=
  match s with
  | InsertEntity e =>
      let e := apply_defaults sch e in
      _ <- check_row sch (entities d) e ;;
      let id := next_id (entities d) in
      Ret {| entities := <[id := setattr e "id" (VInt id)]> (entities d);
             movement_logs := movement_logs d;
             audit_logs := audit_logs d |}
  | UpdateEntity id e =>
      _ <- check_update sch (delete id (entities d))
             (default ∅ (entities d !! id)) e ;;
      Ret {| entities := <[id := e]> (entities d);
             movement_logs := movement_logs d;
             audit_logs := audit_logs d |}
  | InsertMovement m =>
      Ret {| entities := entities d;
             movement_logs := movement_logs d ++ [m];
             audit_logs := audit_logs d |}
  | InsertAudit a =>
      Ret {| entities := entities d;
             movement_logs := movement_logs d;
             audit_logs := audit_logs d ++ [a] |}
  end.

Definition store_refused : exn := OperationalError "database is unavailable".

(** The statements of one flush, in order, inside the open transaction. *)
Fixpoint flush (sch : Schema) (stmts : list stmt) (d : DB) (fs : list bool)
  : result DB * list bool :=
  match stmts with
  | [] => (Ret d, fs)
  | s :: stmts' =>
      match fs with
      | true :: fs' => (Raise store_refused, fs')
      | _ =>
          match exec sch d s with
          | Ret d' => flush sch stmts' d' (tail fs)
          | Raise e => (Raise e, tail fs)
          end
      end
  end.

(** [db.session.commit()] with the given pending objects.  When a
    statement fails the exception propagates to the caller, whose handler
    calls [db.session.rollback()]: the tables are the ones the
    transaction started from. *)
Definition commit (sch : Schema) (stmts : list stmt) (w : World)
  : result unit * World :=
  match flush sch stmts (tables w) (faults w) with
  | (Ret d', fs) => (Ret tt, {| tables := d'; faults := fs |})
  | (Raise e, fs) => (Raise e, {| tables := tables w; faults := fs |})
  end.

(** [log_audit_event]: [json.dumps(d) if d else None] keeps a dictionary
    only when it is not empty. *)
Definition dumps (d : option (gmap string value)) : option (gmap string value) :=
  match d with
  | Some m => if bool_decide (m = ∅) then None else Some m
  | None => None
  end.

Definition log_audit_event (sch : Schema) (user_id : Z) (action table : string)
    (record_id : option Z) (old_values new_values : option (gmap string value))
    (equipment_id : option Z) (w : World) : result unit * World :=
  let audit_log :=
    {| al_user_id := user_id;
       al_equipment_id := equipment_id;
       al_action := action;
       al_table_name := table;
       al_record_id := record_id;
       al_old_values := dumps old_values;
       al_new_values := dumps new_values |} in
  commit sch [InsertAudit audit_log] w.

End Models.

(** ** The uploaded table *)

Module Frame.
Import Py.

(** A [pandas.DataFrame]: the column names and the rows, each a list of
    cells in column order. *)
Record DataFrame := { columns : list string; rows : list (list value) }.

(** [getattr(row, field, dflt)] on a row of [df.itertuples(index=False)] *)
Fixpoint row_get (cols : list string) (cells : list value) (field : string)
    (dflt : value) : value :=
  match cols, cells with
  | c :: cols', v :: cells' =>
      if String.eqb c field then v else row_get cols' cells' field dflt
  | _, _ => dflt
  end.

(** [df.replace({np.nan: None, pd.NA: None, "NA": None, "": None})] *)
Definition replace_cell (v : value) : value :=
  match v with
  | VFloat Fnan | VNA => VNone
  | VStr s => if String.eqb s "NA" || String.eqb s "" then VNone else v
  | _ => v
  end.

Definition replace_na (df : DataFrame) : DataFrame :=
  {| columns := columns df; rows := map (map replace_cell) (rows df) |}.

End Frame.

(** ** The import driver

    [import_from_dataframe] is the same function in
    [app/utils/bulk_operations.py] and in
    [asset_app/utils/bulk_operations.py] up to the table, the required
    columns and the body of the row loop; it is written once, over these
    three. *)

Module Importer.
Import Py Models Frame.

Record Results := {
  success : nat;
  errors : list string;
  warnings : list string;
  total : nat;
}.

(** What one pass of the row loop does besides counting the row: it
    appends the new object to the list of accepted objects, or a message
    to [results['errors']]. *)
Inductive RowOutcome :=
  | Accepted (obj : gmap string value)
  | Rejected (error : string).

Definition row_label (row_num : nat) : string := "Row " +:+ pretty row_num +:+ ": ".

Definition add_error (results : Results) (msg : string) : Results :=
  {| success := success results; errors := errors results ++ [msg];
     warnings := warnings results; total := total results |}.

Definition count_row (results : Results) : Results :=
  {| success := success results; errors := errors results;
     warnings := warnings results; total := S (total results) |}.

Definition count_success (results : Results) : Results :=
  {| success := S (success results); errors := errors results;
     warnings := warnings results; total := total results |}.

Section Driver.
Variable sch : Schema.
Variable required : list string.
(** The body of the row loop: the store, the columns, the row number and
    the row. *)
Variable body : DB -> list string -> nat -> list value -> RowOutcome.

(** [for row_num, row in enumerate(df.itertuples(index=False), start=2)] *)
Fixpoint row_loop (d : DB) (cols : list string) (rows : list (list value))
    (row_num : nat) (results : Results) (accepted : list (gmap string value))
  : Results * list (gmap string value) :=
  match rows with
  | [] => (results, accepted)
  | row :: rows' =>
      let results := count_row results in
      match body d cols row_num row with
      | Rejected msg =>
          row_loop d cols rows' (S row_num) (add_error results msg) accepted
      | Accepted obj =>
          row_loop d cols rows' (S row_num) (count_success results) (accepted ++ [obj])
      end
  end.

(** The commit step: every accepted object is added to the session, the
    session is committed, and one audit event is logged. *)
Definition save_all (user_id : Z) (accepted : list (gmap string value)) (w : World)
  : result unit * World :=
  match commit sch (map InsertEntity accepted) w with
  | (Ret _, w') =>
      log_audit_event sch user_id "bulk_import" (table_name sch) None None
        (Some {["count" := VInt (Z.of_nat (length accepted))]}) None w'
  | (Raise e, w') => (Raise e, w')
  end.

Definition no_results : Results :=
  {| success := 0; errors := []; warnings := []; total := 0 |}.

Definition missing_columns (df : DataFrame) : list string :=
  filter (fun field => field ∉ columns df) required.

Definition import_from_dataframe (df : DataFrame) (user_id : Z) (dry_run : bool)
    (w : World) : Results * World :=
  let results :=
    fold_left (fun r field => add_error r ("Missing required field in file: " +:+ field))
              (missing_columns df) no_results in
  if negb (bool_decide (errors results = [])) then (results, w)
  else
    let df := replace_na df in
    let '(results, accepted) :=
      row_loop (tables w) (columns df) (rows df) 2 results [] in
    if negb dry_run && negb (bool_decide (accepted = [])) then
      match save_all user_id accepted w with
      | (Ret _, w') => (results, w')
      | (Raise e, w') => (add_error results ("Database error: " +:+ exn_str e), w')
      end
    else (results, w).

End Driver.

End Importer.

(** ** Bulk import of equipment ([app/utils/bulk_operations.py]) *)

Module BulkOperations.
Import Py Models Frame Importer.

Definition REQUIRED_FIELDS : list string := ["asset_tag"; "name"; "category"].

Definition OPTIONAL_FIELDS : list string :=
  ["description"; "model_number"; "manufacturer"; "serial_number";
   "procurement_date"; "warranty_expiry"; "status"; "condition";
   "chip_type"; "package_type"; "pin_count"; "temperature_grade";
   "testing_status"; "revision_info"; "design_files"; "location";
   "purchase_cost"; "current_value"; "tags"; "notes"].

Definition date_formats : list string :=
  ["%Y-%m-%d"; "%m/%d/%Y"; "%d/%m/%Y"; "%Y-%m-%d %H:%M:%S"].

(** The loop of [parse_date]: the first format that parses wins, a format
    that raises is skipped. *)
Fixpoint try_formats (date_str : string) (fmts : list string) : result value :=
  match fmts with
  | [] => Raise (BulkImportError ("Invalid date format: " +:+ date_str))
  | fmt :: fmts' =>
      match Strptime.strptime date_str fmt with
      | Ret d => Ret (VDate d)
      | Raise _ => try_formats date_str fmts'
      end
  end.

Section Rows.
Context `{FloatLib}.

(** [parse_date].  No cell is a [datetime] or a [pd.Timestamp], so the
    branch for them is not taken. *)
Definition parse_date (date_str : value) : result value :=
  if pd_isna date_str then Ret VNone
  else
    truthy <- py_bool date_str ;;
    if negb truthy || String.eqb (strip (py_str date_str)) "" then Ret VNone
    else try_formats (strip (py_str date_str)) date_formats.

(** The tuples of the two membership tests in the field loop. *)
Definition blank_before : list value := [VNone; VStr ""; VNA; VFloat Fnan].
Definition blank_after : list value := [VStr ""; VStr "NA"; VNA; VFloat Fnan].

(** The body of the loop over [OPTIONAL_FIELDS] for one field: the value
    that [setattr] stores. *)
Definition convert_field (field : string) (value : value) : result Py.value :=
  value <-
    (if bool_decide (field ∈ ["pin_count"]) then
       b <- py_not_in value blank_before ;;
       if b then py_int value else Ret VNone
     else if bool_decide (field ∈ ["purchase_cost"; "current_value"]) then
       b <- py_not_in value blank_before ;;
       if b then py_float value else Ret VNone
     else if bool_decide (field ∈ ["procurement_date"; "warranty_expiry"]) then
       b <- py_not_in value blank_before ;;
       if b then parse_date value else Ret VNone
     else
       Ret (match value with VStr s => VStr (strip s) | _ => value end)) ;;
  b <- py_in value blank_after ;;
  Ret (if b then VNone else value).

Fixpoint set_optional (cols : list string) (row : list Py.value)
    (fields : list string) (equipment : gmap string Py.value)
  : result (gmap string Py.value) :=
  match fields with
  | [] => Ret equipment
  | field :: fields' =>
      value <- convert_field field (row_get cols row field VNone) ;;
      set_optional cols row fields' (setattr equipment field value)
  end.

(** The body of the row loop, with its [try]/[except]. *)
Definition process_row (d : DB) (cols : list string) (row_num : nat)
    (row : list Py.value) : RowOutcome :=
  let asset_tag := row_get cols row "asset_tag" VNone in
  if bool_decide (asset_tag = VNone) || String.eqb (strip (py_str asset_tag)) "" then
    Rejected (row_label row_num +:+ "asset_tag is required.")
  else
    let asset_tag := strip (py_str asset_tag) in
    if exists_with (entities d) "asset_tag" (VStr asset_tag) then
      Rejected (row_label row_num +:+ "Asset tag '" +:+ asset_tag +:+ "' already exists")
    else
      let equipment := setattr ∅ "asset_tag" (VStr asset_tag) in
      let equipment :=
        setattr equipment "name" (VStr (strip (py_str (row_get cols row "name" (VStr ""))))) in
      let equipment :=
        setattr equipment "category"
          (VStr (strip (py_str (row_get cols row "category" (VStr ""))))) in
      match set_optional cols row OPTIONAL_FIELDS equipment with
      | Ret equipment => Accepted equipment
      | Raise e => Rejected (row_label row_num +:+ exn_str e)
      end.

(** [BulkOperations.import_from_dataframe] *)
Definition import_from_dataframe : DataFrame -> Z -> bool -> World -> Results * World :=
  Importer.import_from_dataframe equipment_schema REQUIRED_FIELDS process_row.

End Rows.

End BulkOperations.

(** ** Manual operations ([app/routes/inventory.py]) *)

Module Inventory.
Import Py Models.

(** The parts of a request the handlers read: the method, the submitted
    form and whether the [HX-Request] header is present. *)
Record Request := {
  method : string;
  form : gmap string string;
  hx_request : bool;
}.

(** What a handler returns: a redirect to an endpoint (as an [HX-Redirect]
    header for an HTMX request), a rendered template, or the 404 of
    [get_or_404]. *)
Inductive page :=
  | Redirect (endpoint : string)
  | HxRedirect (endpoint : string)
  | Render (template : string)
  | NotFound.

(** The flashed messages, each with its category, and the page. *)
Record Response := { flashes : list (string * string); body : page }.

Definition respond (msg category : string) (p : page) : Response :=
  {| flashes := [(msg, category)]; body := p |}.

(** [request.form.get(k, dflt)] and [request.form.get(k).strip()], which
    fails on a missing field. *)
Definition form_get_or (f : gmap string string) (k dflt : string) : string :=
  default dflt (f !! k).

Definition form_strip (f : gmap string string) (k : string) : result string :=
  match f !! k with
  | Some s => Ret (strip s)
  | None => Raise (AttributeError "'NoneType' object has no attribute 'strip'")
  end.

(** [s or None] *)
Definition or_none (s : string) : value :=
  if String.eqb s "" then VNone else VStr s.

(** [s.split(',')] *)
Fixpoint split_comma (l : list ascii) (cur : list ascii) : list string :=
  match l with
  | [] => [string_of_list_ascii (rev cur)]
  | c :: l' =>
      if Ascii.eqb c "," then string_of_list_ascii (rev cur) :: split_comma l' []
      else split_comma l' (c :: cur)
  end.

(** [', '.join(l)] *)
Fixpoint join_comma (l : list string) : string :=
  match l with
  | [] => ""
  | [s] => s
  | s :: l' => s +:+ ", " +:+ join_comma l'
  end.

(** [[tag.strip() for tag in tags_input.split(',') if tag.strip()]]
    followed by [Equipment.set_tags_list]. *)
Definition tags_of_input (tags_input : string) : value :=
  let tags_list :=
    filter (fun t => t ≠ "")
           (map strip (split_comma (list_ascii_of_string tags_input) [])) in
  VStr (match tags_list with [] => "" | _ => join_comma tags_list end).

(** [datetime.strptime(s, '%Y-%m-%d').date()] *)
Definition form_date (s : string) : result value :=
  d <- Strptime.strptime s "%Y-%m-%d" ;; Ret (VDate d).

(** [MovementLog(equipment_id=equipment.id, user_id=current_user.id, ...,
    to_location=equipment.location, ...)]; [id] is the primary key of
    [equipment]. *)
Definition movement (id : Z) (equipment : gmap string value) (current_user : User)
    (action : string) (from_user to_user : value) (notes : string) : MovementLog :=
  {| ml_equipment_id := id;
     ml_user_id := user_id current_user;
     ml_action := action;
     ml_from_location := VNone;
     ml_to_location := getattr equipment "location";
     ml_from_user_id := from_user;
     ml_to_user_id := to_user;
     ml_notes := notes |}.

(** The dictionary literals handed to [log_audit_event]. *)
Definition snapshot (keys : list string) (equipment : gmap string value)
  : gmap string value :=
  list_to_map (map (fun k => (k, getattr equipment k)) keys).

Definition view_endpoint : string := "inventory.view".
Definition index_endpoint : string := "inventory.index".

Definition after_success (req : Request) (msg : string) : Response :=
  respond msg "success"
    (if hx_request req then HxRedirect view_endpoint else Redirect view_endpoint).

(** The two [except] clauses of [add_equipment] and [edit]. *)
Definition on_error (what template : string) (e : exn) : Response :=
  if is_ValueError e then
    respond ("Invalid input: " +:+ exn_str e) "error" (Render template)
  else
    respond ("Error " +:+ what +:+ " equipment: " +:+ exn_str e) "error"
            (Render template).

Section Handlers.
Context `{FloatLib}.

(** The assignments of [edit] up to [db.session.commit()]: the updated
    object and the movement log added to the session, if any. *)
Definition edit_fields (id : Z) (equipment : gmap string value)
    (current_user : User) (f : gmap string string) : result (gmap string value * option MovementLog) :=
  let old_assigned_to := getattr equipment "assigned_to_id" in
  asset_tag <- form_strip f "asset_tag" ;;
  let equipment := setattr equipment "asset_tag" (VStr asset_tag) in
  name <- form_strip f "name" ;;
  let equipment := setattr equipment "name" (VStr name) in
  let equipment :=
    setattr equipment "description" (VStr (strip (form_get_or f "description" ""))) in
  category <- form_strip f "category" ;;
  let equipment := setattr equipment "category" (VStr category) in
  let equipment :=
    setattr equipment "model_number" (VStr (strip (form_get_or f "model_number" ""))) in
  let equipment :=
    setattr equipment "manufacturer" (VStr (strip (form_get_or f "manufacturer" ""))) in
  let equipment :=
    setattr equipment "serial_number" (VStr (strip (form_get_or f "serial_number" ""))) in
  procurement_date <-
    (match f !! "procurement_date" with
     | Some s => if String.eqb s "" then Ret VNone else form_date s
     | None => Ret VNone
     end) ;;
  let equipment := setattr equipment "procurement_date" procurement_date in
  warranty_expiry <-
    (match f !! "warranty_expiry" with
     | Some s => if String.eqb s "" then Ret VNone else form_date s
     | None => Ret VNone
     end) ;;
  let equipment := setattr equipment "warranty_expiry" warranty_expiry in
  let equipment := setattr equipment "status" (VStr (form_get_or f "status" "Available")) in
  let equipment := setattr equipment "condition" (VStr (form_get_or f "condition" "Good")) in
  let equipment :=
    setattr equipment "chip_type" (or_none (strip (form_get_or f "chip_type" ""))) in
  let equipment :=
    setattr equipment "package_type" (or_none (strip (form_get_or f "package_type" ""))) in
  let pin_count := strip (form_get_or f "pin_count" "") in
  pin_count <- (if String.eqb pin_count "" then Ret VNone else py_int (VStr pin_count)) ;;
  let equipment := setattr equipment "pin_count" pin_count in
  let equipment :=
    setattr equipment "temperature_grade"
      (or_none (strip (form_get_or f "temperature_grade" ""))) in
  let equipment :=
    setattr equipment "testing_status"
      (or_none (strip (form_get_or f "testing_status" ""))) in
  let equipment :=
    setattr equipment "revision_info"
      (or_none (strip (form_get_or f "revision_info" ""))) in
  let equipment :=
    setattr equipment "design_files" (or_none (strip (form_get_or f "design_files" ""))) in
  let equipment := setattr equipment "location" (VStr (strip (form_get_or f "location" ""))) in
  new_assigned_to <-
    (match f !! "assigned_to" with
     | Some s => if String.eqb s "" then Ret VNone else py_int (VStr s)
     | None => Ret VNone
     end) ;;
  let '(equipment, movement) :=
    if bool_decide (old_assigned_to ≠ new_assigned_to) then
      let equipment := setattr equipment "assigned_to_id" new_assigned_to in
      if bool_decide (new_assigned_to ≠ VNone ∧ new_assigned_to ≠ VInt 0) then
        let equipment := setattr equipment "status" (VStr "In Use") in
        (equipment,
         Some (movement id equipment current_user "assign" old_assigned_to new_assigned_to
                 "Assignment changed via edit"))
      else
        let equipment := setattr equipment "status" (VStr "Available") in
        (equipment,
         Some (movement id equipment current_user "unassign" old_assigned_to VNone
                 "Unassigned via edit"))
    else (equipment, None) in
  let purchase_cost := strip (form_get_or f "purchase_cost" "") in
  purchase_cost <-
    (if String.eqb purchase_cost "" then Ret VNone else py_float (VStr purchase_cost)) ;;
  let equipment := setattr equipment "purchase_cost" purchase_cost in
  let current_value := strip (form_get_or f "current_value" "") in
  current_value <-
    (if String.eqb current_value "" then Ret (getattr equipment "purchase_cost")
     else py_float (VStr current_value)) ;;
  let equipment := setattr equipment "current_value" current_value in
  let tags_input := strip (form_get_or f "tags" "") in
  let equipment :=
    setattr equipment "tags"
      (if String.eqb tags_input "" then VNone else tags_of_input tags_input) in
  let equipment := setattr equipment "notes" (or_none (strip (form_get_or f "notes" ""))) in
  Ret (equipment, movement).

Definition audit_keys : list string :=
  ["asset_tag"; "name"; "status"; "assigned_to_id"; "location"].

(** [edit] *)
Definition edit (current_user : User) (req : Request) (id : Z) (w : World)
  : Response * World :=
  match entities (tables w) !! id with
  | None => ({| flashes := []; body := NotFound |}, w)
  | Some equipment =>
      if negb (has_permission current_user "update") then
        (respond "You do not have permission to edit equipment" "error"
                 (Redirect view_endpoint), w)
      else if String.eqb (method req) "POST" then
        let old_values := snapshot audit_keys equipment in
        match edit_fields id equipment current_user (form req) with
        | Raise e => (on_error "updating" "inventory/edit.html" e, w)
        | Ret (equipment', movement) =>
            let pending :=
              UpdateEntity id equipment' ::
              match movement with Some m => [InsertMovement m] | None => [] end in
            match commit equipment_schema pending w with
            | (Raise e, w') => (on_error "updating" "inventory/edit.html" e, w')
            | (Ret _, w') =>
                match log_audit_event equipment_schema (user_id current_user)
                        "update_equipment" "equipment" (Some id) (Some old_values)
                        (Some (snapshot audit_keys equipment')) (Some id) w' with
                | (Raise e, w'') => (on_error "updating" "inventory/edit.html" e, w'')
                | (Ret _, w'') =>
                    (after_success req
                       ("Equipment " +:+ py_str (getattr equipment' "asset_tag")
                        +:+ " updated successfully"), w'')
                end
            end
        end
      else ({| flashes := []; body := Render "inventory/edit.html" |}, w)
  end.

(** The assignments of [add_equipment] up to the validation of the
    required fields. *)
Definition add_fields (f : gmap string string) : result (gmap string value) :=
  let equipment : gmap string value := ∅ in
  asset_tag <- form_strip f "asset_tag" ;;
  let equipment := setattr equipment "asset_tag" (VStr asset_tag) in
  name <- form_strip f "name" ;;
  let equipment := setattr equipment "name" (VStr name) in
  let equipment :=
    setattr equipment "description" (VStr (strip (form_get_or f "description" ""))) in
  category <- form_strip f "category" ;;
  let equipment := setattr equipment "category" (VStr category) in
  let equipment :=
    setattr equipment "model_number" (VStr (strip (form_get_or f "model_number" ""))) in
  let equipment :=
    setattr equipment "manufacturer" (VStr (strip (form_get_or f "manufacturer" ""))) in
  let equipment :=
    setattr equipment "serial_number" (VStr (strip (form_get_or f "serial_number" ""))) in
  equipment <-
    (match f !! "procurement_date" with
     | Some s => if String.eqb s "" then Ret equipment
                 else d <- form_date s ;; Ret (setattr equipment "procurement_date" d)
     | None => Ret equipment
     end) ;;
  equipment <-
    (match f !! "warranty_expiry" with
     | Some s => if String.eqb s "" then Ret equipment
                 else d <- form_date s ;; Ret (setattr equipment "warranty_expiry" d)
     | None => Ret equipment
     end) ;;
  let equipment := setattr equipment "status" (VStr (form_get_or f "status" "Available")) in
  let equipment := setattr equipment "condition" (VStr (form_get_or f "condition" "Good")) in
  let equipment :=
    setattr equipment "chip_type" (or_none (strip (form_get_or f "chip_type" ""))) in
  let equipment :=
    setattr equipment "package_type" (or_none (strip (form_get_or f "package_type" ""))) in
  let pin_count := strip (form_get_or f "pin_count" "") in
  equipment <-
    (if String.eqb pin_count "" then Ret equipment
     else n <- py_int (VStr pin_count) ;; Ret (setattr equipment "pin_count" n)) ;;
  let equipment :=
    setattr equipment "temperature_grade"
      (or_none (strip (form_get_or f "temperature_grade" ""))) in
  let equipment :=
    setattr equipment "testing_status"
      (or_none (strip (form_get_or f "testing_status" ""))) in
  let equipment :=
    setattr equipment "revision_info"
      (or_none (strip (form_get_or f "revision_info" ""))) in
  let equipment :=
    setattr equipment "design_files" (or_none (strip (form_get_or f "design_files" ""))) in
  let equipment := setattr equipment "location" (VStr (strip (form_get_or f "location" ""))) in
  equipment <-
    (match f !! "assigned_to" with
     | Some s =>
         if String.eqb s "" then Ret equipment
         else
           n <- py_int (VStr s) ;;
           Ret (setattr (setattr equipment "assigned_to_id" n) "status" (VStr "In Use"))
     | None => Ret equipment
     end) ;;
  let purchase_cost := strip (form_get_or f "purchase_cost" "") in
  equipment <-
    (if String.eqb purchase_cost "" then Ret equipment
     else
       c <- py_float (VStr purchase_cost) ;;
       Ret (setattr (setattr equipment "purchase_cost" c) "current_value" c)) ;;
  let tags_input := strip (form_get_or f "tags" "") in
  let equipment :=
    if String.eqb tags_input "" then equipment
    else setattr equipment "tags" (tags_of_input tags_input) in
  let equipment := setattr equipment "notes" (or_none (strip (form_get_or f "notes" ""))) in
  Ret equipment.

(** [add_equipment] *)
Definition add_equipment (current_user : User) (req : Request) (w : World)
  : Response * World :=
  if negb (has_permission current_user "create") then
    (respond "You do not have permission to add equipment" "error"
             (Redirect index_endpoint), w)
  else if String.eqb (method req) "POST" then
    match add_fields (form req) with
    | Raise e => (on_error "adding" "inventory/add.html" e, w)
    | Ret equipment =>
        if bool_decide (getattr equipment "asset_tag" = VStr "") then
          (respond "Asset tag is required" "error" (Render "inventory/add.html"), w)
        else if bool_decide (getattr equipment "name" = VStr "") then
          (respond "Name is required" "error" (Render "inventory/add.html"), w)
        else if exists_with (entities (tables w)) "asset_tag"
                  (getattr equipment "asset_tag") then
          (respond ("Asset tag " +:+ py_str (getattr equipment "asset_tag")
                    +:+ " already exists") "error" (Render "inventory/add.html"), w)
        else
          let id := next_id (entities (tables w)) in
          match commit equipment_schema [InsertEntity equipment] w with
          | (Raise e, w1) => (on_error "adding" "inventory/add.html" e, w1)
          | (Ret _, w1) =>
              match log_audit_event equipment_schema (user_id current_user)
                      "create_equipment" "equipment" (Some id) None
                      (Some (snapshot ["asset_tag"; "name"; "category"] equipment))
                      (Some id) w1 with
              | (Raise e, w2) => (on_error "adding" "inventory/add.html" e, w2)
              | (Ret _, w2) =>
                  let assigned := getattr equipment "assigned_to_id" in
                  let done :=
                    after_success req
                      ("Equipment " +:+ py_str (getattr equipment "asset_tag")
                       +:+ " added successfully") in
                  if bool_decide (assigned ≠ VNone ∧ assigned ≠ VInt 0) then
                    match commit equipment_schema
                            [InsertMovement
                               (movement id equipment current_user "assign" VNone
                                  assigned "Initial assignment during creation")] w2 with
                    | (Raise e, w3) => (on_error "adding" "inventory/add.html" e, w3)
                    | (Ret _, w3) => (done, w3)
                    end
                  else (done, w2)
              end
          end
    end
  else ({| flashes := []; body := Render "inventory/add.html" |}, w).

(** The handler of the [try] blocks of [checkout] and [checkin]: roll
    back, flash, and fall through to the redirect. *)
Definition on_failure (what : string) (e : exn) : Response :=
  respond ("Error checking " +:+ what +:+ " equipment: " +:+ exn_str e) "error"
          (Redirect view_endpoint).

(** [checkout] *)
Definition checkout (current_user : User) (id : Z) (w : World) : Response * World :=
  match entities (tables w) !! id with
  | None => ({| flashes := []; body := NotFound |}, w)
  | Some equipment =>
      if negb (is_available equipment) then
        (respond "Equipment is not available for checkout" "error"
                 (Redirect view_endpoint), w)
      else if negb (has_permission current_user "checkout") then
        (respond "You do not have permission to checkout equipment" "error"
                 (Redirect view_endpoint), w)
      else
        let equipment := setattr equipment "status" (VStr "In Use") in
        let equipment := setattr equipment "assigned_to_id" (VInt (user_id current_user)) in
        let m := movement id equipment current_user "checkout" VNone
                   (VInt (user_id current_user)) "Self-checkout" in
        match commit equipment_schema [UpdateEntity id equipment; InsertMovement m] w with
        | (Raise e, w1) => (on_failure "out" e, w1)
        | (Ret _, w1) =>
            match log_audit_event equipment_schema (user_id current_user)
                    "checkout_equipment" "equipment" (Some id)
                    (Some (<["status" := VStr "Available"]>
                             {["assigned_to_id" := VNone]}))
                    (Some (<["status" := VStr "In Use"]>
                             {["assigned_to_id" := VInt (user_id current_user)]}))
                    (Some id) w1 with
            | (Raise e, w2) => (on_failure "out" e, w2)
            | (Ret _, w2) =>
                (respond ("Equipment " +:+ py_str (getattr equipment "asset_tag")
                          +:+ " checked out successfully") "success"
                         (Redirect view_endpoint), w2)
            end
        end
  end.

(** [checkin] *)
Definition checkin (current_user : User) (id : Z) (w : World) : Response * World :=
  match entities (tables w) !! id with
  | None => ({| flashes := []; body := NotFound |}, w)
  | Some equipment =>
      if bool_decide (getattr equipment "assigned_to_id" ≠ VInt (user_id current_user))
         && negb (has_permission current_user "update") then
        (respond "You can only check in equipment assigned to you" "error"
                 (Redirect view_endpoint), w)
      else
        let old_assigned_to := getattr equipment "assigned_to_id" in
        let equipment := setattr equipment "status" (VStr "Available") in
        let equipment := setattr equipment "assigned_to_id" VNone in
        let m := movement id equipment current_user "checkin" old_assigned_to VNone
                   "Equipment returned" in
        match commit equipment_schema [UpdateEntity id equipment; InsertMovement m] w with
        | (Raise e, w1) => (on_failure "in" e, w1)
        | (Ret _, w1) =>
            match log_audit_event equipment_schema (user_id current_user)
                    "checkin_equipment" "equipment" (Some id)
                    (Some (<["status" := VStr "In Use"]>
                             {["assigned_to_id" := old_assigned_to]}))
                    (Some (<["status" := VStr "Available"]>
                             {["assigned_to_id" := VNone]}))
                    (Some id) w1 with
            | (Raise e, w2) => (on_failure "in" e, w2)
            | (Ret _, w2) =>
                (respond ("Equipment " +:+ py_str (getattr equipment "asset_tag")
                          +:+ " checked in successfully") "success"
                         (Redirect view_endpoint), w2)
            end
        end
  end.

End Handlers.

End Inventory.

(** ** Bulk import of assets ([asset_app/utils/bulk_operations.py]) *)

Module AssetBulkOperations.
Import Py Models Frame Importer.

Definition asset_schema : Schema :=
  {| table_name := "assets";
     unique_col := "serial_number";
     not_null := ["invoice_no"; "serial_number"; "owner_email"; "description"];
     defaults := [("status", VStr "Active")] |}.

Definition REQUIRED_FIELDS : list string :=
  ["invoice_no"; "serial_number"; "description"; "owner_email"].

Definition OPTIONAL_FIELDS : list string :=
  ["invoice_date"; "purchase_order_no"; "received_date"; "manufacturer";
   "model"; "vendor"; "mfg_country"; "hsn_code"; "is_bonded";
   "last_calibrated"; "next_calibration"; "notes"; "entry_no";
   "returnable"; "cap_x"; "amortization_period"; "status";
   "team"; "recipient_name"; "recipient_email"; "category";
   "sub_category"; "location"].

Definition DATE_FIELDS : list string :=
  ["invoice_date"; "received_date"; "last_calibrated"; "next_calibration"].

Section Rows.
Context `{FloatLib}.

(** The body of the loop over [OPTIONAL_FIELDS] for one field. *)
Definition convert_field (field : string) (value : value) : result Py.value :=
  blank <- (if pd_isna value then Ret true else py_in value [VStr ""; VStr "NA"]) ;;
  let value := if blank then VNone else value in
  if bool_decide (field ∈ DATE_FIELDS) && negb (bool_decide (value = VNone)) then
    BulkOperations.parse_date value
  else Ret (match value with VStr s => VStr (strip s) | _ => value end).

Fixpoint set_optional (cols : list string) (row : list Py.value)
    (fields : list string) (asset : gmap string Py.value)
  : result (gmap string Py.value) :=
  match fields with
  | [] => Ret asset
  | field :: fields' =>
      value <- convert_field field (row_get cols row field VNone) ;;
      set_optional cols row fields' (setattr asset field value)
  end.

(** The body of the row loop, with its [try]/[except]. *)
Definition process_row (d : DB) (cols : list string) (row_num : nat)
    (row : list Py.value) : RowOutcome :=
  let label := row_label row_num in
  let serial_number := row_get cols row "serial_number" VNone in
  if bool_decide (serial_number = VNone)
     || String.eqb (strip (py_str serial_number)) "" then
    Rejected (label +:+ "serial_number is required.")
  else
    let serial_number := strip (py_str serial_number) in
    if exists_with (entities d) "serial_number" (VStr serial_number) then
      Rejected
        (label +:+ "Serial number '" +:+ serial_number +:+ "' already exists")
    else
      let asset := setattr ∅ "serial_number" (VStr serial_number) in
      let invoice_no := strip (py_str (row_get cols row "invoice_no" (VStr ""))) in
      let asset := setattr asset "invoice_no" (VStr invoice_no) in
      let description := strip (py_str (row_get cols row "description" (VStr ""))) in
      let asset := setattr asset "description" (VStr description) in
      let owner_email := strip (py_str (row_get cols row "owner_email" (VStr ""))) in
      let asset := setattr asset "owner_email" (VStr owner_email) in
      if String.eqb invoice_no "" then
        Rejected (label +:+ "invoice_no is required.")
      else if String.eqb description "" then
        Rejected (label +:+ "description is required.")
      else if String.eqb owner_email "" then
        Rejected (label +:+ "owner_email is required.")
      else
        match set_optional cols row OPTIONAL_FIELDS asset with
        | Ret asset => Accepted asset
        | Raise e => Rejected (label +:+ exn_str e)
        end.

(** [BulkOperations.import_from_dataframe] of [asset_app] *)
Definition import_from_dataframe : DataFrame -> Z -> bool -> World -> Results * World :=
  Importer.import_from_dataframe asset_schema REQUIRED_FIELDS process_row.

End Rows.

End AssetBulkOperations.

(** ** Header validation ([validate_headers] of both applications) *)

Module Headers.
Import Py Inventory.

(** [validate_headers(headers)], over the list [REQUIRED_FIELDS] of the
    class. *)
Definition validate_headers (required headers : list string) : result bool :=
  let missing := filter (fun f => f ∉ headers) required in
  if bool_decide (missing = []) then Ret true
  else Raise (BulkImportError ("Missing required fields: " +:+ join_comma missing)).

End Headers.

(** ** Cells of the asset import *)

Module Cells.
Import Py.

(** The cells that the field loop of the asset import turns into [None]:
    [pd.isna(value) or value in ('', 'NA')]. *)
Definition blank_cell (v : value) : bool :=
  pd_isna v || bool_decide (v = VStr "") || bool_decide (v = VStr "NA").

(** [value.strip()] when the value is a str; other values are kept. *)
Definition stripped (v : value) : value :=
  match v with VStr s => VStr (strip s) | _ => v end.

End Cells.

(** ** Properties of the tables *)

Module Store.
Import Py Models.

(** No two rows of the entity table agree on column [col]. *)
Definition unique_key (col : string) (tbl : gmap Z (gmap string value)) : Prop :=
  forall i j ei ej,
    tbl !! i = Some ei -> tbl !! j = Some ej ->
    getattr ei col = getattr ej col -> i = j.

(** The tables [d'] hold what [d] holds and more: every primary key of
    [d] is still a key, and both logs of [d] are the beginning of the
    logs of [d']. *)
Definition extends (d d' : DB) : Prop :=
  (forall id, is_Some (entities d !! id) -> is_Some (entities d' !! id))
  /\ movement_logs d `prefix_of` movement_logs d'
  /\ audit_logs d `prefix_of` audit_logs d'.

(** The statement rewrites a row that is there. *)
Definition aims_at (tbl : gmap Z (gmap string value)) (s : stmt) : Prop :=
  match s with
  | UpdateEntity id _ => is_Some (tbl !! id)
  | _ => True
  end.

(** What every write of the modelled handlers does to the tables: it
    removes nothing, and it keeps column [col] unique when it was. *)
Definition keeps (col : string) (d d' : DB) : Prop :=
  extends d d'
  /\ (unique_key col (entities d) -> unique_key col (entities d')).

End Store.

(** ** Calendar dates *)

Module Calendar.
Import Py.

(** The dates that [datetime.date] can hold. *)
Definition valid_date (d : date) : Prop :=
  1 <= year d <= 9999
  /\ 1 <= month d <= 12
  /\ 1 <= day d <= Strptime.days_in_month (year d) (month d).

(** The text of a year is four digits that read as the year. *)
Definition year_text_ok (y : Z) : bool :=
  match list_ascii_of_string (pad4 y) with
  | [a; b; c; d] =>
      is_digit a && is_digit b && is_digit c && is_digit d
      && (digits_val [a; b; c; d] =? y)
  | _ => false
  end.

(** The text ["-mm-dd"] of a month and a day. *)
Definition month_day_text (m dd : Z) : list ascii :=
  list_ascii_of_string ("-" +:+ pad2 m +:+ "-" +:+ pad2 dd).

End Calendar.

(** ** Deleting an entity ([delete] of [app/routes/inventory.py]) *)

Module Deletion.
Import Py Models Inventory.

(** The relationships [movement_logs] and [audit_logs] of [Equipment] are
    declared with [cascade='all, delete-orphan']:
    [db.session.delete(equipment)] marks the entity and every log row
    that refers to it. *)
Definition cascade_delete (id : Z) (d : DB) : DB :=
  {| entities := base.delete id (entities d);
     movement_logs := filter (fun m => ml_equipment_id m <> id) (movement_logs d);
     audit_logs := filter (fun a => al_equipment_id a <> Some id) (audit_logs d) |}.

(** The number of rows marked: one DELETE is sent for each. *)
Definition marked_rows (id : Z) (d : DB) : nat :=
  (length (filter (fun m => ml_equipment_id m = id) (movement_logs d))
   + length (filter (fun a => al_equipment_id a = Some id) (audit_logs d))
   + 1)%nat.

(** [n] statements against the script of the store: whether all went
    through, and the rest of the script. *)
Fixpoint send (n : nat) (fs : list bool) : bool * list bool :=
  match n with
  | O => (true, fs)
  | S n' =>
      match fs with
      | true :: fs' => (false, fs')
      | _ => send n' (tail fs)
      end
  end.

(** [db.session.delete(equipment); db.session.commit()] *)
Definition commit_delete (id : Z) (w : World) : result unit * World :=
  match send (marked_rows id (tables w)) (faults w) with
  | (true, fs) => (Ret tt, {| tables := cascade_delete id (tables w); faults := fs |})
  | (false, fs) => (Raise store_refused, {| tables := tables w; faults := fs |})
  end.

Definition on_delete_error (e : exn) : Response :=
  respond ("Error deleting equipment: " +:+ exn_str e) "error" (Redirect view_endpoint).

Section Handler.
Context `{FloatLib}.

(** [delete].  The permission is looked at before the entity is looked
    up. *)
Definition delete (current_user : User) (req : Request) (id : Z) (w : World)
  : Response * World :=
  if negb (has_permission current_user "delete") then
    (respond "You do not have permission to delete equipment" "error"
             (Redirect view_endpoint), w)
  else
    match entities (tables w) !! id with
    | None => ({| flashes := []; body := NotFound |}, w)
    | Some equipment =>
        let old_values := snapshot ["asset_tag"; "name"; "category"] equipment in
        match commit_delete id w with
        | (Raise e, w1) => (on_delete_error e, w1)
        | (Ret _, w1) =>
            match log_audit_event equipment_schema (user_id current_user)
                    "delete_equipment" "equipment" (Some id) (Some old_values) None
                    (Some id) w1 with
            | (Raise e, w2) => (on_delete_error e, w2)
            | (Ret _, w2) =>
                (respond ("Equipment " +:+ py_str (getattr equipment "asset_tag")
                          +:+ " deleted successfully") "success"
                         (if hx_request req then HxRedirect index_endpoint
                          else Redirect index_endpoint), w2)
            end
        end
    end.

End Handler.

End Deletion.

(** ** Tags of an entity ([Equipment.get_tags_list], [Equipment.set_tags_list]) *)

Module Tags.
Import Py Models Inventory.

(** [[tag.strip() for tag in (self.tags or '').split(',') if tag.strip()]];
    the column holds a str or [None]. *)
Definition get_tags_list (self : gmap string value) : list string :=
  let tags := match getattr self "tags" with VStr s => s | _ => "" end in
  filter (fun t => t <> "") (map strip (split_comma (list_ascii_of_string tags) [])).

(** [self.tags = ', '.join(tags_list) if tags_list else ''] *)
Definition set_tags_list (self : gmap string value) (tags_list : list string)
  : gmap string value :=
  setattr self "tags"
    (VStr (match tags_list with [] => "" | _ => join_comma tags_list end)).

(** A tag as [get_tags_list] returns it: not empty, no whitespace around
    it, no comma in it. *)
Definition clean_tag (t : string) : Prop :=
  t <> "" /\ strip t = t /\ has_char "," t = false.

End Tags.

(** ** Statements of the specification *)

Module Spec.
Import Py Models Frame Importer.

(** *** Rows and reports *)

Section Keys.
Context `{FloatLib}.

(** The unique key a row carries in column [key]: the stripped text of
    the cell, when the cell is not [None] and the text is not blank. *)
Definition key_of (cols : list string) (row : list value) (key : string)
  : option string :=
  let v := row_get cols row key VNone in
  if bool_decide (v = VNone) then None
  else if String.eqb (strip (py_str v)) "" then None
  else Some (strip (py_str v)).

End Keys.

(** A cell that holds something other than an integer: a text that is no
    missing marker and that [int()] does not read, or a float with a
    fractional part. *)
Definition not_an_integer (v : value) : Prop :=
  (exists s, v = VStr s /\ s <> "" /\ s <> "NA" /\ int_of_string s = None)
  \/ (exists m e, v = VFloat (Ffin m e) /\ e < 0 /\ m mod 2 ^ (- e) <> 0).

(** A row has nothing in column [key]: the cell is [None] or a text of
    whitespace. *)
Definition missing_key (cols : list string) (row : list value) (key : string) : Prop :=
  row_get cols row key VNone = VNone
  \/ exists s, row_get cols row key VNone = VStr s /\ strip s = "".

(** The outcome of every row of a table, each computed from the store,
    the row and its number alone. *)
Fixpoint outcomes (body : DB -> list string -> nat -> list value -> RowOutcome)
    (d : DB) (cols : list string) (rows : list (list value)) (row_num : nat)
  : list RowOutcome :=
  match rows with
  | [] => []
  | row :: rows' => body d cols row_num row :: outcomes body d cols rows' (S row_num)
  end.

Definition accepted_of (os : list RowOutcome) : list (gmap string value) :=
  omap (fun o => match o with Accepted obj => Some obj | Rejected _ => None end) os.

Definition rejected_of (os : list RowOutcome) : list string :=
  omap (fun o => match o with Rejected msg => Some msg | Accepted _ => None end) os.

(** The report that a list of outcomes amounts to. *)
Definition tally (os : list RowOutcome) : Results :=
  {| success := length (accepted_of os);
     errors := rejected_of os;
     warnings := [];
     total := length os |}.

Definition merge (r1 r2 : Results) : Results :=
  {| success := success r1 + success r2;
     errors := errors r1 ++ errors r2;
     warnings := warnings r1 ++ warnings r2;
     total := total r1 + total r2 |}.

(** The report of a dry run over a table whose row after [pre] is
    rejected with [msg]: the rows before and after it are tallied as they
    are on their own. *)
Definition report_around (before after : list RowOutcome) (msg : string) : Results :=
  {| success := length (accepted_of before) + length (accepted_of after);
     errors := rejected_of before ++ [msg] ++ rejected_of after;
     warnings := [];
     total := length before + 1 + length after |}.

(** *** The store *)

(** The store accepts the next [n] write statements. *)
Definition accepts (n : nat) (fs : list bool) : bool := forallb negb (take n fs).

(** The invariant of the specification: an entity has an assignee exactly
    when its status is ['In Use']. *)
Definition in_use_iff_assigned (e : gmap string value) : Prop :=
  getattr e "assigned_to_id" <> VNone <-> getattr e "status" = VStr "In Use".

(** What a call did to the entity table: nothing, or it wrote the row
    [id], and then the row it wrote satisfies [P]. *)
Definition wrote_nothing_or (w w' : World) (id : Z)
    (P : gmap string value -> Prop) : Prop :=
  entities (tables w') = entities (tables w)
  \/ exists e', entities (tables w') = <[id := e']> (entities (tables w)) /\ P e'.

(** *** Dates *)

(** The order of the formats as the specification words it: each format
    is tried only when the ones before it have failed. *)
Definition parse_in_documented_order (s : string) : result value :=
  match Strptime.strptime s "%Y-%m-%d" with
  | Ret d => Ret (VDate d)
  | Raise _ =>
      match Strptime.strptime s "%m/%d/%Y" with
      | Ret d => Ret (VDate d)
      | Raise _ =>
          match Strptime.strptime s "%d/%m/%Y" with
          | Ret d => Ret (VDate d)
          | Raise _ =>
              match Strptime.strptime s "%Y-%m-%d %H:%M:%S" with
              | Ret d => Ret (VDate d)
              | Raise _ => Raise (BulkImportError ("Invalid date format: " +:+ s))
              end
          end
      end
  end.

Definition fails {A} (r : result A) : Prop :=
  match r with Raise _ => True | Ret _ => False end.

End Spec.

(** ** Concrete data for the examples *)

Module Examples.
Import Py Models Frame Importer Inventory.

(** None of the examples holds a float or converts to one; they are run
    with a float library that prints no digits and converts nothing. *)
#[global] Instance no_floats : FloatLib :=
  {| float_repr := fun _ _ => "float";
     float_of_string := fun _ => None;
     float_of_Z := fun _ => None |}.

Definition empty_db : DB :=
  {| entities := ∅; movement_logs := []; audit_logs := [] |}.

Definition empty_world : World := {| tables := empty_db; faults := [] |}.

Definition admin : User := {| user_id := 1; user_role := "Admin" |}.
Definition researcher : User := {| user_id := 2; user_role := "Researcher" |}.
Definition reader : User := {| user_id := 3; user_role := "Read-only" |}.

(** An oscilloscope on the shelf, and a probe that the researcher has. *)
Definition scope : gmap string value :=
  list_to_map [("id", VInt 1); ("asset_tag", VStr "EQ-1"); ("name", VStr "Scope");
               ("category", VStr "Test"); ("status", VStr "Available");
               ("condition", VStr "Good")].

Definition probe : gmap string value :=
  list_to_map [("id", VInt 2); ("asset_tag", VStr "EQ-2"); ("name", VStr "Probe");
               ("category", VStr "Test"); ("status", VStr "In Use");
               ("condition", VStr "Good"); ("assigned_to_id", VInt 2)].

Definition lab : World :=
  {| tables := {| entities := <[1 := scope]> {[2 := probe]};
                  movement_logs := []; audit_logs := [] |};
     faults := [] |}.

(** The edit form of the oscilloscope with the status set to In Use and
    no assignee chosen, and the same form with user 2 chosen. *)
Definition status_only_edit : Request :=
  {| method := "POST";
     form := list_to_map [("asset_tag", "EQ-1"); ("name", "Scope");
                          ("category", "Test"); ("status", "In Use")];
     hx_request := false |}.

Definition assign_edit : Request :=
  {| method := "POST";
     form := list_to_map [("asset_tag", "EQ-1"); ("name", "Scope");
                          ("category", "Test"); ("status", "Available");
                          ("assigned_to", "2")];
     hx_request := false |}.

(** The add form of a meter with the status set to In Use and no assignee
    chosen. *)
Definition status_only_add : Request :=
  {| method := "POST";
     form := list_to_map [("asset_tag", "EQ-5"); ("name", "Meter");
                          ("category", "Test"); ("status", "In Use")];
     hx_request := false |}.

Definition required_columns : list string := ["asset_tag"; "name"; "category"].

Definition plain_row (tag name : string) : list value :=
  [VStr tag; VStr name; VStr "Test"].

Definition untagged_row (name : string) : list value :=
  [VNone; VStr name; VStr "Test"].

(** Two rows with one asset tag. *)
Definition two_same_tags : DataFrame :=
  {| columns := required_columns;
     rows := [plain_row "EQ-7" "Meter"; plain_row "EQ-7" "Counter"] |}.

(** One row with none of the required fields. *)
Definition nothing_required : DataFrame :=
  {| columns := required_columns; rows := [[VNone; VNone; VNone]] |}.

(** Six rows; the second and the fifth have no asset tag. *)
Definition six_rows : DataFrame :=
  {| columns := required_columns;
     rows := [plain_row "EQ-11" "a"; untagged_row "b"; plain_row "EQ-13" "c";
              plain_row "EQ-14" "d"; untagged_row "e"; plain_row "EQ-16" "f"] |}.

(** Three good rows, and a store that refuses the second insert. *)
Definition three_rows : DataFrame :=
  {| columns := required_columns;
     rows := [plain_row "EQ-21" "a"; plain_row "EQ-22" "b"; plain_row "EQ-23" "c"] |}.

Definition refusing_world : World := {| tables := empty_db; faults := [false; true] |}.

(** Three rows; the second has the asset tag of the oscilloscope. *)
Definition colliding_rows : DataFrame :=
  {| columns := required_columns;
     rows := [plain_row "EQ-31" "a"; plain_row "EQ-1" "b"; plain_row "EQ-33" "c"] |}.

(** A pin count of 3.5, and a pin count that is no number. *)
Definition odd_pin_counts : DataFrame :=
  {| columns := required_columns ++ ["pin_count"];
     rows := [plain_row "EQ-41" "a" ++ [VFloat (Ffin 7 (-1))];
              plain_row "EQ-42" "b" ++ [VStr "many"]] |}.

End Examples.

(** ** More concrete data *)

Module Samples.
Import Py Models Frame Importer Inventory Examples.

(** A meter that the reader holds. *)
Definition meter : gmap string value :=
  list_to_map [("id", VInt 3); ("asset_tag", VStr "EQ-3"); ("name", VStr "Meter");
               ("category", VStr "Test"); ("status", VStr "In Use");
               ("condition", VStr "Good"); ("assigned_to_id", VInt 3)].

Definition scope_moved : MovementLog :=
  {| ml_equipment_id := 1; ml_user_id := 1; ml_action := "move";
     ml_from_location := VStr "Lab 1"; ml_to_location := VStr "Lab 2";
     ml_from_user_id := VNone; ml_to_user_id := VNone; ml_notes := "" |}.

Definition probe_out : MovementLog :=
  {| ml_equipment_id := 2; ml_user_id := 2; ml_action := "checkout";
     ml_from_location := VNone; ml_to_location := VNone;
     ml_from_user_id := VNone; ml_to_user_id := VInt 2; ml_notes := "Self-checkout" |}.

Definition scope_created : AuditLog :=
  {| al_user_id := 1; al_equipment_id := Some 1; al_action := "create_equipment";
     al_table_name := "equipment"; al_record_id := Some 1;
     al_old_values := None; al_new_values := None |}.

Definition batch_logged : AuditLog :=
  {| al_user_id := 1; al_equipment_id := None; al_action := "bulk_import";
     al_table_name := "equipment"; al_record_id := None;
     al_old_values := None; al_new_values := None |}.

(** The laboratory with the meter and some history. *)
Definition busy_lab : World :=
  {| tables := {| entities := <[3 := meter]> (<[1 := scope]> {[2 := probe]});
                  movement_logs := [scope_moved; probe_out];
                  audit_logs := [scope_created; batch_logged] |};
     faults := [] |}.

Definition plain_post : Request :=
  {| method := "POST"; form := ∅; hx_request := false |}.

(** The add form with the asset tag of the oscilloscope, the add form of
    a counter for user 2, and the edit form that gives the oscilloscope
    the asset tag of the probe. *)
Definition add_scope_again : Request :=
  {| method := "POST";
     form := list_to_map [("asset_tag", "EQ-1"); ("name", "Scope 2");
                          ("category", "Test")];
     hx_request := false |}.

Definition add_counter : Request :=
  {| method := "POST";
     form := list_to_map [("asset_tag", " EQ-4 "); ("name", "Counter");
                          ("category", "Test"); ("assigned_to", "2")];
     hx_request := false |}.

Definition retag_edit : Request :=
  {| method := "POST";
     form := list_to_map [("asset_tag", "EQ-2"); ("name", "Scope");
                          ("category", "Test"); ("status", "Available")];
     hx_request := false |}.

(** A table without the column [category]. *)
Definition no_category : DataFrame :=
  {| columns := ["asset_tag"; "name"]; rows := [[VStr "EQ-61"; VStr "Meter"]] |}.

(** A row of the asset import with a vendor and an invoice date. *)
Definition asset_columns : list string :=
  ["invoice_no"; "serial_number"; "description"; "owner_email"; "vendor";
   "invoice_date"].

Definition asset_row : list value :=
  [VStr "INV-1"; VStr "SN-1"; VStr "Bench scope"; VStr "owner@lab.org";
   VStr " Acme "; VStr "2024-01-31"].

End Samples.

(** * Properties *)

Import Py Models Frame Importer Spec.

(** ** Date parsing *)

Lemma strip_blank_text s :
  String.eqb (strip s) "" = false -> negb (String.eqb s "") = true.
Proof.
  destruct s; [vm_compute; discriminate | reflexivity].
Qed.

(** C6: [parse_date] on a text cell tries %Y-%m-%d, %m/%d/%Y, %d/%m/%Y and
    %Y-%m-%d %H:%M:%S in this order on the stripped text, returns the
    first date that parses and raises "Invalid date format" when none
    does (a blank cell is no date at all and gives [None]).  The texts
    2024-01-31, 01/31/2024 and 31/01/2024 give 31 January 2024 through
    the first, the second and the third format. *)
Theorem parse_date_format_order `{FloatLib} :
  (forall s : string,
      BulkOperations.parse_date (VStr s) =
      if String.eqb (strip s) "" then Ret VNone
      else parse_in_documented_order (strip s))
  /\ BulkOperations.date_formats =
       ["%Y-%m-%d"; "%m/%d/%Y"; "%d/%m/%Y"; "%Y-%m-%d %H:%M:%S"]
  /\ (BulkOperations.parse_date (VStr "2024-01-31") = Ret (VDate (Date 2024 1 31))
      /\ Strptime.strptime "2024-01-31" "%Y-%m-%d" = Ret (Date 2024 1 31))
  /\ (BulkOperations.parse_date (VStr "01/31/2024") = Ret (VDate (Date 2024 1 31))
      /\ fails (Strptime.strptime "01/31/2024" "%Y-%m-%d")
      /\ Strptime.strptime "01/31/2024" "%m/%d/%Y" = Ret (Date 2024 1 31))
  /\ (BulkOperations.parse_date (VStr "31/01/2024") = Ret (VDate (Date 2024 1 31))
      /\ fails (Strptime.strptime "31/01/2024" "%Y-%m-%d")
      /\ fails (Strptime.strptime "31/01/2024" "%m/%d/%Y")
      /\ Strptime.strptime "31/01/2024" "%d/%m/%Y" = Ret (Date 2024 1 31)).
Proof.
  split; [| split; [reflexivity |]].
  - intros s. unfold BulkOperations.parse_date. cbn [pd_isna py_bool bind py_str].
    destruct (String.eqb (strip s) "") eqn:Hs.
    + rewrite orb_true_r. reflexivity.
    + rewrite (strip_blank_text _ Hs). cbn [negb orb].
      unfold BulkOperations.try_formats, BulkOperations.date_formats,
        parse_in_documented_order.
      repeat (destruct (Strptime.strptime (strip s) _); [reflexivity |]).
      reflexivity.
  - repeat split; vm_compute; reflexivity.
Qed.

(** ** The row loop *)

Section DriverFacts.
Variable sch : Schema.
Variable required : list string.
Variable body : DB -> list string -> nat -> list value -> RowOutcome.

Lemma merge_no_results r : merge no_results r = r.
Proof. destruct r; reflexivity. Qed.

(** The loop is a tally of the outcomes of its rows on top of what was
    accumulated before. *)
Lemma row_loop_outcomes d cols rows n res acc :
  row_loop body d cols rows n res acc =
  (merge res (tally (outcomes body d cols rows n)),
   acc ++ accepted_of (outcomes body d cols rows n)).
Proof.
  revert n res acc.
  induction rows as [|row rows IH]; intros n res acc; cbn [row_loop outcomes].
  - destruct res; unfold merge, tally; cbn.
    rewrite !app_nil_r, !Nat.add_0_r. reflexivity.
  - destruct (body d cols n row) as [obj|msg]; rewrite IH;
      destruct res; unfold merge, tally, count_row, count_success, add_error,
        accepted_of, rejected_of; cbn;
      rewrite <- ?app_assoc; cbn; f_equal; f_equal; lia.
Qed.

Lemma outcomes_app d cols pre post n :
  outcomes body d cols (pre ++ post) n =
  outcomes body d cols pre n ++ outcomes body d cols post (n + length pre)%nat.
Proof.
  revert n. induction pre as [|row pre IH]; intros n; cbn.
  - rewrite Nat.add_0_r. reflexivity.
  - rewrite IH. replace (S n + length pre)%nat with (n + S (length pre))%nat by lia.
    reflexivity.
Qed.

Lemma outcomes_length d cols rows n :
  length (outcomes body d cols rows n) = length rows.
Proof. revert n. induction rows; intros; cbn; auto. Qed.

Lemma outcomes_lookup d cols rows n i row :
  rows !! i = Some row ->
  outcomes body d cols rows n !! i = Some (body d cols (n + i)%nat row).
Proof.
  revert n i. induction rows as [|r rows IH]; intros n [|i] Hi; try discriminate.
  - injection Hi as ->. cbn. rewrite Nat.add_0_r. reflexivity.
  - simpl in Hi |- *. rewrite (IH (S n) i Hi).
    replace (S n + i)%nat with (n + S i)%nat by lia. reflexivity.
Qed.

(** When no required column is missing, the import is the row loop over
    the table with its missing markers replaced, then the commit step. *)
Lemma import_unfold df user_id dry_run w :
  missing_columns required df = [] ->
  Importer.import_from_dataframe sch required body df user_id dry_run w =
  let os := outcomes body (tables w) (columns df) (rows (replace_na df)) 2 in
  if negb dry_run && negb (bool_decide (accepted_of os = [])) then
    match save_all sch user_id (accepted_of os) w with
    | (Ret _, w') => (tally os, w')
    | (Raise e, w') => (add_error (tally os) ("Database error: " +:+ exn_str e), w')
    end
  else (tally os, w).
Proof.
  intros Hm. unfold Importer.import_from_dataframe. rewrite Hm. cbn [fold_left].
  cbn [errors no_results bool_decide negb]. rewrite bool_decide_eq_true_2 by reflexivity.
  cbn [negb]. cbn zeta. rewrite row_loop_outcomes, merge_no_results. cbn [app].
  reflexivity.
Qed.

(** A dry run returns the world it was given. *)
Lemma dry_run_frame df user_id w :
  snd (Importer.import_from_dataframe sch required body df user_id true w) = w.
Proof.
  unfold Importer.import_from_dataframe.
  destruct (negb (bool_decide (errors _ = []))); [reflexivity |].
  cbn zeta. destruct (row_loop _ _ _ _ _ _ _) as [res acc]. reflexivity.
Qed.

End DriverFacts.

(** ** Row validation of the equipment import *)

Section EquipmentRows.
Context `{FloatLib}.
Import BulkOperations.

Lemma exists_with_true tbl col v :
  exists_with tbl col v = true <->
  exists id row, tbl !! id = Some row /\ getattr row col = v.
Proof. unfold exists_with. apply bool_decide_eq_true. Qed.

Lemma process_row_tag_missing d cols n row :
  missing_key cols row "asset_tag" ->
  process_row d cols n row = Rejected (row_label n +:+ "asset_tag is required.").
Proof.
  unfold missing_key, process_row. intros [-> | (s & -> & Hs)].
  - reflexivity.
  - cbn [py_str]. rewrite Hs. rewrite orb_true_r. reflexivity.
Qed.

Lemma process_row_collision d cols n row tag :
  key_of cols row "asset_tag" = Some tag ->
  (exists id e, entities d !! id = Some e /\ getattr e "asset_tag" = VStr tag) ->
  process_row d cols n row =
  Rejected (row_label n +:+ "Asset tag '" +:+ tag +:+ "' already exists").
Proof.
  unfold key_of, process_row. intros Hk Hex.
  destruct (bool_decide (row_get cols row "asset_tag" VNone = VNone)) eqn:Hn;
    [discriminate |].
  destruct (String.eqb (strip (py_str (row_get cols row "asset_tag" VNone))) "") eqn:Hb;
    [discriminate |].
  injection Hk as <-. cbn [orb].
  apply exists_with_true in Hex. rewrite Hex. reflexivity.
Qed.

End EquipmentRows.

Section AssetRows.
Context `{FloatLib}.
Import AssetBulkOperations.

Lemma asset_row_serial_missing d cols n row :
  missing_key cols row "serial_number" ->
  process_row d cols n row = Rejected (row_label n +:+ "serial_number is required.").
Proof.
  unfold missing_key, process_row. intros [-> | (s & -> & Hs)].
  - reflexivity.
  - cbn [py_str]. rewrite Hs. rewrite orb_true_r. reflexivity.
Qed.

Lemma asset_row_collision d cols n row serial :
  key_of cols row "serial_number" = Some serial ->
  (exists id e, entities d !! id = Some e /\ getattr e "serial_number" = VStr serial) ->
  process_row d cols n row =
  Rejected (row_label n +:+ "Serial number '" +:+ serial +:+ "' already exists").
Proof.
  unfold key_of, process_row. intros Hk Hex.
  destruct (bool_decide (row_get cols row "serial_number" VNone = VNone)) eqn:Hn;
    [discriminate |].
  destruct (String.eqb (strip (py_str (row_get cols row "serial_number" VNone))) "")
    eqn:Hb; [discriminate |].
  injection Hk as <-. cbn [orb].
  apply exists_with_true in Hex. rewrite Hex. reflexivity.
Qed.

End AssetRows.

(** ** Reports *)

Lemma accepted_of_app os1 os2 :
  accepted_of (os1 ++ os2) = accepted_of os1 ++ accepted_of os2.
Proof. apply omap_app. Qed.

Lemma rejected_of_app os1 os2 :
  rejected_of (os1 ++ os2) = rejected_of os1 ++ rejected_of os2.
Proof. apply omap_app. Qed.

Lemma dry_run_rejected_row sch required body df user_id w pre row post msg :
  missing_columns required df = [] ->
  rows (replace_na df) = pre ++ row :: post ->
  body (tables w) (columns df) (2 + length pre)%nat row = Rejected msg ->
  Importer.import_from_dataframe sch required body df user_id true w =
  (report_around (outcomes body (tables w) (columns df) pre 2)
                 (outcomes body (tables w) (columns df) post (3 + length pre)) msg,
   w).
Proof.
  intros Hm Hrows Hrow. rewrite import_unfold by assumption. cbn [negb andb].
  cbn zeta. f_equal. change (columns (replace_na df)) with (columns df).
  rewrite Hrows, outcomes_app. cbn [outcomes]. rewrite Hrow.
  unfold tally, report_around.
  rewrite accepted_of_app, rejected_of_app, !length_app. cbn.
  replace (S (2 + length pre)) with (3 + length pre)%nat by lia.
  f_equal; lia.
Qed.

Lemma all_accepted body d cols rows n :
  (forall i row, rows !! i = Some row ->
     exists obj, body d cols (n + i)%nat row = Accepted obj) ->
  rejected_of (outcomes body d cols rows n) = []
  /\ length (accepted_of (outcomes body d cols rows n)) = length rows.
Proof.
  revert n. induction rows as [|row rows IH]; intros n Hall; [split; reflexivity |].
  destruct (Hall 0%nat row eq_refl) as [obj Hobj]. rewrite Nat.add_0_r in Hobj.
  destruct (IH (S n)) as [IH1 IH2].
  { intros i r Hi. replace (S n + i)%nat with (n + S i)%nat by lia.
    apply Hall. exact Hi. }
  cbn [outcomes]. rewrite Hobj. unfold rejected_of, accepted_of in *. cbn.
  rewrite IH1, IH2. split; reflexivity.
Qed.

Lemma accepted_in_list body d cols rows n i row obj :
  rows !! i = Some row ->
  body d cols (n + i)%nat row = Accepted obj ->
  obj ∈ snd (row_loop body d cols rows n no_results []).
Proof.
  intros Hi Hobj. rewrite row_loop_outcomes. cbn [snd app].
  unfold accepted_of. apply list_elem_of_omap.
  exists (Accepted obj). split; [| reflexivity].
  apply list_elem_of_lookup. exists i.
  rewrite (outcomes_lookup _ _ _ _ _ _ _ Hi), Hobj. reflexivity.
Qed.

Lemma replace_na_length df : length (rows (replace_na df)) = length (rows df).
Proof. unfold replace_na. cbn. apply length_map. Qed.

Section EquipmentReports.
Context `{FloatLib}.
Import BulkOperations.

(** C4, as the code has it: when the rows at data positions 2 and 5 have
    no asset tag and every other row is accepted on its own, a dry run
    counts every row, accepts all but two, and reports the two rejections
    under the numbers 3 and 6 (the number of a row is its position plus
    one, the header being line 1); every accepted draft is the one its
    row yields on its own, and nothing is written. *)
Theorem partial_failure_report df user_id w r2 r5 :
  missing_columns REQUIRED_FIELDS df = [] ->
  rows (replace_na df) !! 1%nat = Some r2 ->
  missing_key (columns df) r2 "asset_tag" ->
  rows (replace_na df) !! 4%nat = Some r5 ->
  missing_key (columns df) r5 "asset_tag" ->
  (forall i row,
      rows (replace_na df) !! i = Some row -> i <> 1%nat -> i <> 4%nat ->
      exists obj, process_row (tables w) (columns df) (2 + i) row = Accepted obj) ->
  import_from_dataframe df user_id true w =
    ({| success := length (rows df) - 2;
        errors := ["Row 3: asset_tag is required."; "Row 6: asset_tag is required."];
        warnings := [];
        total := length (rows df) |}, w)
  /\ (forall i row obj,
        rows (replace_na df) !! i = Some row ->
        process_row (tables w) (columns df) (2 + i) row = Accepted obj ->
        obj ∈ snd (row_loop process_row (tables w) (columns df)
                     (rows (replace_na df)) 2 no_results [])).
Proof.
  intros Hm H2 M2 H5 M5 Hothers. split.
  2: { intros i row obj Hi Hobj. eapply accepted_in_list; eauto. }
  unfold import_from_dataframe. rewrite import_unfold by assumption.
  cbn [negb andb]. cbn zeta. f_equal.
  change (columns (replace_na df)) with (columns df).
  rewrite <- (replace_na_length df).
  destruct (rows (replace_na df)) as [|a [|b [|c [|d0 [|e0 rest]]]]];
    try discriminate.
  injection H2 as ->. injection H5 as ->.
  destruct (Hothers 0%nat a eq_refl) as [oa Ha]; [lia | lia |].
  destruct (Hothers 2%nat c eq_refl) as [oc Hc]; [lia | lia |].
  destruct (Hothers 3%nat d0 eq_refl) as [od Hd]; [lia | lia |].
  destruct (all_accepted process_row (tables w) (columns df) rest 7) as [R1 R2].
  { intros i row Hi. replace (7 + i)%nat with (2 + (5 + i))%nat by lia.
    apply Hothers; [exact Hi | lia | lia]. }
  cbn [outcomes]. cbn in Ha, Hc, Hd. rewrite Ha, Hc, Hd.
  rewrite (process_row_tag_missing _ _ 3 _ M2), (process_row_tag_missing _ _ 6 _ M5).
  unfold tally, accepted_of, rejected_of in *. cbn. rewrite R1, R2.
  rewrite outcomes_length. reflexivity.
Qed.

End EquipmentReports.

Section UniqueKeys.
Context `{FloatLib}.

(** C3, as the code has it: during validation a row's key is looked up in
    the Entity Store, and only there.  A row whose asset tag (serial
    number, for assets) is the key of a stored entity is rejected with a
    message that names the row and the key, and the rows before and after
    it are processed as they are on their own. *)
Theorem store_collision_rejects_row :
  (forall df user_id w pre row post tag,
      missing_columns BulkOperations.REQUIRED_FIELDS df = [] ->
      rows (replace_na df) = pre ++ row :: post ->
      key_of (columns df) row "asset_tag" = Some tag ->
      (exists id e, entities (tables w) !! id = Some e
                    /\ getattr e "asset_tag" = VStr tag) ->
      BulkOperations.import_from_dataframe df user_id true w =
      (report_around
         (outcomes BulkOperations.process_row (tables w) (columns df) pre 2)
         (outcomes BulkOperations.process_row (tables w) (columns df) post
            (3 + length pre))
         (row_label (2 + length pre) +:+ "Asset tag '" +:+ tag +:+ "' already exists"),
       w))
  /\ (forall df user_id w pre row post serial,
      missing_columns AssetBulkOperations.REQUIRED_FIELDS df = [] ->
      rows (replace_na df) = pre ++ row :: post ->
      key_of (columns df) row "serial_number" = Some serial ->
      (exists id e, entities (tables w) !! id = Some e
                    /\ getattr e "serial_number" = VStr serial) ->
      AssetBulkOperations.import_from_dataframe df user_id true w =
      (report_around
         (outcomes AssetBulkOperations.process_row (tables w) (columns df) pre 2)
         (outcomes AssetBulkOperations.process_row (tables w) (columns df) post
            (3 + length pre))
         (row_label (2 + length pre) +:+ "Serial number '" +:+ serial
          +:+ "' already exists"),
       w)).
Proof.
  split; intros df user_id w pre row post key Hm Hrows Hkey Hex.
  - apply dry_run_rejected_row with (row := row); try assumption.
    apply process_row_collision; assumption.
  - apply dry_run_rejected_row with (row := row); try assumption.
    apply asset_row_collision; assumption.
Qed.

(** C7, as the code has it: a row whose asset tag (serial number, for
    assets) is missing or blank is rejected with exactly one message,
    "Row n: asset_tag is required." (the first missing field is the only
    one reported), and adds no entity to the batch, whatever its other
    cells hold; the rows before and after it are processed as they are on
    their own. *)
Theorem missing_key_rejects_row :
  (forall df user_id w pre row post,
      missing_columns BulkOperations.REQUIRED_FIELDS df = [] ->
      rows (replace_na df) = pre ++ row :: post ->
      missing_key (columns df) row "asset_tag" ->
      BulkOperations.import_from_dataframe df user_id true w =
      (report_around
         (outcomes BulkOperations.process_row (tables w) (columns df) pre 2)
         (outcomes BulkOperations.process_row (tables w) (columns df) post
            (3 + length pre))
         (row_label (2 + length pre) +:+ "asset_tag is required."),
       w)
      /\ snd (row_loop BulkOperations.process_row (tables w) (columns df)
                (rows (replace_na df)) 2 no_results []) =
         snd (row_loop BulkOperations.process_row (tables w) (columns df)
                pre 2 no_results [])
         ++ snd (row_loop BulkOperations.process_row (tables w) (columns df)
                   post (3 + length pre) no_results []))
  /\ (forall df user_id w pre row post,
      missing_columns AssetBulkOperations.REQUIRED_FIELDS df = [] ->
      rows (replace_na df) = pre ++ row :: post ->
      missing_key (columns df) row "serial_number" ->
      AssetBulkOperations.import_from_dataframe df user_id true w =
      (report_around
         (outcomes AssetBulkOperations.process_row (tables w) (columns df) pre 2)
         (outcomes AssetBulkOperations.process_row (tables w) (columns df) post
            (3 + length pre))
         (row_label (2 + length pre) +:+ "serial_number is required."),
       w)
      /\ snd (row_loop AssetBulkOperations.process_row (tables w) (columns df)
                (rows (replace_na df)) 2 no_results []) =
         snd (row_loop AssetBulkOperations.process_row (tables w) (columns df)
                pre 2 no_results [])
         ++ snd (row_loop AssetBulkOperations.process_row (tables w) (columns df)
                   post (3 + length pre) no_results [])).
Proof.
  split; intros df user_id w pre row post Hm Hrows Hkey.
  - pose proof (process_row_tag_missing (tables w) (columns df)
                  (2 + length pre) row Hkey) as Hrow.
    split.
    + apply dry_run_rejected_row with (row := row); assumption.
    + rewrite Hrows, !row_loop_outcomes. cbn [snd app].
      rewrite outcomes_app. cbn [outcomes]. rewrite Hrow.
      rewrite accepted_of_app. reflexivity.
  - pose proof (asset_row_serial_missing (tables w) (columns df)
                  (2 + length pre) row Hkey) as Hrow.
    split.
    + apply dry_run_rejected_row with (row := row); assumption.
    + rewrite Hrows, !row_loop_outcomes. cbn [snd app].
      rewrite outcomes_app. cbn [outcomes]. rewrite Hrow.
      rewrite accepted_of_app. reflexivity.
Qed.

End UniqueKeys.

(** ** Integer cells of the equipment import *)

Section PinCount.
Context `{FloatLib}.
Import BulkOperations.

(** The first membership test of the field loop ends in the truth value
    of [pd.NA == value] for every cell that is neither [None] nor the
    empty text. *)
Lemma not_in_blank_raises v :
  v <> VNone -> v <> VStr "" -> py_not_in v blank_before = Raise NA_ambiguous.
Proof.
  intros Hnone Hempty. destruct v as [| |f|z|s|d]; try reflexivity.
  - contradiction.
  - destruct s; [contradiction | reflexivity].
Qed.

Lemma convert_pin_count_raises v :
  v <> VNone -> v <> VStr "" -> convert_field "pin_count" v = Raise NA_ambiguous.
Proof.
  intros Hnone Hempty. unfold convert_field.
  rewrite bool_decide_eq_true_2 by (apply list_elem_of_here).
  rewrite not_in_blank_raises by assumption. reflexivity.
Qed.

Lemma set_optional_raises cols row fields equipment field ex :
  field ∈ fields ->
  convert_field field (row_get cols row field VNone) = Raise ex ->
  exists ex', set_optional cols row fields equipment = Raise ex'.
Proof.
  intros Hin Hraise. revert equipment.
  induction fields as [|f fields IH]; intros equipment.
  - apply elem_of_nil in Hin. contradiction.
  - cbn [set_optional]. destruct (decide (field = f)) as [<- | Hne].
    + rewrite Hraise. eexists. reflexivity.
    + apply elem_of_cons in Hin as [Heq | Hin]; [contradiction |].
      destruct (convert_field f (row_get cols row f VNone)) as [v | ex0].
      * apply IH. exact Hin.
      * eexists. reflexivity.
Qed.

(** Every cell of [pin_count] that is not blank makes the row fail, an
    integer included: [int(value)] is never reached. *)
Lemma process_row_pin_count d cols n row :
  row_get cols row "pin_count" VNone <> VNone ->
  row_get cols row "pin_count" VNone <> VStr "" ->
  exists msg, process_row d cols n row = Rejected (row_label n +:+ msg).
Proof.
  intros Hnone Hempty. unfold process_row.
  destruct (_ || _); [eexists; reflexivity |].
  destruct (exists_with _ _ _).
  { eexists. reflexivity. }
  edestruct (set_optional_raises cols row OPTIONAL_FIELDS) as [ex' Hex'];
    [| apply convert_pin_count_raises; eassumption |].
  { unfold OPTIONAL_FIELDS. set_solver. }
  rewrite Hex'. eexists. reflexivity.
Qed.

Lemma row_get_replace cols row field :
  row_get cols (map replace_cell row) field VNone =
  replace_cell (row_get cols row field VNone).
Proof.
  revert row. induction cols as [|c cols IH]; intros [|v row]; cbn; try reflexivity.
  destruct (String.eqb c field); [reflexivity | apply IH].
Qed.

Lemma not_an_integer_kept v :
  not_an_integer v -> replace_cell v <> VNone /\ replace_cell v <> VStr "".
Proof.
  intros [(s & -> & Hs & Hna & _) | (m & e & -> & _)]; cbn.
  - apply String.eqb_neq in Hs, Hna. rewrite Hs, Hna. cbn.
    apply String.eqb_neq in Hs. split; congruence.
  - split; discriminate.
Qed.

(** C8: [pin_count] is never truncated or taken as it stands.  A row
    whose [pin_count] cell holds a text that is not an integer, or a
    number with a fractional part, is rejected: its outcome is an error
    under its row number, and the error is in the report.  (The rejection
    comes from the membership test that precedes [int(value)], which
    fails on every cell that is not blank.) *)
Theorem pin_count_parses_strictly df user_id dry_run w i row :
  missing_columns REQUIRED_FIELDS df = [] ->
  rows df !! i = Some row ->
  not_an_integer (row_get (columns df) row "pin_count" VNone) ->
  exists msg,
    outcomes process_row (tables w) (columns df) (rows (replace_na df)) 2 !! i
    = Some (Rejected (row_label (2 + i) +:+ msg))
    /\ (row_label (2 + i) +:+ msg)
       ∈ errors (fst (import_from_dataframe df user_id dry_run w)).
Proof.
  intros Hm Hi Hv. apply not_an_integer_kept in Hv as [Hnone Hempty].
  rewrite <- row_get_replace in Hnone, Hempty.
  assert (Hi' : rows (replace_na df) !! i = Some (map replace_cell row)).
  { unfold replace_na. cbn. rewrite list_lookup_fmap, Hi. reflexivity. }
  destruct (process_row_pin_count (tables w) (columns df) (2 + i) _ Hnone Hempty)
    as [msg Hmsg].
  exists msg.
  pose proof (outcomes_lookup process_row (tables w) (columns df) _ 2 i _ Hi') as Ho.
  rewrite Hmsg in Ho. split; [exact Ho |].
  assert (Hin : (row_label (2 + i) +:+ msg)
                ∈ rejected_of (outcomes process_row (tables w) (columns df)
                                 (rows (replace_na df)) 2)).
  { unfold rejected_of. apply list_elem_of_omap.
    exists (Rejected (row_label (2 + i) +:+ msg)). split; [| reflexivity].
    apply list_elem_of_lookup. exists i. exact Ho. }
  unfold import_from_dataframe. rewrite import_unfold by assumption. cbn zeta.
  change (columns (replace_na df)) with (columns df).
  destruct (negb dry_run && _); [| exact Hin].
  destruct (save_all _ _ _ _) as [[u | e] w']; cbn; [exact Hin |].
  apply elem_of_app. left. exact Hin.
Qed.

End PinCount.

(** ** The commit step *)

Lemma commit_raise_keeps_tables sch stmts w e w' :
  commit sch stmts w = (Raise e, w') -> tables w' = tables w.
Proof.
  unfold commit. destruct (flush sch stmts (tables w) (faults w)) as [[d' | e'] fs];
    intros Heq; inversion Heq; reflexivity.
Qed.

(** A statement that the store refuses makes the flush fail, at that
    statement or before it. *)
Lemma refused_statement_fails sch stmts d fs k :
  (k < length stmts)%nat -> fs !! k = Some true ->
  exists e, fst (flush sch stmts d fs) = Raise e.
Proof.
  revert d fs k. induction stmts as [|s stmts IH]; intros d fs k Hk Hfs;
    [cbn in Hk; lia |].
  cbn [flush]. destruct fs as [|[|] fs]; try discriminate.
  - eexists. reflexivity.
  - destruct k as [|k]; [discriminate |].
    destruct (exec sch d s) as [d' | e]; [| eexists; reflexivity].
    cbn [tail]. apply (IH d' fs k); [cbn in Hk; lia | exact Hfs].
Qed.

Lemma commit_nothing sch w : commit sch [] w = (Ret tt, w).
Proof. destruct w as [d fs]. reflexivity. Qed.

Lemma import_commit_failure sch required body df user_id w e :
  missing_columns required df = [] ->
  fst (commit sch
         (map InsertEntity
            (accepted_of (outcomes body (tables w) (columns df)
                            (rows (replace_na df)) 2))) w) = Raise e ->
  tables (snd (Importer.import_from_dataframe sch required body df user_id false w))
  = tables w
  /\ errors (fst (Importer.import_from_dataframe sch required body df user_id false w))
     = rejected_of (outcomes body (tables w) (columns df) (rows (replace_na df)) 2)
       ++ ["Database error: " +:+ exn_str e].
Proof.
  intros Hm Hfail. rewrite import_unfold by assumption. cbn zeta.
  set (os := outcomes body (tables w) (columns df) (rows (replace_na df)) 2) in *.
  cbn [negb andb].
  destruct (bool_decide (accepted_of os = [])) eqn:Hempty.
  { apply bool_decide_eq_true in Hempty. rewrite Hempty in Hfail. cbn [map] in Hfail.
    rewrite commit_nothing in Hfail. discriminate. }
  cbn [negb]. unfold save_all.
  destruct (commit sch (map InsertEntity (accepted_of os)) w) as [[u | e'] w'] eqn:Hc;
    cbn [fst] in Hfail; [discriminate |].
  injection Hfail as ->. cbn [fst snd].
  split; [eapply commit_raise_keeps_tables; exact Hc | reflexivity].
Qed.

Section CommitStep.
Context `{FloatLib}.
Import BulkOperations.

(** C2: the commit step is all or nothing.  When the commit of the
    accepted rows of a batch fails on one of its inserts, for whatever
    reason, the tables after [import_from_dataframe] returns are the
    tables before the call, so that no row of the batch is stored, and
    the report ends with the "Database error" of the failure.  In
    particular this is so when the store refuses the k-th insert of the
    batch. *)
Theorem failed_commit_stores_nothing :
  (forall df user_id w e,
      missing_columns REQUIRED_FIELDS df = [] ->
      fst (commit equipment_schema
             (map InsertEntity
                (accepted_of (outcomes process_row (tables w) (columns df)
                                (rows (replace_na df)) 2))) w) = Raise e ->
      tables (snd (import_from_dataframe df user_id false w)) = tables w
      /\ errors (fst (import_from_dataframe df user_id false w))
         = rejected_of (outcomes process_row (tables w) (columns df)
                          (rows (replace_na df)) 2)
           ++ ["Database error: " +:+ exn_str e])
  /\ (forall df user_id w k,
      missing_columns REQUIRED_FIELDS df = [] ->
      (k < length (accepted_of (outcomes process_row (tables w) (columns df)
                                  (rows (replace_na df)) 2)))%nat ->
      faults w !! k = Some true ->
      tables (snd (import_from_dataframe df user_id false w)) = tables w
      /\ exists e,
           errors (fst (import_from_dataframe df user_id false w))
           = rejected_of (outcomes process_row (tables w) (columns df)
                            (rows (replace_na df)) 2)
             ++ ["Database error: " +:+ exn_str e]).
Proof.
  split.
  - intros df user_id w e Hm Hfail.
    apply import_commit_failure; assumption.
  - intros df user_id w k Hm Hk Hfault.
    destruct (refused_statement_fails equipment_schema
                (map InsertEntity
                   (accepted_of (outcomes process_row (tables w) (columns df)
                                   (rows (replace_na df)) 2)))
                (tables w) (faults w) k) as [e He];
      [rewrite length_map; exact Hk | exact Hfault |].
    assert (Hfail : fst (commit equipment_schema
                           (map InsertEntity
                              (accepted_of (outcomes process_row (tables w) (columns df)
                                              (rows (replace_na df)) 2))) w) = Raise e).
    { unfold commit. destruct (flush _ _ _ _) as [[d' | e'] fs]; cbn in He |- *;
        [discriminate | congruence]. }
    destruct (import_commit_failure equipment_schema REQUIRED_FIELDS process_row
                df user_id w e Hm Hfail) as [Ht He'].
    split; [exact Ht | exists e; exact He'].
Qed.

End CommitStep.

(** ** Checkout and checkin *)

Lemma getattr_setattr_eq e k v : getattr (setattr e k v) k = v.
Proof. unfold getattr, setattr. rewrite lookup_insert_eq. reflexivity. Qed.

Lemma getattr_setattr_ne e k k' v :
  k <> k' -> getattr (setattr e k v) k' = getattr e k'.
Proof. intros Hne. unfold getattr, setattr. rewrite lookup_insert_ne by exact Hne. reflexivity. Qed.

Lemma filter_none {A} (P : A -> Prop) `{forall x, Decision (P x)} (l : list A) :
  (forall x, x ∈ l -> ~ P x) -> filter P l = [].
Proof.
  induction l as [|x l IH]; intros Hall; [reflexivity |].
  rewrite filter_cons_False by (apply Hall; left).
  apply IH. intros y Hy. apply Hall. right. exact Hy.
Qed.

(** An update that leaves the constrained columns as they are breaks no
    constraint. *)
Lemma check_update_same sch others old e :
  (forall k, k ∈ not_null sch -> getattr e k = getattr old k) ->
  getattr e (unique_col sch) = getattr old (unique_col sch) ->
  check_update sch others old e = Ret tt.
Proof.
  intros Hnn Hu. unfold check_update.
  rewrite filter_none.
  - rewrite bool_decide_eq_false_2 by (intros Hne; apply Hne; exact Hu). reflexivity.
  - intros k Hk [Hnone Hold]. rewrite (Hnn k Hk) in Hnone. contradiction.
Qed.

Lemma accepts_2 fs :
  accepts 2 fs = true ->
  fs = [] \/ fs = [false] \/ exists fs', fs = false :: false :: fs'.
Proof.
  destruct fs as [|[|] [|[|] fs]]; cbn; try discriminate; eauto.
Qed.

(** The commit of an update and of a movement log that the store
    accepts. *)
Lemma commit_update_movement sch id old e m w :
  entities (tables w) !! id = Some old ->
  check_update sch (delete id (entities (tables w))) old e = Ret tt ->
  accepts 2 (faults w) = true ->
  commit sch [UpdateEntity id e; InsertMovement m] w =
  (Ret tt,
   {| tables := {| entities := <[id := e]> (entities (tables w));
                   movement_logs := movement_logs (tables w) ++ [m];
                   audit_logs := audit_logs (tables w) |};
      faults := drop 2 (faults w) |}).
Proof.
  intros Hold Hcheck Hacc. destruct w as [d fs]. cbn in *.
  unfold commit. cbn [tables faults].
  destruct (accepts_2 fs Hacc) as [-> | [-> | (fs' & ->)]];
    cbn [flush exec tail]; rewrite Hold;
    change (default ∅ (Some old)) with old; rewrite Hcheck; reflexivity.
Qed.

(** Logging an audit event touches neither the entities nor the movement
    logs. *)
Lemma log_audit_event_tables sch uid action tbl rid old new eid w :
  entities (tables (snd (log_audit_event sch uid action tbl rid old new eid w)))
  = entities (tables w)
  /\ movement_logs (tables (snd (log_audit_event sch uid action tbl rid old new eid w)))
     = movement_logs (tables w).
Proof.
  unfold log_audit_event, commit. cbn [flush].
  destruct (faults w) as [|[|] fs]; cbn; split; reflexivity.
Qed.

Lemma check_update_status_assignee others old status assignee :
  check_update equipment_schema others old
    (setattr (setattr old "status" status) "assigned_to_id" assignee) = Ret tt.
Proof.
  apply check_update_same.
  - intros k Hk. cbn in Hk.
    repeat (apply elem_of_cons in Hk as [-> | Hk]);
      [| | | apply elem_of_nil in Hk; contradiction];
      rewrite !getattr_setattr_ne by discriminate; reflexivity.
  - cbn. rewrite !getattr_setattr_ne by discriminate. reflexivity.
Qed.

Section SelfService.
Context `{FloatLib}.
Import Inventory.

(** C5: a checkout of an entity whose status is not ['Available'] is
    refused with a message and leaves the world, hence the status, the
    assignee and the location of the entity, as it was.  A checkout of an
    ['Available'] entity by an actor who may check out, when the store
    accepts the two writes, sets the status to ['In Use'] and the
    assignee to the actor, leaves every other attribute alone, and appends
    one movement event of action [checkout] towards the actor. *)
Theorem checkout_needs_available :
  (forall current_user id w equipment,
      entities (tables w) !! id = Some equipment ->
      getattr equipment "status" <> VStr "Available" ->
      checkout current_user id w =
      (respond "Equipment is not available for checkout" "error"
               (Redirect view_endpoint), w))
  /\ (forall current_user id w equipment,
      entities (tables w) !! id = Some equipment ->
      getattr equipment "status" = VStr "Available" ->
      has_permission current_user "checkout" = true ->
      accepts 2 (faults w) = true ->
      entities (tables (snd (checkout current_user id w)))
      = <[id := setattr (setattr equipment "status" (VStr "In Use"))
                  "assigned_to_id" (VInt (user_id current_user))]>
          (entities (tables w))
      /\ movement_logs (tables (snd (checkout current_user id w)))
         = movement_logs (tables w)
           ++ [{| ml_equipment_id := id;
                  ml_user_id := user_id current_user;
                  ml_action := "checkout";
                  ml_from_location := VNone;
                  ml_to_location := getattr equipment "location";
                  ml_from_user_id := VNone;
                  ml_to_user_id := VInt (user_id current_user);
                  ml_notes := "Self-checkout" |}]).
Proof.
  split.
  - intros u id w equipment Hlook Hstatus. unfold checkout. rewrite Hlook.
    unfold is_available. rewrite bool_decide_eq_false_2 by exact Hstatus.
    reflexivity.
  - intros u id w equipment Hlook Hstatus Hperm Hacc. unfold checkout.
    rewrite Hlook. unfold is_available.
    rewrite bool_decide_eq_true_2 by exact Hstatus. rewrite Hperm. cbn [negb].
    rewrite (commit_update_movement _ _ equipment) by
      (first [exact Hlook | exact Hacc | apply check_update_status_assignee]).
    match goal with
    | |- context [log_audit_event ?a ?b ?c ?d ?e ?f ?g ?h ?w1] =>
        pose proof (log_audit_event_tables a b c d e f g h w1) as [He Hm];
        destruct (log_audit_event a b c d e f g h w1) as [[u0 | e0] w2]
    end; cbn [snd tables entities movement_logs] in *; rewrite He, Hm;
      unfold movement; rewrite !getattr_setattr_ne by discriminate;
      split; reflexivity.
Qed.

(** C10: checkin does not ask for an assignee.  On an entity that has
    none, an actor without the [update] permission is turned away and the
    world stays as it was; an actor with it passes, and when the store
    accepts the two writes the entity is left ['Available'] and
    unassigned, every other attribute alone, and one movement event of
    action [checkin] with no from-user is appended. *)
Theorem checkin_of_unassigned :
  (forall current_user id w equipment,
      entities (tables w) !! id = Some equipment ->
      getattr equipment "assigned_to_id" = VNone ->
      has_permission current_user "update" = false ->
      checkin current_user id w =
      (respond "You can only check in equipment assigned to you" "error"
               (Redirect view_endpoint), w))
  /\ (forall current_user id w equipment,
      entities (tables w) !! id = Some equipment ->
      getattr equipment "assigned_to_id" = VNone ->
      has_permission current_user "update" = true ->
      accepts 2 (faults w) = true ->
      entities (tables (snd (checkin current_user id w)))
      = <[id := setattr (setattr equipment "status" (VStr "Available"))
                  "assigned_to_id" VNone]>
          (entities (tables w))
      /\ movement_logs (tables (snd (checkin current_user id w)))
         = movement_logs (tables w)
           ++ [{| ml_equipment_id := id;
                  ml_user_id := user_id current_user;
                  ml_action := "checkin";
                  ml_from_location := VNone;
                  ml_to_location := getattr equipment "location";
                  ml_from_user_id := VNone;
                  ml_to_user_id := VNone;
                  ml_notes := "Equipment returned" |}]).
Proof.
  split.
  - intros u id w equipment Hlook Hassigned Hperm. unfold checkin. rewrite Hlook.
    rewrite Hassigned, Hperm.
    rewrite bool_decide_eq_true_2 by discriminate. reflexivity.
  - intros u id w equipment Hlook Hassigned Hperm Hacc. unfold checkin.
    rewrite Hlook, Hperm. rewrite andb_false_r.
    rewrite (commit_update_movement _ _ equipment) by
      (first [exact Hlook | exact Hacc | apply check_update_status_assignee]).
    match goal with
    | |- context [log_audit_event ?a ?b ?c ?d ?e ?f ?g ?h ?w1] =>
        pose proof (log_audit_event_tables a b c d e f g h w1) as [He Hm];
        destruct (log_audit_event a b c d e f g h w1) as [[u0 | e0] w2]
    end; cbn [snd tables entities movement_logs] in *; rewrite He, Hm;
      unfold movement; rewrite !getattr_setattr_ne by discriminate;
      rewrite Hassigned; split; reflexivity.
Qed.

End SelfService.

(** ** Status and assignee after a mutation *)

Ltac getattr_reduce :=
  repeat match goal with
         | |- context [getattr (setattr ?e ?k ?v) ?k'] =>
             first [ constr_eq k k'; rewrite (getattr_setattr_eq e k v)
                   | rewrite (getattr_setattr_ne e k k' v) by discriminate ]
         end.

Lemma commit_entities_cases sch stmts w :
  entities (tables (snd (commit sch stmts w))) = entities (tables w)
  \/ exists d', fst (flush sch stmts (tables w) (faults w)) = Ret d'
                /\ entities (tables (snd (commit sch stmts w))) = entities d'.
Proof.
  unfold commit. destruct (flush sch stmts (tables w) (faults w)) as [[d' | e] fs];
    cbn; [right; eauto | left; reflexivity].
Qed.

Lemma flush_movements_entities sch ms d fs d' :
  fst (flush sch (map InsertMovement ms) d fs) = Ret d' -> entities d' = entities d.
Proof.
  revert d fs. induction ms as [|m ms IH]; intros d fs; cbn [map flush].
  - cbn. intros Heq. inversion Heq. reflexivity.
  - destruct fs as [|[|] fs]; cbn [exec tail]; try discriminate;
      intros Hfl; apply IH in Hfl; exact Hfl.
Qed.

Lemma exec_update_entities sch id e d d1 :
  exec sch d (UpdateEntity id e) = Ret d1 -> entities d1 = <[id := e]> (entities d).
Proof.
  cbn [exec]. destruct (check_update _ _ _ _); cbn [bind]; [| discriminate].
  intros Heq. inversion Heq. reflexivity.
Qed.

Lemma flush_update_entities sch id e ms d fs d' :
  fst (flush sch (UpdateEntity id e :: map InsertMovement ms) d fs) = Ret d' ->
  entities d' = <[id := e]> (entities d).
Proof.
  cbn [flush].
  destruct fs as [|[|] fs]; try discriminate;
    (destruct (exec sch d (UpdateEntity id e)) as [d1 | ex] eqn:Hx; [| discriminate];
     intros Hfl; apply flush_movements_entities in Hfl; rewrite Hfl;
     eapply exec_update_entities; exact Hx).
Qed.

Lemma exec_insert_entities sch e d d1 :
  exec sch d (InsertEntity e) = Ret d1 ->
  entities d1 = <[next_id (entities d) :=
                    setattr (apply_defaults sch e) "id" (VInt (next_id (entities d)))]>
                  (entities d).
Proof.
  cbn [exec]. destruct (check_row _ _ _); cbn [bind]; [| discriminate].
  intros Heq. inversion Heq. reflexivity.
Qed.

(** After a commit of an update and its movement logs the entity table
    is the old one, or the old one with the row replaced. *)
Lemma commit_update_cases sch id e ms w :
  wrote_nothing_or w (snd (commit sch (UpdateEntity id e :: map InsertMovement ms) w))
    id (fun e' => e' = e).
Proof.
  destruct (commit_entities_cases sch (UpdateEntity id e :: map InsertMovement ms) w)
    as [Hsame | (d' & Hfl & Hent)]; [left; exact Hsame |].
  right. exists e. split; [| reflexivity].
  rewrite Hent. eapply flush_update_entities. exact Hfl.
Qed.

Lemma commit_insert_cases sch e w :
  wrote_nothing_or w (snd (commit sch [InsertEntity e] w))
    (next_id (entities (tables w)))
    (fun e' => e' = setattr (apply_defaults sch e) "id"
                      (VInt (next_id (entities (tables w))))).
Proof.
  destruct (commit_entities_cases sch [InsertEntity e] w)
    as [Hsame | (d' & Hfl & Hent)]; [left; exact Hsame |].
  right. eexists. split; [| reflexivity].
  rewrite Hent. revert Hfl. cbn [flush].
  destruct (faults w) as [|[|] fs]; try discriminate;
    (destruct (exec sch (tables w) (InsertEntity e)) as [d1 | ex] eqn:Hx;
     [| discriminate]; cbn; intros Heq; inversion Heq; subst d';
     eapply exec_insert_entities; exact Hx).
Qed.

Lemma commit_movement_entities sch m w :
  entities (tables (snd (commit sch [InsertMovement m] w))) = entities (tables w).
Proof.
  destruct (commit_entities_cases sch [InsertMovement m] w)
    as [Hsame | (d' & Hfl & Hent)]; [exact Hsame |].
  rewrite Hent. apply (flush_movements_entities sch [m] _ _ _ Hfl).
Qed.

Lemma log_audit_event_entities sch uid action tbl rid old new eid w :
  entities (tables (snd (log_audit_event sch uid action tbl rid old new eid w)))
  = entities (tables w).
Proof. apply log_audit_event_tables. Qed.


Lemma Ret_inj {A} (a b : A) : Ret a = Ret b -> a = b.
Proof. intros Heq. inversion Heq. reflexivity. Qed.

Lemma Ret_pair_inj {A B} (a c : A) (b d : B) :
  Ret (a, b) = Ret (c, d) -> a = c /\ b = d.
Proof. intros Heq. inversion Heq. split; reflexivity. Qed.

Section Mutations.
Context `{FloatLib}.
Import Inventory.

(** Takes a hypothesis [H : c = Ret x], where [c] is a chain of binds,
    through the chain: each step that raises contradicts [H]. *)
Ltac step_binds Hyp :=
  repeat match type of Hyp with
         | context [bind ?r _] =>
             let E := fresh "E" in
             destruct r eqn:E; cbn [bind] in Hyp; [| discriminate Hyp]
         end.

(** Splits the cases of a step [E : (match ... end) = Ret x], replaces
    [x] by the value the step returned and looks the attributes up. *)
Ltac step_fact E :=
  unfold bind in E;
  repeat match type of E with
         | context [match ?c with _ => _ end] =>
             destruct c eqn:?; try discriminate E
         end;
  apply Ret_inj in E; subst; getattr_reduce.

(** What [edit] leaves in [status] and [assigned_to_id]: when the form
    changes the assignee, the status follows it. *)
Lemma edit_fields_assignment id e u f e' mv :
  edit_fields id e u f = Ret (e', mv) ->
  getattr e' "assigned_to_id" <> getattr e "assigned_to_id" ->
  getattr e' "assigned_to_id" <> VInt 0 ->
  in_use_iff_assigned e'.
Proof.
  unfold edit_fields. intros Hf. step_binds Hf.
  match type of Hf with
  | context [bool_decide (getattr e "assigned_to_id" ≠ ?new)] =>
      destruct (bool_decide (getattr e "assigned_to_id" ≠ new)) eqn:Hchanged;
      [destruct (bool_decide (new ≠ VNone ∧ new ≠ VInt 0)) eqn:Hnew |]
  end; step_binds Hf; apply Ret_pair_inj in Hf; destruct Hf as [<- _];
    unfold in_use_iff_assigned; getattr_reduce; intros Hne Hzero.
  - apply bool_decide_eq_true in Hnew as [Hn _]. split; [reflexivity | intros _; exact Hn].
  - apply bool_decide_eq_false in Hnew.
    split; [intros Hn; exfalso; apply Hnew; split; assumption | discriminate].
  - contradiction.
Qed.

(** What [add_equipment] leaves in [status] and [assigned_to_id]: an
    assignee comes with the status ['In Use']. *)
Lemma add_fields_assignment f e :
  add_fields f = Ret e ->
  getattr e "assigned_to_id" <> VNone -> getattr e "status" = VStr "In Use".
Proof.
  unfold add_fields. intros Hf. step_binds Hf. apply Ret_inj in Hf. subst e.
  (* no step before the assignment sets an assignee *)
  match goal with
  | E : context [f !! "procurement_date"] |- _ =>
      match type of E with
      | _ = Ret ?g =>
          assert (F2 : getattr g "assigned_to_id" = VNone)
            by (clear - E; step_fact E; reflexivity);
          clear E
      end
  end.
  match goal with
  | E : context [f !! "warranty_expiry"] |- _ =>
      match type of E with
      | _ = Ret ?g =>
          assert (F3 : getattr g "assigned_to_id" = VNone)
            by (clear - E F2; step_fact E; exact F2);
          clear E F2
      end
  end.
  match goal with
  | E : context [form_get_or f "pin_count"] |- _ =>
      match type of E with
      | _ = Ret ?g =>
          assert (F4 : getattr g "assigned_to_id" = VNone)
            by (clear - E F3; step_fact E; exact F3);
          clear E F3
      end
  end.
  (* the assignment sets the assignee and the status together *)
  match goal with
  | E : context [f !! "assigned_to"] |- _ =>
      match type of E with
      | _ = Ret ?g =>
          assert (F5 : getattr g "assigned_to_id" = VNone
                       \/ getattr g "status" = VStr "In Use")
            by (clear - E F4; step_fact E;
                first [left; exact F4 | right; reflexivity]);
          clear E F4
      end
  end.
  (* and no later step touches either *)
  match goal with
  | E : context [form_get_or f "purchase_cost"] |- _ =>
      match type of E with
      | _ = Ret ?g =>
          assert (F6 : getattr g "assigned_to_id" = VNone
                       \/ getattr g "status" = VStr "In Use")
            by (clear - E F5; step_fact E; exact F5);
          clear E F5
      end
  end.
  destruct (String.eqb (strip (form_get_or f "tags" "")) ""); getattr_reduce;
    (destruct F6 as [-> | ->]; [intros Hne; contradiction | reflexivity]).
Qed.

Lemma wrote_nothing_or_later w w1 w2 id (P Q : gmap string value -> Prop) :
  entities (tables w2) = entities (tables w1) ->
  (forall e', P e' -> Q e') ->
  wrote_nothing_or w w1 id P -> wrote_nothing_or w w2 id Q.
Proof.
  intros Hsame Himp [Hs | (e' & He & HP)].
  - left. congruence.
  - right. exists e'. split; [congruence | auto].
Qed.

Lemma wrote_nothing w id (P : gmap string value -> Prop) : wrote_nothing_or w w id P.
Proof. left. reflexivity. Qed.

Lemma edit_effect u req id w e :
  entities (tables w) !! id = Some e ->
  wrote_nothing_or w (snd (edit u req id w)) id
    (fun e' => exists mv, edit_fields id e u (form req) = Ret (e', mv)).
Proof.
  intros Hlook. unfold edit. rewrite Hlook.
  destruct (negb (has_permission u "update")); [apply wrote_nothing |].
  destruct (String.eqb (method req) "POST"); [| apply wrote_nothing].
  destruct (edit_fields id e u (form req)) as [[e' mv] | ex] eqn:Hf;
    [| apply wrote_nothing].
  pose proof (commit_update_cases equipment_schema id e'
                (match mv with Some m => [m] | None => [] end) w) as Hc.
  assert (Hp : UpdateEntity id e' ::
               map InsertMovement (match mv with Some m => [m] | None => [] end)
               = UpdateEntity id e' ::
                 match mv with Some m => [InsertMovement m] | None => [] end)
    by (destruct mv; reflexivity).
  rewrite Hp in Hc. clear Hp.
  destruct (commit equipment_schema _ w) as [[u0 | ex] w1]; cbn [snd] in Hc |- *.
  - match goal with
    | |- context [log_audit_event ?a ?b ?c ?d ?e0 ?f ?g ?h ?w1] =>
        pose proof (log_audit_event_entities a b c d e0 f g h w1) as He;
        destruct (log_audit_event a b c d e0 f g h w1) as [[u1 | e1] w2]
    end; cbn [snd] in *;
      (eapply wrote_nothing_or_later; [exact He | | exact Hc]);
      intros e'' ->; eauto.
  - eapply wrote_nothing_or_later; [reflexivity | | exact Hc].
    intros e'' ->; eauto.
Qed.

Lemma apply_defaults_equipment e k :
  k <> "status" -> k <> "condition" ->
  getattr (apply_defaults equipment_schema e) k = getattr e k.
Proof.
  intros Hs Hc. unfold apply_defaults. cbn [defaults equipment_schema fold_right].
  repeat match goal with
         | |- context [bool_decide ?P] => destruct (bool_decide P)
         end; rewrite ?getattr_setattr_ne by congruence; reflexivity.
Qed.

Lemma apply_defaults_status e v :
  getattr e "status" = VStr v ->
  getattr (apply_defaults equipment_schema e) "status" = VStr v.
Proof.
  intros Hs. unfold apply_defaults. cbn [defaults equipment_schema fold_right].
  destruct (bool_decide (getattr e "condition" = VNone)).
  - rewrite getattr_setattr_ne by discriminate. rewrite Hs.
    rewrite bool_decide_eq_false_2 by discriminate.
    rewrite getattr_setattr_ne by discriminate. exact Hs.
  - rewrite Hs. rewrite bool_decide_eq_false_2 by discriminate. exact Hs.
Qed.

Lemma add_effect u req w :
  wrote_nothing_or w (snd (add_equipment u req w)) (next_id (entities (tables w)))
    (fun e' => exists e, add_fields (form req) = Ret e
                         /\ e' = setattr (apply_defaults equipment_schema e) "id"
                                   (VInt (next_id (entities (tables w))))).
Proof.
  unfold add_equipment.
  destruct (negb (has_permission u "create")); [apply wrote_nothing |].
  destruct (String.eqb (method req) "POST"); [| apply wrote_nothing].
  destruct (add_fields (form req)) as [e | ex] eqn:Hf; [| apply wrote_nothing].
  destruct (bool_decide (getattr e "asset_tag" = VStr "")); [apply wrote_nothing |].
  destruct (bool_decide (getattr e "name" = VStr "")); [apply wrote_nothing |].
  destruct (exists_with _ _ _); [apply wrote_nothing |].
  pose proof (commit_insert_cases equipment_schema e w) as Hc.
  destruct (commit equipment_schema [InsertEntity e] w) as [[u0 | ex] w1];
    cbn [snd] in Hc |- *.
  2: { eapply wrote_nothing_or_later; [reflexivity | | exact Hc].
       intros e'' ->; eauto. }
  match goal with
  | |- context [log_audit_event ?a ?b ?c ?d ?e0 ?f ?g ?h ?w1] =>
      pose proof (log_audit_event_entities a b c d e0 f g h w1) as He;
      destruct (log_audit_event a b c d e0 f g h w1) as [[u1 | e1] w2]
  end; cbn [snd] in *.
  2: { eapply wrote_nothing_or_later; [exact He | | exact Hc].
       intros e'' ->; eauto. }
  destruct (bool_decide _).
  - match goal with
    | |- context [commit ?s [InsertMovement ?m] ?w2] =>
        pose proof (commit_movement_entities s m w2) as Hm;
        destruct (commit s [InsertMovement m] w2) as [[u2 | e2] w3]
    end; cbn [snd] in *;
      (eapply wrote_nothing_or_later; [rewrite Hm; exact He | | exact Hc]);
      intros e'' ->; eauto.
  - eapply wrote_nothing_or_later; [exact He | | exact Hc].
    intros e'' ->; eauto.
Qed.

Lemma checkout_effect u id w :
  wrote_nothing_or w (snd (checkout u id w)) id
    (fun e' => getattr e' "status" = VStr "In Use"
               /\ getattr e' "assigned_to_id" = VInt (user_id u)).
Proof.
  unfold checkout. destruct (entities (tables w) !! id) as [e |];
    [| apply wrote_nothing].
  destruct (negb (is_available e)); [apply wrote_nothing |].
  destruct (negb (has_permission u "checkout")); [apply wrote_nothing |].
  match goal with
  | |- context [commit ?s [UpdateEntity id ?e1; InsertMovement ?m] w] =>
      pose proof (commit_update_cases s id e1 [m] w) as Hc;
      cbn [map] in Hc;
      destruct (commit s [UpdateEntity id e1; InsertMovement m] w) as [[u0 | ex] w1]
  end; cbn [snd] in Hc |- *.
  - match goal with
    | |- context [log_audit_event ?a ?b ?c ?d ?e0 ?f ?g ?h ?w1] =>
        pose proof (log_audit_event_entities a b c d e0 f g h w1) as He;
        destruct (log_audit_event a b c d e0 f g h w1) as [[u1 | e1] w2]
    end; cbn [snd] in *;
      (eapply wrote_nothing_or_later; [exact He | | exact Hc]);
      intros e'' ->; getattr_reduce; split; reflexivity.
  - eapply wrote_nothing_or_later; [reflexivity | | exact Hc].
    intros e'' ->; getattr_reduce; split; reflexivity.
Qed.

Lemma checkin_effect u id w :
  wrote_nothing_or w (snd (checkin u id w)) id
    (fun e' => getattr e' "status" = VStr "Available"
               /\ getattr e' "assigned_to_id" = VNone).
Proof.
  unfold checkin. destruct (entities (tables w) !! id) as [e |];
    [| apply wrote_nothing].
  destruct (_ && _); [apply wrote_nothing |].
  match goal with
  | |- context [commit ?s [UpdateEntity id ?e1; InsertMovement ?m] w] =>
      pose proof (commit_update_cases s id e1 [m] w) as Hc;
      cbn [map] in Hc;
      destruct (commit s [UpdateEntity id e1; InsertMovement m] w) as [[u0 | ex] w1]
  end; cbn [snd] in Hc |- *.
  - match goal with
    | |- context [log_audit_event ?a ?b ?c ?d ?e0 ?f ?g ?h ?w1] =>
        pose proof (log_audit_event_entities a b c d e0 f g h w1) as He;
        destruct (log_audit_event a b c d e0 f g h w1) as [[u1 | e1] w2]
    end; cbn [snd] in *;
      (eapply wrote_nothing_or_later; [exact He | | exact Hc]);
      intros e'' ->; getattr_reduce; split; reflexivity.
  - eapply wrote_nothing_or_later; [reflexivity | | exact Hc].
    intros e'' ->; getattr_reduce; split; reflexivity.
Qed.

End Mutations.

(** ** Rows stored by the bulk import *)

Lemma flush_inserts_rows sch batch d fs d' :
  fst (flush sch (map InsertEntity batch) d fs) = Ret d' ->
  forall id e', entities d' !! id = Some e' ->
    entities d !! id = Some e'
    \/ exists obj i, obj ∈ batch /\ e' = setattr (apply_defaults sch obj) "id" (VInt i).
Proof.
  revert d fs. induction batch as [|obj batch IH]; intros d fs; cbn [map flush].
  - cbn. intros Heq id e' Hl. inversion Heq. subst d'. left. exact Hl.
  - destruct fs as [|[|] fs]; try discriminate;
      (destruct (exec sch d (InsertEntity obj)) as [d1 | ex] eqn:Hx; [| discriminate];
       cbn [tail]; intros Hfl id e' Hl;
       destruct (IH _ _ Hfl id e' Hl) as [Hold | (o & i & Ho & ->)];
       [| right; exists o, i; split; [right; exact Ho | reflexivity]];
       rewrite (exec_insert_entities _ _ _ _ Hx) in Hold;
       destruct (decide (next_id (entities d) = id)) as [<- | Hne];
       [ rewrite lookup_insert_eq in Hold; injection Hold as <-;
         right; eexists _, _; split; [left | reflexivity]
       | rewrite lookup_insert_ne in Hold by exact Hne; left; exact Hold ]).
Qed.

Lemma accepted_of_outcomes body d cols rows n obj :
  obj ∈ accepted_of (outcomes body d cols rows n) ->
  exists n' row, body d cols n' row = Accepted obj.
Proof.
  revert n. induction rows as [|row rows IH]; intros n; cbn [outcomes].
  - unfold accepted_of. cbn. intros Hin. apply elem_of_nil in Hin. contradiction.
  - unfold accepted_of in *. cbn [omap list_omap].
    destruct (body d cols n row) as [o | msg] eqn:Hb.
    + intros Hin. apply elem_of_cons in Hin as [-> | Hin]; [eauto | eapply IH; eauto].
    + intros Hin. eapply IH; eauto.
Qed.

Lemma Accepted_inj a b : Accepted a = Accepted b -> a = b.
Proof. intros Heq. inversion Heq. reflexivity. Qed.

Section StoredRows.
Context `{FloatLib}.
Import BulkOperations.

Lemma set_optional_other cols row fields equipment equipment' k :
  set_optional cols row fields equipment = Ret equipment' ->
  k ∉ fields -> getattr equipment' k = getattr equipment k.
Proof.
  revert equipment. induction fields as [|f fields IH]; intros equipment; cbn [set_optional].
  - intros Heq _. apply Ret_inj in Heq. subst. reflexivity.
  - destruct (convert_field f (row_get cols row f VNone)) as [v | ex];
      cbn [bind]; [| discriminate].
    intros Hs Hk. apply not_elem_of_cons in Hk as [Hne Hk].
    rewrite (IH _ Hs Hk). apply getattr_setattr_ne. congruence.
Qed.

Lemma py_in_blank_before v b :
  py_in v BulkOperations.blank_before = Ret b ->
  b = true /\ (v = VNone \/ v = VStr "").
Proof.
  unfold BulkOperations.blank_before.
  destruct v as [| |[|m e]|z|s|dt]; cbn [py_in py_is py_eq]; try discriminate.
  - intros Heq. apply Ret_inj in Heq. subst b. auto.
  - destruct (String.eqb_spec "" s) as [<- | Hne]; [| discriminate].
    intros Heq. apply Ret_inj in Heq. subst b. auto.
Qed.

Lemma py_in_blank_after_false v :
  py_in v BulkOperations.blank_after = Ret false -> v = VNone.
Proof.
  unfold BulkOperations.blank_after.
  destruct v as [| |[|m e]|z|s|dt]; cbn [py_in py_is py_eq]; try discriminate;
    [reflexivity |].
  destruct (String.eqb "" s); [discriminate |].
  destruct (String.eqb "NA" s); discriminate.
Qed.

Lemma py_in_blank_after_text s b :
  py_in (VStr s) BulkOperations.blank_after = Ret b -> s = "" \/ s = "NA".
Proof.
  unfold BulkOperations.blank_after. cbn [py_in py_is py_eq].
  destruct (String.eqb_spec "" s) as [<- | Hne]; [auto |].
  destruct (String.eqb_spec "NA" s) as [<- | Hne2]; [auto | discriminate].
Qed.

(** What [convert_field] of the equipment import lets through: nothing
    but a blank cell, and what it stores for it is [None]. *)
Lemma convert_field_blank field v x :
  BulkOperations.convert_field field v = Ret x ->
  x = VNone
  /\ (v = VNone \/ exists s, v = VStr s /\ (strip s = "" \/ strip s = "NA")).
Proof.
  unfold BulkOperations.convert_field, py_not_in.
  assert (Hfin : v = VNone \/ v = VStr "" ->
             (b <- py_in VNone BulkOperations.blank_after ;;
              Ret (if b then VNone else VNone)) = Ret x ->
             x = VNone
             /\ (v = VNone \/ exists s, v = VStr s /\ (strip s = "" \/ strip s = "NA"))).
  { intros Hv. cbn. intros Heq. apply Ret_inj in Heq. split; [auto |].
    destruct Hv as [-> | ->]; [auto | right; exists ""; auto]. }
  repeat case_bool_decide;
    [ destruct (py_in v BulkOperations.blank_before) as [b | ex] eqn:E;
      cbn [bind]; [| discriminate];
      apply py_in_blank_before in E as [-> Hv]; cbn [negb bind];
      apply Hfin; exact Hv .. |].
  clear Hfin. cbn [bind].
  destruct (py_in _ BulkOperations.blank_after) as [[|] | ex] eqn:E; cbn [bind];
      [| | discriminate]; intros Heq; apply Ret_inj in Heq; subst x.
  - split; [reflexivity |]. destruct v as [| |[|m e]|z|s|dt]; try discriminate E; auto.
      right. exists s. split; [reflexivity |]. eapply py_in_blank_after_text. exact E.
  - apply py_in_blank_after_false in E. split; [exact E |].
      destruct v; try discriminate E; auto.
Qed.

Lemma set_optional_blank cols row fields equipment equipment' :
  BulkOperations.set_optional cols row fields equipment = Ret equipment' ->
  forall f, f ∈ fields ->
    getattr equipment' f = VNone
    /\ (row_get cols row f VNone = VNone
        \/ exists s, row_get cols row f VNone = VStr s
                     /\ (strip s = "" \/ strip s = "NA")).
Proof.
  revert equipment. induction fields as [|g fields IH]; intros equipment;
    cbn [BulkOperations.set_optional].
  - intros _ f Hf. apply elem_of_nil in Hf. contradiction.
  - destruct (BulkOperations.convert_field g (row_get cols row g VNone)) as [x | ex] eqn:E;
      cbn [bind]; [| discriminate].
    intros Hs f Hf. destruct (decide (f ∈ fields)) as [Hin | Hnin].
    + exact (IH _ Hs f Hin).
    + apply elem_of_cons in Hf as [-> | Hf]; [| contradiction].
      apply convert_field_blank in E as [-> Hcell]. split; [| exact Hcell].
      rewrite (set_optional_other _ _ _ _ _ g Hs Hnin). apply getattr_setattr_eq.
Qed.

(** The import never sets an assignee. *)
Lemma process_row_unassigned d cols n row obj :
  process_row d cols n row = Accepted obj -> getattr obj "assigned_to_id" = VNone.
Proof.
  unfold process_row. destruct (_ || _); [discriminate |].
  destruct (exists_with _ _ _); [discriminate |].
  destruct (set_optional cols row OPTIONAL_FIELDS _) as [e | ex] eqn:Hs;
    [| discriminate].
  intros Heq. apply Accepted_inj in Heq. subst obj.
  rewrite (set_optional_other _ _ _ _ _ "assigned_to_id" Hs).
  - getattr_reduce. reflexivity.
  - apply (bool_decide_unpack _). vm_compute. exact I.
Qed.

(** [status] is one of the optional columns: the field loop leaves it
    [None] in every row that it accepts. *)
Lemma process_row_status_blank d cols n row obj :
  process_row d cols n row = Accepted obj -> getattr obj "status" = VNone.
Proof.
  unfold process_row. destruct (_ || _); [discriminate |].
  destruct (exists_with _ _ _); [discriminate |].
  destruct (set_optional cols row OPTIONAL_FIELDS _) as [e | ex] eqn:Hs;
    [| discriminate].
  intros Heq. apply Accepted_inj in Heq. subst obj.
  eapply proj1, set_optional_blank; [exact Hs |].
  apply (bool_decide_unpack _). vm_compute. exact I.
Qed.

(** The INSERT gives a [None] status the default of the column. *)
Lemma apply_defaults_status_blank e :
  getattr e "status" = VNone ->
  getattr (apply_defaults equipment_schema e) "status" = VStr "Available".
Proof.
  intros Hs. unfold apply_defaults. cbn [defaults equipment_schema fold_right].
  destruct (bool_decide (getattr e "condition" = VNone)).
  - rewrite getattr_setattr_ne by discriminate. rewrite Hs.
    rewrite (bool_decide_eq_true_2 (VNone = VNone)) by reflexivity.
    apply getattr_setattr_eq.
  - rewrite Hs. rewrite (bool_decide_eq_true_2 (VNone = VNone)) by reflexivity.
    apply getattr_setattr_eq.
Qed.

(** Every row that the import stored comes from an accepted row, with
    the defaults of the INSERT and the new primary key. *)
Lemma import_rows_origin df user_id dry_run w id e' :
  entities (tables (snd (import_from_dataframe df user_id dry_run w))) !! id = Some e' ->
  entities (tables w) !! id = None ->
  exists d cols n row obj i,
    process_row d cols n row = Accepted obj
    /\ e' = setattr (apply_defaults equipment_schema obj) "id" (VInt i).
Proof.
  unfold import_from_dataframe, Importer.import_from_dataframe.
  destruct (negb (bool_decide (errors _ = []))); [cbn; congruence |].
  cbn zeta. rewrite row_loop_outcomes.
  destruct (negb dry_run && _); [| cbn; congruence].
  unfold save_all.
  pose proof (commit_entities_cases equipment_schema
                (map InsertEntity
                   ([] ++ accepted_of
                            (outcomes process_row (tables w) (columns (replace_na df))
                               (rows (replace_na df)) 2))) w) as Hc.
  destruct (commit equipment_schema _ w) as [[u0 | ex] w1]; cbn [snd] in Hc.
  - match goal with
    | |- context [log_audit_event ?a ?b ?c ?d ?e0 ?f ?g ?h ?w1] =>
        pose proof (log_audit_event_entities a b c d e0 f g h w1) as He;
        destruct (log_audit_event a b c d e0 f g h w1) as [[u1 | e1] w2]
    end; cbn [snd] in *; rewrite He;
      (destruct Hc as [Hsame | (d' & Hfl & Hent)]; [rewrite Hsame; congruence |]);
      rewrite Hent; intros Hl Hnew;
      (destruct (flush_inserts_rows _ _ _ _ _ Hfl id e' Hl)
        as [Hold | (obj & i & Hobj & ->)]; [congruence |]);
      cbn [app] in Hobj; apply accepted_of_outcomes in Hobj as (n' & row & Hrow);
      do 4 eexists; exists obj, i; (split; [exact Hrow | reflexivity]).
  - cbn [snd]. destruct Hc as [Hsame | (d' & Hfl & Hent)].
    + rewrite Hsame. congruence.
    + rewrite Hent. intros Hl Hnew.
      destruct (flush_inserts_rows _ _ _ _ _ Hfl id e' Hl)
        as [Hold | (obj & i & Hobj & ->)]; [congruence |].
      cbn [app] in Hobj. apply accepted_of_outcomes in Hobj as (n' & row & Hrow).
      do 4 eexists. exists obj, i. split; [exact Hrow | reflexivity].
Qed.

(** So every stored row is unassigned and [Available]. *)
Lemma import_rows_available df user_id dry_run w id e' :
  entities (tables (snd (import_from_dataframe df user_id dry_run w))) !! id = Some e' ->
  entities (tables w) !! id = None ->
  getattr e' "assigned_to_id" = VNone /\ getattr e' "status" = VStr "Available".
Proof.
  intros Hl Hnew.
  destruct (import_rows_origin _ _ _ _ _ _ Hl Hnew)
    as (d & cols & n & row & obj & i & Hrow & ->).
  rewrite !getattr_setattr_ne by discriminate. split.
  - rewrite apply_defaults_equipment by discriminate.
    eapply process_row_unassigned; exact Hrow.
  - apply apply_defaults_status_blank. eapply process_row_status_blank; exact Hrow.
Qed.

End StoredRows.

(** ** The invariant and the mutation paths *)

Section Invariant.
Context `{FloatLib}.
Import Inventory.

(** C1, as the code has it.  Right after the call returns:
    - [checkout] and [checkin] either wrote nothing or left the entity
      with an assignee exactly when its status is ['In Use'];
    - [edit], when it wrote the entity and changed its assignee (to no
      one, or to a user whose id is not 0), left the status in step with
      the assignee;
    - [add_equipment], when it stored an entity with an assignee, stored
      it with the status ['In Use'];
    - every row that the bulk import stored has no assignee and the
      status ['Available'], the default of the column: the import stores
      no status of its own, so the invariant holds for each of them.
    When a form leaves the assignee as it is, the status is whatever the
    form says. *)
Theorem status_follows_assignment :
  (forall current_user id w,
      wrote_nothing_or w (snd (checkout current_user id w)) id in_use_iff_assigned)
  /\ (forall current_user id w,
      wrote_nothing_or w (snd (checkin current_user id w)) id in_use_iff_assigned)
  /\ (forall current_user req id w e,
      entities (tables w) !! id = Some e ->
      wrote_nothing_or w (snd (edit current_user req id w)) id
        (fun e' =>
           getattr e' "assigned_to_id" <> getattr e "assigned_to_id" ->
           getattr e' "assigned_to_id" <> VInt 0 ->
           in_use_iff_assigned e'))
  /\ (forall current_user req w,
      wrote_nothing_or w (snd (add_equipment current_user req w))
        (next_id (entities (tables w)))
        (fun e' =>
           getattr e' "assigned_to_id" <> VNone ->
           getattr e' "status" = VStr "In Use"))
  /\ (forall df user_id dry_run w id e',
      entities (tables (snd (BulkOperations.import_from_dataframe
                               df user_id dry_run w))) !! id = Some e' ->
      entities (tables w) !! id = None ->
      getattr e' "assigned_to_id" = VNone
      /\ getattr e' "status" = VStr "Available"
      /\ in_use_iff_assigned e').
Proof.
  split; [| split; [| split; [| split]]].
  - intros u id w.
    eapply wrote_nothing_or_later; [reflexivity | | apply checkout_effect].
    intros e' [Hs Ha]. unfold in_use_iff_assigned. rewrite Hs, Ha.
    split; [reflexivity | discriminate].
  - intros u id w.
    eapply wrote_nothing_or_later; [reflexivity | | apply checkin_effect].
    intros e' [Hs Ha]. unfold in_use_iff_assigned. rewrite Hs, Ha.
    split; [intros Hn; contradiction | discriminate].
  - intros u req id w e Hlook.
    eapply wrote_nothing_or_later; [reflexivity | | apply edit_effect; exact Hlook].
    intros e' [mv Hf]. eapply edit_fields_assignment; exact Hf.
  - intros u req w.
    eapply wrote_nothing_or_later; [reflexivity | | apply add_effect].
    intros e' (e & Hf & ->). rewrite !getattr_setattr_ne by discriminate.
    rewrite apply_defaults_equipment by discriminate. intros Ha.
    apply apply_defaults_status. eapply add_fields_assignment; eassumption.
  - intros df user_id dry_run w id e' Hl Hnew.
    destruct (import_rows_available _ _ _ _ _ _ Hl Hnew) as [Ha Hs].
    split; [exact Ha | split; [exact Hs |]].
    unfold in_use_iff_assigned. rewrite Ha, Hs.
    split; [intros Hn; contradiction | discriminate].
Qed.

End Invariant.

(** ** Dry runs *)

(** C9: a dry run writes nothing.  Whatever the table and whoever the
    actor, the world after [import_from_dataframe(df, user_id,
    dry_run=True)] is the world before the call, in both applications:
    the entities, the movement events and the audit events are the same,
    and only the report is produced. *)
Theorem dry_run_writes_nothing `{FloatLib} df user_id w :
  snd (BulkOperations.import_from_dataframe df user_id true w) = w
  /\ snd (AssetBulkOperations.import_from_dataframe df user_id true w) = w.
Proof. split; apply dry_run_frame. Qed.

(** ** The properties on concrete data *)

Section Concrete.
Import Inventory Examples.

Lemma lab_scope : entities (tables lab) !! 1 = Some scope.
Proof. apply lookup_insert_eq. Qed.

Lemma lab_probe : entities (tables lab) !! 2 = Some probe.
Proof.
  unfold lab. cbn [tables entities].
  rewrite lookup_insert_ne by discriminate. apply lookup_singleton_eq.
Qed.

(** C1 fails as stated: an administrator saves the edit form of an
    unassigned entity with the status In Use; the edit goes through, and
    the entity is In Use with no assignee. *)
Lemma edit_leaves_in_use_unassigned :
  fst (edit admin status_only_edit 1 lab)
  = respond "Equipment EQ-1 updated successfully" "success" (Redirect view_endpoint)
  /\ match entities (tables (snd (edit admin status_only_edit 1 lab))) !! 1 with
     | Some e' =>
         getattr e' "status" = VStr "In Use"
         /\ getattr e' "assigned_to_id" = VNone
         /\ ~ in_use_iff_assigned e'
     | None => False
     end.
Proof.
  split; vm_compute; [reflexivity |].
  split; [reflexivity | split; [reflexivity |]].
  intros [_ Hi]. apply Hi; reflexivity.
Qed.

(** The add form does the same: an administrator adds a meter with the
    status In Use and no assignee, and it is stored so. *)
Lemma add_stores_in_use_unassigned :
  match entities (tables (snd (add_equipment admin status_only_add lab))) !! 3 with
  | Some e' =>
      getattr e' "status" = VStr "In Use"
      /\ getattr e' "assigned_to_id" = VNone
      /\ ~ in_use_iff_assigned e'
  | None => False
  end.
Proof.
  vm_compute.
  split; [reflexivity | split; [reflexivity |]].
  intros [_ Hi]. apply Hi; reflexivity.
Qed.

(** The edit that assigns the oscilloscope to user 2 writes it, In Use
    and assigned; the first of three rows imported into the empty store
    is stored unassigned and Available. *)
Lemma status_follows_assignment_witness :
  wrote_nothing_or lab (snd (edit admin assign_edit 1 lab)) 1
    (fun e' =>
       getattr e' "assigned_to_id" <> getattr scope "assigned_to_id" ->
       getattr e' "assigned_to_id" <> VInt 0 ->
       in_use_iff_assigned e')
  /\ (fun e' => (getattr e' "status", getattr e' "assigned_to_id"))
       <$> entities (tables (snd (edit admin assign_edit 1 lab))) !! 1
     = Some (VStr "In Use", VInt 2)
  /\ match entities (tables (snd (BulkOperations.import_from_dataframe
                                    three_rows 1 false empty_world))) !! 1 with
     | Some e' =>
         getattr e' "asset_tag" = VStr "EQ-21"
         /\ getattr e' "assigned_to_id" = VNone
         /\ getattr e' "status" = VStr "Available"
         /\ in_use_iff_assigned e'
     | None => False
     end.
Proof.
  split; [| split].
  - apply (proj1 (proj2 (proj2 status_follows_assignment))). exact lab_scope.
  - vm_compute. reflexivity.
  - assert (Hok : (fun e' => getattr e' "asset_tag")
                    <$> entities (tables (snd (BulkOperations.import_from_dataframe
                                                 three_rows 1 false empty_world))) !! 1
                  = Some (VStr "EQ-21")) by (vm_compute; reflexivity).
    destruct (entities (tables (snd (BulkOperations.import_from_dataframe
                                       three_rows 1 false empty_world))) !! 1)
      as [e' |] eqn:E; [| discriminate Hok].
    split; [injection Hok as Hok; exact Hok |].
    apply (proj2 (proj2 (proj2 (proj2 status_follows_assignment)))
             three_rows 1 false empty_world 1 e' E).
    reflexivity.
Defined.

(** A checkout of the probe, which is In Use, is refused; a checkout of
    the oscilloscope by the researcher goes through. *)
Lemma checkout_needs_available_witness :
  checkout researcher 2 lab
  = (respond "Equipment is not available for checkout" "error"
             (Redirect view_endpoint), lab)
  /\ entities (tables (snd (checkout researcher 1 lab)))
     = <[1 := setattr (setattr scope "status" (VStr "In Use"))
                 "assigned_to_id" (VInt (user_id researcher))]>
         (entities (tables lab))
  /\ movement_logs (tables (snd (checkout researcher 1 lab)))
     = movement_logs (tables lab)
       ++ [{| ml_equipment_id := 1;
              ml_user_id := user_id researcher;
              ml_action := "checkout";
              ml_from_location := VNone;
              ml_to_location := getattr scope "location";
              ml_from_user_id := VNone;
              ml_to_user_id := VInt (user_id researcher);
              ml_notes := "Self-checkout" |}].
Proof.
  split.
  - apply (proj1 checkout_needs_available researcher 2 lab probe lab_probe).
    vm_compute. discriminate.
  - apply (proj2 checkout_needs_available researcher 1 lab scope lab_scope);
      vm_compute; reflexivity.
Defined.

(** The oscilloscope has no assignee: the reader may not check it in,
    the administrator may. *)
Lemma checkin_of_unassigned_witness :
  checkin reader 1 lab
  = (respond "You can only check in equipment assigned to you" "error"
             (Redirect view_endpoint), lab)
  /\ entities (tables (snd (checkin admin 1 lab)))
     = <[1 := setattr (setattr scope "status" (VStr "Available"))
                 "assigned_to_id" VNone]>
         (entities (tables lab))
  /\ movement_logs (tables (snd (checkin admin 1 lab)))
     = movement_logs (tables lab)
       ++ [{| ml_equipment_id := 1;
              ml_user_id := user_id admin;
              ml_action := "checkin";
              ml_from_location := VNone;
              ml_to_location := getattr scope "location";
              ml_from_user_id := VNone;
              ml_to_user_id := VNone;
              ml_notes := "Equipment returned" |}].
Proof.
  split.
  - apply (proj1 checkin_of_unassigned reader 1 lab scope lab_scope);
      vm_compute; reflexivity.
  - apply (proj2 checkin_of_unassigned admin 1 lab scope lab_scope);
      vm_compute; reflexivity.
Defined.

End Concrete.
Section ConcreteImports.
Import BulkOperations Examples.

Lemma required_columns_present rs :
  missing_columns REQUIRED_FIELDS {| columns := required_columns; rows := rs |} = [].
Proof. vm_compute. reflexivity. Qed.

(** C3 fails as stated: two rows of one batch carry the same asset tag
    and the store is empty; validation accepts both. *)
Lemma same_tag_twice_accepted :
  fst (import_from_dataframe two_same_tags 1 true empty_world)
  = {| success := 2; errors := []; warnings := []; total := 2 |}
  /\ key_of (columns two_same_tags) (plain_row "EQ-7" "Meter") "asset_tag" = Some "EQ-7"
  /\ key_of (columns two_same_tags) (plain_row "EQ-7" "Counter") "asset_tag" = Some "EQ-7".
Proof. repeat split; vm_compute; reflexivity. Qed.

(** The second of three rows has the asset tag of the stored
    oscilloscope: it is rejected, the other two are accepted. *)
Lemma store_collision_rejects_row_witness :
  import_from_dataframe colliding_rows 1 true lab
  = ({| success := 2;
        errors := ["Row 3: Asset tag 'EQ-1' already exists"];
        warnings := [];
        total := 3 |}, lab).
Proof.
  etransitivity.
  - apply (proj1 store_collision_rejects_row colliding_rows 1 lab
             [plain_row "EQ-31" "a"] (plain_row "EQ-1" "b") [plain_row "EQ-33" "c"]
             "EQ-1").
    + apply required_columns_present.
    + vm_compute. reflexivity.
    + vm_compute. reflexivity.
    + exists 1, scope. split; [apply lab_scope | vm_compute; reflexivity].
  - f_equal; vm_compute; reflexivity.
Defined.

(** C7 fails as stated: a row with none of its three required fields
    gets one message, not three. *)
Lemma one_message_for_three_missing_fields :
  length (filter (fun field => row_get (columns nothing_required)
                                 [VNone; VNone; VNone] field VNone = VNone)
                 REQUIRED_FIELDS) = 3%nat
  /\ import_from_dataframe nothing_required 1 true empty_world
     = ({| success := 0;
           errors := ["Row 2: asset_tag is required."];
           warnings := [];
           total := 1 |}, empty_world).
Proof. split; vm_compute; reflexivity. Qed.

(** The second of six rows has no asset tag: one message, no entity. *)
Lemma missing_key_rejects_row_witness :
  import_from_dataframe six_rows 1 true empty_world
  = (report_around
       (outcomes process_row (tables empty_world) (columns six_rows)
          [plain_row "EQ-11" "a"] 2)
       (outcomes process_row (tables empty_world) (columns six_rows)
          [plain_row "EQ-13" "c"; plain_row "EQ-14" "d"; untagged_row "e";
           plain_row "EQ-16" "f"] 4)
       "Row 3: asset_tag is required.",
     empty_world)
  /\ rejected_of (outcomes process_row (tables empty_world) (columns six_rows)
                    [untagged_row "b"] 3)
     = ["Row 3: asset_tag is required."].
Proof.
  split.
  - apply (proj1 missing_key_rejects_row six_rows 1 empty_world
             [plain_row "EQ-11" "a"] (untagged_row "b")
             [plain_row "EQ-13" "c"; plain_row "EQ-14" "d"; untagged_row "e";
              plain_row "EQ-16" "f"]).
    + apply required_columns_present.
    + vm_compute. reflexivity.
    + left. reflexivity.
  - vm_compute. reflexivity.
Defined.

(** C4 fails as stated: the rows at data positions 2 and 5 have no asset
    tag; the report names them row 3 and row 6, and has no entry for a
    row 2 or a row 5. *)
Lemma rejections_are_numbered_from_two :
  fst (import_from_dataframe six_rows 1 true empty_world)
  = {| success := 4;
       errors := ["Row 3: asset_tag is required."; "Row 6: asset_tag is required."];
       warnings := [];
       total := 6 |}
  /\ ((row_label 2 +:+ "asset_tag is required.")
      ∉ errors (fst (import_from_dataframe six_rows 1 true empty_world)))
  /\ ((row_label 5 +:+ "asset_tag is required.")
      ∉ errors (fst (import_from_dataframe six_rows 1 true empty_world))).
Proof.
  split; [vm_compute; reflexivity |].
  split; apply (bool_decide_unpack _); vm_compute; exact I.
Qed.

Lemma partial_failure_report_witness :
  import_from_dataframe six_rows 1 true empty_world
  = ({| success := 4;
        errors := ["Row 3: asset_tag is required."; "Row 6: asset_tag is required."];
        warnings := [];
        total := 6 |}, empty_world).
Proof.
  refine (proj1 (partial_failure_report six_rows 1 empty_world
                   (untagged_row "b") (untagged_row "e")
                   (required_columns_present _) eq_refl (or_introl eq_refl)
                   eq_refl (or_introl eq_refl) _)).
  intros i row Hi H1 H4.
  destruct i as [|[|[|[|[|[|i]]]]]]; try congruence; [.. | discriminate Hi];
    vm_compute in Hi; apply Some_inj in Hi; subst row;
    (destruct (process_row _ _ _ _) as [obj | msg] eqn:E;
     [exists obj; reflexivity | exfalso; vm_compute in E; discriminate E]).
Defined.

(** The store refuses the second of three inserts: nothing is stored. *)
Lemma failed_commit_stores_nothing_witness :
  tables (snd (import_from_dataframe three_rows 1 false refusing_world))
  = tables refusing_world
  /\ exists e,
       errors (fst (import_from_dataframe three_rows 1 false refusing_world))
       = rejected_of (outcomes process_row (tables refusing_world)
                        (columns three_rows) (rows (replace_na three_rows)) 2)
         ++ ["Database error: " +:+ exn_str e].
Proof.
  apply (proj2 failed_commit_stores_nothing three_rows 1 refusing_world 1%nat).
  - apply required_columns_present.
  - vm_compute. lia.
  - reflexivity.
Defined.

(** A pin count of 3.5 is refused. *)
Lemma pin_count_parses_strictly_witness :
  exists msg,
    outcomes process_row (tables empty_world) (columns odd_pin_counts)
      (rows (replace_na odd_pin_counts)) 2 !! 0%nat
    = Some (Rejected (row_label 2 +:+ msg))
    /\ ((row_label 2 +:+ msg)
        ∈ errors (fst (import_from_dataframe odd_pin_counts 1 true empty_world))).
Proof.
  apply (pin_count_parses_strictly odd_pin_counts 1 true empty_world 0
           (plain_row "EQ-41" "a" ++ [VFloat (Ffin 7 (-1))])).
  - vm_compute. reflexivity.
  - reflexivity.
  - right. exists 7, (-1). split; [vm_compute; reflexivity |].
    split; [lia | vm_compute; discriminate].
Defined.

(** The two rows with one asset tag again, now committed: the second
    insert breaks the unique constraint, the batch is rolled back and the
    store stays empty. *)
Lemma same_tag_twice_rolls_back :
  fst (import_from_dataframe two_same_tags 1 false empty_world)
  = {| success := 2;
       errors := ["Database error: UNIQUE constraint failed: equipment.asset_tag"];
       warnings := [];
       total := 2 |}
  /\ size (entities (tables (snd (import_from_dataframe two_same_tags 1 false
                                    empty_world)))) = 0%nat.
Proof. split; vm_compute; reflexivity. Qed.

(** A row that has an asset tag and no name is accepted; its name is the
    text of [None]. *)
Lemma row_without_name_is_accepted :
  (fun os => (fun obj => getattr obj "name") <$> accepted_of os)
    (outcomes process_row empty_db required_columns
       [[VStr "EQ-51"; VNone; VStr "Test"]] 2)
  = [VStr "None"].
Proof. vm_compute. reflexivity. Qed.

End ConcreteImports.

(** * Further properties *)

(** ** Reports of the import *)

Import Headers.

Lemma fold_add_error (g : string -> string) l r :
  fold_left (fun r field => add_error r (g field)) l r =
  {| success := success r; errors := errors r ++ map g l;
     warnings := warnings r; total := total r |}.
Proof.
  revert r. induction l as [|f l IH]; intros r; cbn [fold_left map].
  - rewrite app_nil_r. destruct r; reflexivity.
  - rewrite IH. cbn. rewrite <- app_assoc. reflexivity.
Qed.

Lemma accepted_rejected_length os :
  (length (accepted_of os) + length (rejected_of os) = length os)%nat.
Proof.
  induction os as [|[obj | msg] os IH]; unfold accepted_of, rejected_of in *;
    cbn [omap list_omap length] in *; lia.
Qed.

(** X2: a table that lacks a required column is turned away before a
    row is read.  The report has one message for each missing column, in
    the order of [REQUIRED_FIELDS], no row is counted, and the world is
    the one before the call, in a dry run and in a committed import;
    [validate_headers] raises for these tables, with the missing
    columns joined by [', '], and returns [True] for all others. *)
Theorem missing_columns_stop_import sch required body df user_id dry_run w :
  (missing_columns required df <> [] ->
   Importer.import_from_dataframe sch required body df user_id dry_run w =
     ({| success := 0;
         errors := map (fun f => "Missing required field in file: " +:+ f)
                       (missing_columns required df);
         warnings := [];
         total := 0 |}, w)
   /\ validate_headers required (columns df) =
      Raise (BulkImportError ("Missing required fields: " +:+
                              Inventory.join_comma (missing_columns required df))))
  /\ (missing_columns required df = [] ->
      validate_headers required (columns df) = Ret true).
Proof.
  split; [| intros Hm; unfold validate_headers; fold (missing_columns required df);
            rewrite Hm; reflexivity].
  intros Hm. split.
  - unfold Importer.import_from_dataframe.
    rewrite (fold_add_error (fun f => "Missing required field in file: " +:+ f)).
    cbn [errors no_results app success warnings total].
    destruct (missing_columns required df) as [|c l] eqn:E; [contradiction |].
    cbn [map]. rewrite bool_decide_eq_false_2 by discriminate. reflexivity.
  - unfold validate_headers. fold (missing_columns required df).
    rewrite bool_decide_eq_false_2 by exact Hm. reflexivity.
Qed.

(** X1: every row of the uploaded table is counted once.  When the
    required columns are there, in a dry run and in a committed import,
    whatever the table, the required columns and the body of the row
    loop: [total] is the number of rows, [success] is the number of
    accepted rows, the accepted and the rejected rows add up to the
    number of rows, and the errors are the messages of the rejected rows
    in row order, followed by one ['Database error: ...'] when the
    commit failed and by nothing else. *)
Theorem report_counts_every_row sch required body df user_id dry_run w :
  missing_columns required df = [] ->
  total (fst (Importer.import_from_dataframe sch required body df user_id dry_run w))
  = length (rows df)
  /\ success (fst (Importer.import_from_dataframe sch required body df user_id dry_run w))
     = length (accepted_of (outcomes body (tables w) (columns df) (rows (replace_na df)) 2))
  /\ (success (fst (Importer.import_from_dataframe sch required body df user_id dry_run w))
      + length (rejected_of (outcomes body (tables w) (columns df)
                               (rows (replace_na df)) 2))
      = length (rows df))%nat
  /\ (errors (fst (Importer.import_from_dataframe sch required body df user_id dry_run w))
      = rejected_of (outcomes body (tables w) (columns df) (rows (replace_na df)) 2)
      \/ exists e,
           dry_run = false
           /\ errors (fst (Importer.import_from_dataframe sch required body df
                             user_id dry_run w))
              = rejected_of (outcomes body (tables w) (columns df)
                               (rows (replace_na df)) 2)
                ++ ["Database error: " +:+ e]).
Proof.
  intros Hm. rewrite (import_unfold sch required body df user_id dry_run w Hm).
  cbn zeta.
  pose proof (accepted_rejected_length
                (outcomes body (tables w) (columns df) (rows (replace_na df)) 2)) as Hlen.
  rewrite outcomes_length, replace_na_length in Hlen.
  destruct dry_run; cbn [negb andb].
  - cbn [fst tally total success errors]. rewrite outcomes_length, replace_na_length.
    repeat split; [lia | left; reflexivity].
  - destruct (negb (bool_decide _)).
    + destruct (save_all _ _ _ _) as [[u | e] w'];
        cbn [fst tally add_error total success errors];
        rewrite outcomes_length, replace_na_length;
        (repeat split; [lia |]); [left; reflexivity | right; eauto].
    + cbn [fst tally total success errors]. rewrite outcomes_length, replace_na_length.
      repeat split; [lia | left; reflexivity].
Qed.

(** X3: an import that accepts no row writes nothing, committed or not:
    the rows are not sent and no audit event is logged
    ([if not dry_run and equipment_list]). *)
Theorem import_of_rejected_rows_writes_nothing sch required body df user_id dry_run w :
  accepted_of (outcomes body (tables w) (columns df) (rows (replace_na df)) 2) = [] ->
  snd (Importer.import_from_dataframe sch required body df user_id dry_run w) = w.
Proof.
  intros Hacc. unfold Importer.import_from_dataframe.
  destruct (negb (bool_decide (errors _ = []))); [reflexivity |].
  cbn zeta. rewrite row_loop_outcomes. cbn [app columns replace_na rows] in *.
  rewrite Hacc. rewrite bool_decide_eq_true_2 by reflexivity.
  cbn [negb]. rewrite andb_false_r. reflexivity.
Qed.

Lemma rejected_row_is_reported sch required body df user_id dry_run w i row msg :
  missing_columns required df = [] ->
  rows (replace_na df) !! i = Some row ->
  body (tables w) (columns df) (2 + i)%nat row = Rejected msg ->
  msg ∈ errors (fst (Importer.import_from_dataframe sch required body df user_id
                       dry_run w)).
Proof.
  intros Hm Hi Hrow.
  pose proof (outcomes_lookup body (tables w) (columns df) _ 2 i _ Hi) as Ho.
  rewrite Hrow in Ho.
  assert (Hin : msg ∈ rejected_of (outcomes body (tables w) (columns df)
                                     (rows (replace_na df)) 2)).
  { unfold rejected_of. apply list_elem_of_omap.
    exists (Rejected msg). split; [| reflexivity].
    apply list_elem_of_lookup. exists i. exact Ho. }
  rewrite import_unfold by assumption. cbn zeta.
  destruct (negb dry_run && _); [| exact Hin].
  destruct (save_all _ _ _ _) as [[u | e] w']; cbn; [exact Hin |].
  apply elem_of_app. left. exact Hin.
Qed.

Section RowNumbers.
Context `{FloatLib}.

Lemma equipment_rejection_label d cols n row msg :
  BulkOperations.process_row d cols n row = Rejected msg ->
  exists m, msg = row_label n +:+ m.
Proof.
  unfold BulkOperations.process_row.
  destruct (_ || _); [intros Heq; inversion Heq; eauto |].
  destruct (exists_with _ _ _); [intros Heq; inversion Heq; eauto |].
  destruct (BulkOperations.set_optional _ _ _ _); [discriminate |].
  intros Heq; inversion Heq; eauto.
Qed.

Lemma asset_rejection_label d cols n row msg :
  AssetBulkOperations.process_row d cols n row = Rejected msg ->
  exists m, msg = row_label n +:+ m.
Proof.
  unfold AssetBulkOperations.process_row. cbv zeta.
  destruct (_ || _); [intros Heq; inversion Heq; eauto |].
  destruct (exists_with _ _ _); [intros Heq; inversion Heq; eauto |].
  repeat (destruct (String.eqb _ ""); [intros Heq; inversion Heq; eauto |]).
  destruct (AssetBulkOperations.set_optional _ _ _ _); [discriminate |].
  intros Heq; inversion Heq; eauto.
Qed.

(** X5: a rejection names its row.  In both applications the message of
    a rejected row starts with ['Row n: '], where [n] is the position of
    the row among the data rows plus two, and the message is in the
    report in a dry run and in a committed import. *)
Theorem rejections_name_their_row :
  (forall df user_id dry_run w i row msg,
      missing_columns BulkOperations.REQUIRED_FIELDS df = [] ->
      rows (replace_na df) !! i = Some row ->
      BulkOperations.process_row (tables w) (columns df) (2 + i) row = Rejected msg ->
      (exists m, msg = row_label (2 + i) +:+ m)
      /\ msg ∈ errors (fst (BulkOperations.import_from_dataframe df user_id dry_run w)))
  /\ (forall df user_id dry_run w i row msg,
      missing_columns AssetBulkOperations.REQUIRED_FIELDS df = [] ->
      rows (replace_na df) !! i = Some row ->
      AssetBulkOperations.process_row (tables w) (columns df) (2 + i) row = Rejected msg ->
      (exists m, msg = row_label (2 + i) +:+ m)
      /\ msg ∈ errors (fst (AssetBulkOperations.import_from_dataframe
                              df user_id dry_run w))).
Proof.
  split; intros df user_id dry_run w i row msg Hm Hi Hrow; split.
  - eapply equipment_rejection_label. exact Hrow.
  - eapply rejected_row_is_reported; eassumption.
  - eapply asset_rejection_label. exact Hrow.
  - eapply rejected_row_is_reported; eassumption.
Qed.

End RowNumbers.

(** ** Cells of the optional columns *)

Section OptionalCells.
Context `{FloatLib}.

(** X6: what an accepted equipment row holds.  The membership tests of
    the field loop have [pd.NA] in their tuples, whose comparison with
    any cell that is not [None] and not one of the tuple's earlier items
    has no truth value; only a blank cell gets through.  So every
    optional attribute of an accepted equipment is [None], and every
    optional cell of its row is [None] or a text that strips to the empty
    text or to ['NA']. *)
Theorem accepted_equipment_row_has_blank_optional_cells d cols n row obj :
  BulkOperations.process_row d cols n row = Accepted obj ->
  Forall (fun f =>
            getattr obj f = VNone
            /\ (row_get cols row f VNone = VNone
                \/ exists s, row_get cols row f VNone = VStr s
                             /\ (strip s = "" \/ strip s = "NA")))
         BulkOperations.OPTIONAL_FIELDS.
Proof.
  unfold BulkOperations.process_row. destruct (_ || _); [discriminate |].
  destruct (exists_with _ _ _); [discriminate |].
  destruct (BulkOperations.set_optional cols row BulkOperations.OPTIONAL_FIELDS _)
    as [e | ex] eqn:Hs; [| discriminate].
  intros Heq. apply Accepted_inj in Heq. subst obj.
  apply Forall_forall. intros f Hf. eapply set_optional_blank; eassumption.
Qed.

End OptionalCells.

Section AssetCells.
Context `{FloatLib}.
Import Cells AssetBulkOperations.

Lemma asset_blank_test v :
  (if pd_isna v then Ret true else py_in v [VStr ""; VStr "NA"]) = Ret (blank_cell v).
Proof.
  unfold blank_cell.
  destruct v as [| |[|m e]|z|s|dt]; cbn [pd_isna py_in py_is py_eq orb]; try reflexivity.
  destruct (String.eqb_spec "" s) as [<- | Hne].
  - rewrite bool_decide_eq_true_2 by reflexivity. reflexivity.
  - rewrite (bool_decide_eq_false_2 (VStr s = VStr "")) by congruence.
    destruct (String.eqb_spec "NA" s) as [<- | Hne2].
    + rewrite bool_decide_eq_true_2 by reflexivity. reflexivity.
    + rewrite bool_decide_eq_false_2 by congruence. reflexivity.
Qed.

Lemma asset_convert_field field v :
  convert_field field v =
  if blank_cell v then Ret VNone
  else if bool_decide (field ∈ DATE_FIELDS) then BulkOperations.parse_date v
  else Ret (stripped v).
Proof.
  unfold convert_field. rewrite asset_blank_test. cbn [bind].
  destruct (blank_cell v) eqn:Hb.
  - rewrite (bool_decide_eq_true_2 (VNone = VNone)) by reflexivity. cbn [negb].
    rewrite andb_false_r. reflexivity.
  - assert (Hv : v <> VNone) by (intros ->; discriminate Hb).
    rewrite (bool_decide_eq_false_2 (v = VNone)) by exact Hv. cbn [negb].
    rewrite andb_true_r. reflexivity.
Qed.

Lemma asset_set_optional_other cols row fields asset asset' k :
  set_optional cols row fields asset = Ret asset' ->
  k ∉ fields -> getattr asset' k = getattr asset k.
Proof.
  revert asset. induction fields as [|f fields IH]; intros asset; cbn [set_optional].
  - intros Heq _. apply Ret_inj in Heq. subst. reflexivity.
  - destruct (convert_field f (row_get cols row f VNone)) as [v | ex];
      cbn [bind]; [| discriminate].
    intros Hs Hk. apply not_elem_of_cons in Hk as [Hne Hk].
    rewrite (IH _ Hs Hk). apply getattr_setattr_ne. congruence.
Qed.

Lemma asset_set_optional_ok cols row fields asset :
  (forall f, f ∈ fields -> exists x, convert_field f (row_get cols row f VNone) = Ret x) ->
  exists asset',
    set_optional cols row fields asset = Ret asset'
    /\ forall f, f ∈ fields ->
         convert_field f (row_get cols row f VNone) = Ret (getattr asset' f).
Proof.
  revert asset. induction fields as [|g fields IH]; intros asset Hok; cbn [set_optional].
  - exists asset. split; [reflexivity |]. intros f Hf. apply elem_of_nil in Hf. contradiction.
  - destruct (Hok g) as [x Hx]; [left |]. rewrite Hx. cbn [bind].
    destruct (IH (setattr asset g x)) as (asset' & Hs & Hall).
    { intros f Hf. apply Hok. right. exact Hf. }
    exists asset'. split; [exact Hs |]. intros f Hf.
    destruct (decide (f ∈ fields)) as [Hin | Hnin]; [exact (Hall f Hin) |].
    apply elem_of_cons in Hf as [-> | Hf]; [| contradiction].
    rewrite (asset_set_optional_other _ _ _ _ _ g Hs Hnin), getattr_setattr_eq.
    exact Hx.
Qed.

(** X7: when the asset import accepts a row.  A row with a serial number
    that the store does not hold, with an invoice number, a description
    and an owner, and whose date cells are blank or readable by
    [parse_date], is accepted.  The asset has the stripped serial number;
    an optional cell that is [None], [pd.NA], [NaN], [''] or ['NA'] is
    stored as [None], a date cell as the date read from it, and any
    other cell as it is, a text stripped. *)
Theorem asset_row_with_readable_dates_is_accepted d cols n row serial :
  key_of cols row "serial_number" = Some serial ->
  exists_with (entities d) "serial_number" (VStr serial) = false ->
  strip (py_str (row_get cols row "invoice_no" (VStr ""))) <> "" ->
  strip (py_str (row_get cols row "description" (VStr ""))) <> "" ->
  strip (py_str (row_get cols row "owner_email" (VStr ""))) <> "" ->
  (forall f, f ∈ DATE_FIELDS ->
     blank_cell (row_get cols row f VNone) = false ->
     exists dt, BulkOperations.parse_date (row_get cols row f VNone) = Ret dt) ->
  exists obj,
    process_row d cols n row = Accepted obj
    /\ getattr obj "serial_number" = VStr serial
    /\ forall f, f ∈ OPTIONAL_FIELDS ->
         if blank_cell (row_get cols row f VNone) then getattr obj f = VNone
         else if bool_decide (f ∈ DATE_FIELDS) then
           BulkOperations.parse_date (row_get cols row f VNone) = Ret (getattr obj f)
         else getattr obj f = stripped (row_get cols row f VNone).
Proof.
  intros Hkey Hstore Hinv Hdesc Hown Hdates.
  unfold key_of in Hkey. unfold process_row.
  destruct (bool_decide (row_get cols row "serial_number" VNone = VNone));
    [discriminate |].
  destruct (String.eqb (strip (py_str (row_get cols row "serial_number" VNone))) "");
    [discriminate |].
  apply Some_inj in Hkey. rewrite Hkey. cbn [orb]. rewrite Hstore.
  destruct (String.eqb_spec (strip (py_str (row_get cols row "invoice_no" (VStr "")))) "");
    [contradiction |].
  destruct (String.eqb_spec (strip (py_str (row_get cols row "description" (VStr "")))) "");
    [contradiction |].
  destruct (String.eqb_spec (strip (py_str (row_get cols row "owner_email" (VStr "")))) "");
    [contradiction |].
  match goal with
  | |- context [set_optional cols row OPTIONAL_FIELDS ?a] =>
      destruct (asset_set_optional_ok cols row OPTIONAL_FIELDS a) as (asset' & Hs & Hall)
  end.
  { intros f Hf. rewrite asset_convert_field.
    destruct (blank_cell (row_get cols row f VNone)) eqn:Hb; [eauto |].
    case_bool_decide; [apply Hdates; assumption | eauto]. }
  rewrite Hs. exists asset'. split; [reflexivity |]. split.
  - rewrite (asset_set_optional_other _ _ _ _ _ "serial_number" Hs).
    + getattr_reduce. reflexivity.
    + apply (bool_decide_unpack _). vm_compute. exact I.
  - intros f Hf. specialize (Hall f Hf). rewrite asset_convert_field in Hall.
    destruct (blank_cell (row_get cols row f VNone)).
    + apply Ret_inj in Hall. congruence.
    + case_bool_decide; [exact Hall | apply Ret_inj in Hall; congruence].
Qed.

End AssetCells.

(** ** What the writes keep *)

Import Store.

Lemma extends_refl d : extends d d.
Proof. repeat split; [auto | reflexivity | reflexivity]. Qed.

Lemma extends_trans d1 d2 d3 : extends d1 d2 -> extends d2 d3 -> extends d1 d3.
Proof.
  intros (Hk1 & Hm1 & Ha1) (Hk2 & Hm2 & Ha2). repeat split.
  - auto.
  - etransitivity; eassumption.
  - etransitivity; eassumption.
Qed.

Lemma exists_with_false tbl col v id row :
  exists_with tbl col v = false -> tbl !! id = Some row -> getattr row col <> v.
Proof.
  intros Hex Hl Heq. apply not_true_iff_false in Hex. apply Hex.
  apply exists_with_true. eauto.
Qed.

Lemma unique_key_insert col tbl id e :
  unique_key col tbl ->
  exists_with (delete id tbl) col (getattr e col) = false ->
  unique_key col (<[id := e]> tbl).
Proof.
  intros Hu Hex i j ei ej Hi Hj Heq.
  destruct (decide (i = j)) as [| Hij]; [assumption | exfalso].
  destruct (decide (id = i)) as [<- | Hi'].
  - rewrite lookup_insert_eq in Hi. apply Some_inj in Hi. subst ei.
    rewrite lookup_insert_ne in Hj by exact Hij.
    eapply (exists_with_false _ _ _ j ej Hex); [| congruence].
    rewrite lookup_delete_ne by exact Hij. exact Hj.
  - rewrite lookup_insert_ne in Hi by exact Hi'.
    destruct (decide (id = j)) as [<- | Hj'].
    + rewrite lookup_insert_eq in Hj. apply Some_inj in Hj. subst ej.
      eapply (exists_with_false _ _ _ i ei Hex); [| congruence].
      rewrite lookup_delete_ne by exact Hi'. exact Hi.
    + rewrite lookup_insert_ne in Hj by exact Hj'. apply Hij. eapply Hu; eassumption.
Qed.

Lemma exists_with_delete tbl col v id :
  exists_with tbl col v = false -> exists_with (delete id tbl) col v = false.
Proof.
  intros Hex. apply not_true_iff_false. intros Hd. apply not_true_iff_false in Hex.
  apply Hex. apply exists_with_true. apply exists_with_true in Hd as (i & row & Hl & Hv).
  exists i, row. split; [| exact Hv].
  destruct (decide (id = i)) as [<- | Hne].
  - rewrite lookup_delete_eq in Hl. discriminate.
  - rewrite lookup_delete_ne in Hl by exact Hne. exact Hl.
Qed.

(** One statement keeps the unique column unique and removes nothing. *)
Lemma exec_keeps sch d s d' :
  unique_col sch <> "id" ->
  exec sch d s = Ret d' ->
  aims_at (entities d) s ->
  extends d d'
  /\ (unique_key (unique_col sch) (entities d) ->
      unique_key (unique_col sch) (entities d')).
Proof.
  intros Hcol Hx Haim. destruct s as [e | id e | m | a]; cbn [exec] in Hx.
  - destruct (check_row sch (entities d) (apply_defaults sch e)) as [[] | ex] eqn:Hc;
      cbn [bind] in Hx; [| discriminate].
    apply Ret_inj in Hx. subst d'. cbn [entities]. split.
    + repeat split; cbn [entities movement_logs audit_logs]; [| reflexivity | reflexivity].
      intros id [row Hrow].
      destruct (decide (next_id (entities d) = id)) as [<- | Hne].
      * rewrite lookup_insert_eq. eauto.
      * rewrite lookup_insert_ne by exact Hne. eauto.
    + intros Hu. apply unique_key_insert; [exact Hu |].
      rewrite getattr_setattr_ne by congruence. apply exists_with_delete.
      unfold check_row in Hc. destruct (filter _ (not_null sch)); [| discriminate].
      destruct (exists_with _ _ _); [discriminate | reflexivity].
  - destruct Haim as [old Hold]. rewrite Hold in Hx. cbn [default] in Hx.
    change (Datatypes.id old) with old in Hx.
    destruct (check_update sch (delete id (entities d)) old e) as [[] | ex] eqn:Hc;
      cbn [bind] in Hx; [| discriminate].
    apply Ret_inj in Hx. subst d'. cbn [entities]. split.
    + repeat split; cbn [entities movement_logs audit_logs]; [| reflexivity | reflexivity].
      intros i [row Hrow]. destruct (decide (id = i)) as [<- | Hne].
      * rewrite lookup_insert_eq. eauto.
      * rewrite lookup_insert_ne by exact Hne. eauto.
    + intros Hu. apply unique_key_insert; [exact Hu |].
      unfold check_update in Hc. destruct (filter _ (not_null sch)); [| discriminate].
      case_bool_decide as Hk; cbn [andb] in Hc.
      * destruct (exists_with _ _ _); [discriminate | reflexivity].
      * apply not_true_iff_false. intros Hex.
        apply exists_with_true in Hex as (j & row & Hl & Hv).
        destruct (decide (id = j)) as [<- | Hne].
        -- rewrite lookup_delete_eq in Hl. discriminate.
        -- rewrite lookup_delete_ne in Hl by exact Hne.
           apply Hne. apply (Hu id j old row Hold Hl). congruence.
  - apply Ret_inj in Hx. subst d'. split; [| auto].
    repeat split; cbn [entities movement_logs audit_logs];
      [auto | apply prefix_app_r; reflexivity | reflexivity].
  - apply Ret_inj in Hx. subst d'. split; [| auto].
    repeat split; cbn [entities movement_logs audit_logs];
      [auto | reflexivity | apply prefix_app_r; reflexivity].
Qed.

Lemma aims_at_extends d d' s :
  extends d d' -> aims_at (entities d) s -> aims_at (entities d') s.
Proof. intros (Hk & _ & _). destruct s; cbn; auto. Qed.

Lemma flush_keeps sch stmts d fs d' :
  unique_col sch <> "id" ->
  fst (flush sch stmts d fs) = Ret d' ->
  Forall (aims_at (entities d)) stmts ->
  extends d d'
  /\ (unique_key (unique_col sch) (entities d) ->
      unique_key (unique_col sch) (entities d')).
Proof.
  intros Hcol. revert d fs. induction stmts as [|s stmts IH]; intros d fs; cbn [flush].
  - cbn. intros Heq _. apply Ret_inj in Heq. subst d'. split; [apply extends_refl | auto].
  - intros Hfl Haim. apply Forall_cons in Haim as [Hs Haim].
    assert (Hgo : forall fs', fst (match exec sch d s with
                                   | Ret d1 => flush sch stmts d1 fs'
                                   | Raise e => (Raise e, fs')
                                   end) = Ret d' ->
                  extends d d'
                  /\ (unique_key (unique_col sch) (entities d) ->
                      unique_key (unique_col sch) (entities d'))).
    { intros fs'. destruct (exec sch d s) as [d1 | ex] eqn:Hx; [| discriminate].
      intros Hfl'. destruct (exec_keeps sch d s d1 Hcol Hx Hs) as [He Hu].
      destruct (IH d1 fs' Hfl') as [He' Hu'].
      { eapply Forall_impl; [exact Haim |]. intros s'. apply aims_at_extends. exact He. }
      split; [eapply extends_trans; eassumption | auto]. }
    destruct fs as [|[|] fs]; [eapply Hgo; exact Hfl | discriminate | eapply Hgo; exact Hfl].
Qed.

Lemma commit_keeps sch stmts w :
  unique_col sch <> "id" ->
  Forall (aims_at (entities (tables w))) stmts ->
  extends (tables w) (tables (snd (commit sch stmts w)))
  /\ (unique_key (unique_col sch) (entities (tables w)) ->
      unique_key (unique_col sch) (entities (tables (snd (commit sch stmts w))))).
Proof.
  intros Hcol Haim. unfold commit.
  pose proof (flush_keeps sch stmts (tables w) (faults w)) as Hf.
  destruct (flush sch stmts (tables w) (faults w)) as [[d' | ex] fs]; cbn [snd tables].
  - apply Hf; [exact Hcol | reflexivity | exact Haim].
  - split; [apply extends_refl | auto].
Qed.

Lemma keeps_refl col d : keeps col d d.
Proof. split; [apply extends_refl | auto]. Qed.

Lemma keeps_trans col d1 d2 d3 : keeps col d1 d2 -> keeps col d2 d3 -> keeps col d1 d3.
Proof.
  intros [He1 Hu1] [He2 Hu2]. split; [eapply extends_trans; eassumption | auto].
Qed.

Lemma commit_keeps_from sch stmts w0 w :
  unique_col sch <> "id" ->
  keeps (unique_col sch) (tables w0) (tables w) ->
  Forall (aims_at (entities (tables w))) stmts ->
  keeps (unique_col sch) (tables w0) (tables (snd (commit sch stmts w))).
Proof.
  intros Hcol Hk Haim. eapply keeps_trans; [exact Hk |].
  apply commit_keeps; assumption.
Qed.

Lemma log_audit_event_keeps sch uid action tbl rid old new eid w0 w :
  unique_col sch <> "id" ->
  keeps (unique_col sch) (tables w0) (tables w) ->
  keeps (unique_col sch) (tables w0)
    (tables (snd (log_audit_event sch uid action tbl rid old new eid w))).
Proof.
  intros Hcol Hk. unfold log_audit_event. apply commit_keeps_from; [assumption .. |].
  repeat constructor.
Qed.

Lemma aims_at_kept col d d' id :
  keeps col d d' -> is_Some (entities d !! id) -> is_Some (entities d' !! id).
Proof. intros [(Hk & _ & _) _]. apply Hk. Qed.

(** One [commit], or one [log_audit_event], of a handler: the fact about
    the world so far is carried over to the world after it. *)
Ltac write_step Hk :=
  lazymatch type of Hk with
  | keeps _ (tables ?w0) _ =>
      match goal with
      | |- context [commit ?s ?stmts ?w1] =>
          let Hc := fresh "Hk" in
          assert (Hc : keeps (unique_col s) (tables w0)
                         (tables (snd (commit s stmts w1))))
            by (apply (commit_keeps_from s stmts w0 w1);
                [discriminate | exact Hk
                | repeat constructor; cbn [aims_at]; eauto using aims_at_kept]);
          clear Hk; destruct (commit s stmts w1) as [[[] | ?] ?]; cbn [snd] in Hc
      | |- context [log_audit_event ?a ?b ?c ?d ?e0 ?f ?g ?h ?w1] =>
          let Hc := fresh "Hk" in
          assert (Hc : keeps (unique_col a) (tables w0)
                         (tables (snd (log_audit_event a b c d e0 f g h w1))))
            by (apply (log_audit_event_keeps a b c d e0 f g h w0 w1);
                [discriminate | exact Hk]);
          clear Hk; destruct (log_audit_event a b c d e0 f g h w1) as [[[] | ?] ?];
          cbn [snd] in Hc
      end
  end.

Section HandlersKeep.
Context `{FloatLib}.
Import Inventory.

Lemma checkout_keeps u id w :
  keeps "asset_tag" (tables w) (tables (snd (checkout u id w))).
Proof.
  pose proof (keeps_refl "asset_tag" (tables w)) as Hk.
  unfold checkout. destruct (entities (tables w) !! id) as [e |] eqn:Hl; [| exact Hk].
  destruct (negb (is_available e)); [exact Hk |].
  destruct (negb (has_permission u "checkout")); [exact Hk |].
  cbn zeta. write_step Hk; [| exact Hk0]. write_step Hk0; exact Hk.
Qed.

Lemma checkin_keeps u id w :
  keeps "asset_tag" (tables w) (tables (snd (checkin u id w))).
Proof.
  pose proof (keeps_refl "asset_tag" (tables w)) as Hk.
  unfold checkin. destruct (entities (tables w) !! id) as [e |] eqn:Hl; [| exact Hk].
  destruct (_ && _); [exact Hk |].
  cbn zeta. write_step Hk; [| exact Hk0]. write_step Hk0; exact Hk.
Qed.

Lemma edit_keeps u req id w :
  keeps "asset_tag" (tables w) (tables (snd (edit u req id w))).
Proof.
  pose proof (keeps_refl "asset_tag" (tables w)) as Hk.
  unfold edit. destruct (entities (tables w) !! id) as [e |] eqn:Hl; [| exact Hk].
  destruct (negb (has_permission u "update")); [exact Hk |].
  destruct (String.eqb (method req) "POST"); [| exact Hk].
  destruct (edit_fields id e u (form req)) as [[e' [m |]] | ex]; [| | exact Hk];
    cbn zeta; (write_step Hk; [| exact Hk0]); write_step Hk0; exact Hk.
Qed.

Lemma add_equipment_keeps u req w :
  keeps "asset_tag" (tables w) (tables (snd (add_equipment u req w))).
Proof.
  pose proof (keeps_refl "asset_tag" (tables w)) as Hk.
  unfold add_equipment. destruct (negb (has_permission u "create")); [exact Hk |].
  destruct (String.eqb (method req) "POST"); [| exact Hk].
  destruct (add_fields (form req)) as [e | ex]; [| exact Hk].
  repeat (case_bool_decide; [exact Hk |]).
  destruct (exists_with _ _ _); [exact Hk |].
  cbn zeta. write_step Hk; [| exact Hk0]. write_step Hk0; [| exact Hk].
  case_bool_decide; [| exact Hk]. write_step Hk; exact Hk0.
Qed.

End HandlersKeep.

Lemma import_keeps sch required body df user_id dry_run w :
  unique_col sch <> "id" ->
  keeps (unique_col sch) (tables w)
    (tables (snd (Importer.import_from_dataframe sch required body df user_id dry_run w))).
Proof.
  intros Hcol. pose proof (keeps_refl (unique_col sch) (tables w)) as Hk.
  unfold Importer.import_from_dataframe.
  destruct (negb (bool_decide (errors _ = []))); [exact Hk |].
  cbn zeta. destruct (row_loop _ _ _ _ _ _ _) as [results accepted].
  destruct (negb dry_run && _); [| exact Hk].
  unfold save_all.
  assert (Hk1 : keeps (unique_col sch) (tables w)
                  (tables (snd (commit sch (map InsertEntity accepted) w)))).
  { apply commit_keeps_from; [assumption .. |]. apply Forall_forall.
    intros s Hs. apply list_elem_of_fmap in Hs as (obj & -> & _). exact I. }
  destruct (commit sch (map InsertEntity accepted) w) as [[[] | ex] w1]; cbn [snd] in Hk1.
  - match goal with
    | |- context [log_audit_event ?a ?b ?c ?d ?e0 ?f ?g ?h ?w1] =>
        pose proof (log_audit_event_keeps a b c d e0 f g h w w1 Hcol Hk1) as Hk2;
        destruct (log_audit_event a b c d e0 f g h w1) as [[[] | ?] ?]
    end; exact Hk2.
  - exact Hk1.
Qed.

Section WhatHandlersKeep.
Context `{FloatLib}.
Import Inventory.

(** X16: the unique column stays unique.  When no two entities have the
    same asset tag (serial number, for assets) before a checkout, a
    checkin, an edit, an add or an import, dry or committed, none have
    after it. *)
Theorem unique_keys_stay_unique :
  (forall u id w,
      unique_key "asset_tag" (entities (tables w)) ->
      unique_key "asset_tag" (entities (tables (snd (checkout u id w)))))
  /\ (forall u id w,
      unique_key "asset_tag" (entities (tables w)) ->
      unique_key "asset_tag" (entities (tables (snd (checkin u id w)))))
  /\ (forall u req id w,
      unique_key "asset_tag" (entities (tables w)) ->
      unique_key "asset_tag" (entities (tables (snd (edit u req id w)))))
  /\ (forall u req w,
      unique_key "asset_tag" (entities (tables w)) ->
      unique_key "asset_tag" (entities (tables (snd (add_equipment u req w)))))
  /\ (forall df user_id dry_run w,
      unique_key "asset_tag" (entities (tables w)) ->
      unique_key "asset_tag"
        (entities (tables (snd (BulkOperations.import_from_dataframe
                                  df user_id dry_run w)))))
  /\ (forall df user_id dry_run w,
      unique_key "serial_number" (entities (tables w)) ->
      unique_key "serial_number"
        (entities (tables (snd (AssetBulkOperations.import_from_dataframe
                                  df user_id dry_run w))))).
Proof.
  split; [| split; [| split; [| split; [| split]]]].
  - intros u id w. exact (proj2 (checkout_keeps u id w)).
  - intros u id w. exact (proj2 (checkin_keeps u id w)).
  - intros u req id w. exact (proj2 (edit_keeps u req id w)).
  - intros u req w. exact (proj2 (add_equipment_keeps u req w)).
  - intros df user_id dry_run w.
    refine (proj2 (import_keeps equipment_schema _ _ df user_id dry_run w _)).
    discriminate.
  - intros df user_id dry_run w.
    refine (proj2 (import_keeps AssetBulkOperations.asset_schema _ _ df user_id
                    dry_run w _)).
    discriminate.
Qed.

(** X17: checkout, checkin, edit, add and the two imports remove
    nothing: every primary key of the entity table is still a key after
    the call, and the movement log and the audit log of before are the
    beginning of the logs of after. *)
Theorem handlers_remove_nothing :
  (forall u id w, extends (tables w) (tables (snd (checkout u id w))))
  /\ (forall u id w, extends (tables w) (tables (snd (checkin u id w))))
  /\ (forall u req id w, extends (tables w) (tables (snd (edit u req id w))))
  /\ (forall u req w, extends (tables w) (tables (snd (add_equipment u req w))))
  /\ (forall df user_id dry_run w,
        extends (tables w)
          (tables (snd (BulkOperations.import_from_dataframe df user_id dry_run w))))
  /\ (forall df user_id dry_run w,
        extends (tables w)
          (tables (snd (AssetBulkOperations.import_from_dataframe
                          df user_id dry_run w)))).
Proof.
  split; [| split; [| split; [| split; [| split]]]].
  - intros u id w. exact (proj1 (checkout_keeps u id w)).
  - intros u id w. exact (proj1 (checkin_keeps u id w)).
  - intros u req id w. exact (proj1 (edit_keeps u req id w)).
  - intros u req w. exact (proj1 (add_equipment_keeps u req w)).
  - intros df user_id dry_run w.
    refine (proj1 (import_keeps equipment_schema _ _ df user_id dry_run w _)).
    discriminate.
  - intros df user_id dry_run w.
    refine (proj1 (import_keeps AssetBulkOperations.asset_schema _ _ df user_id
                    dry_run w _)).
    discriminate.
Qed.

End WhatHandlersKeep.

(** ** Primary keys and committed batches *)

Lemma next_id_above (tbl : gmap Z (gmap string value)) id row :
  tbl !! id = Some row -> id < next_id tbl.
Proof.
  unfold next_id.
  revert id row.
  apply (map_fold_weak_ind
           (fun r (m : gmap Z (gmap string value)) =>
              forall id row, m !! id = Some row -> id < 1 + r)).
  - intros id row Hl. rewrite lookup_empty in Hl. discriminate.
  - intros i x m r Hnone IH id row Hl.
    destruct (decide (i = id)) as [<- | Hne].
    + lia.
    + rewrite lookup_insert_ne in Hl by exact Hne. specialize (IH id row Hl). lia.
Qed.

Lemma next_id_fresh (tbl : gmap Z (gmap string value)) : tbl !! next_id tbl = None.
Proof.
  destruct (tbl !! next_id tbl) as [row |] eqn:Hl; [| reflexivity].
  apply next_id_above in Hl. lia.
Qed.

Lemma accepts_S n fs :
  accepts (S n) fs = true ->
  (fs = [] \/ exists fs', fs = false :: fs') /\ accepts n (tail fs) = true.
Proof.
  unfold accepts. destruct fs as [|[|] fs]; cbn [take forallb negb andb tail].
  - intros _. split; [auto |]. destruct n; reflexivity.
  - discriminate.
  - intros Hacc. split; [eauto | exact Hacc].
Qed.

Lemma exists_with_insert_false tbl col v id row :
  exists_with tbl col v = false -> getattr row col <> v ->
  exists_with (<[id := row]> tbl) col v = false.
Proof.
  intros Hex Hne. apply not_true_iff_false. intros Hin.
  apply exists_with_true in Hin as (i & r & Hl & Hv).
  destruct (decide (id = i)) as [<- | Hi].
  - rewrite lookup_insert_eq in Hl. apply Some_inj in Hl. subst r. contradiction.
  - rewrite lookup_insert_ne in Hl by exact Hi.
    exact (exists_with_false _ _ _ _ _ Hex Hl Hv).
Qed.

(** A batch of inserts that the store accepts, whose rows break no
    constraint: every row is stored under a new primary key. *)
Lemma flush_inserts_ok sch batch d fs :
  unique_col sch <> "id" ->
  accepts (length batch) fs = true ->
  (forall obj, obj ∈ batch ->
     filter (fun k => getattr (apply_defaults sch obj) k = VNone) (not_null sch) = []
     /\ exists_with (entities d) (unique_col sch)
          (getattr (apply_defaults sch obj) (unique_col sch)) = false) ->
  NoDup (map (fun obj => getattr (apply_defaults sch obj) (unique_col sch)) batch) ->
  exists d',
    flush sch (map InsertEntity batch) d fs = (Ret d', drop (length batch) fs)
    /\ movement_logs d' = movement_logs d
    /\ audit_logs d' = audit_logs d
    /\ size (entities d') = (size (entities d) + length batch)%nat
    /\ (forall id e, entities d !! id = Some e -> entities d' !! id = Some e)
    /\ (forall obj, obj ∈ batch ->
          exists_with (entities d') (unique_col sch)
            (getattr (apply_defaults sch obj) (unique_col sch)) = true).
Proof.
  intros Hcol. revert d fs.
  induction batch as [|obj batch IH]; intros d fs Hacc Hok Hnd;
    cbn [map flush length].
  - exists d. rewrite drop_0. repeat split; [lia | auto |].
    intros obj Hobj. apply elem_of_nil in Hobj. contradiction.
  - cbn [map length] in Hacc, Hnd.
    apply accepts_S in Hacc as [Hfs Hacc]. apply NoDup_cons in Hnd as [Hnew Hnd].
    destruct (Hok obj) as [Hnn Hfree]; [left |].
    assert (Hx : exec sch d (InsertEntity obj) =
                 Ret {| entities :=
                          <[next_id (entities d) :=
                              setattr (apply_defaults sch obj) "id"
                                (VInt (next_id (entities d)))]> (entities d);
                        movement_logs := movement_logs d;
                        audit_logs := audit_logs d |}).
    { cbn [exec]. unfold check_row. rewrite Hnn, Hfree. reflexivity. }
    set (d1 := {| entities := _; movement_logs := _; audit_logs := _ |}) in Hx.
    destruct (IH d1 (tail fs) Hacc) as (d' & Hfl & Hm & Ha & Hsz & Hold & Hin).
    { intros o Ho. destruct (Hok o) as [Hnn' Hfree']; [right; exact Ho |].
      split; [exact Hnn' |]. cbn [d1 entities].
      apply exists_with_insert_false; [exact Hfree' |].
      rewrite getattr_setattr_ne by congruence. intros Heq. apply Hnew.
      apply list_elem_of_In, in_map_iff. exists o.
      split; [congruence | apply list_elem_of_In; exact Ho]. }
    { exact Hnd. }
    exists d'. split.
    { destruct Hfs as [-> | [fs' ->]]; cbn [tail] in Hfl |- *; rewrite Hx, Hfl;
        [rewrite !drop_nil |]; reflexivity. }
    cbn [d1 entities movement_logs audit_logs] in *.
    split; [exact Hm |]. split; [exact Ha |]. split.
    { rewrite Hsz, map_size_insert_None by apply next_id_fresh. lia. }
    split.
    { intros id e Hl. apply Hold. rewrite lookup_insert_ne; [exact Hl |].
      intros <-. rewrite next_id_fresh in Hl. discriminate. }
    intros o Ho. apply elem_of_cons in Ho as [-> | Ho]; [| exact (Hin o Ho)].
    apply exists_with_true. eexists _, _. split.
    + apply Hold. apply lookup_insert_eq.
    + apply getattr_setattr_ne. congruence.
Qed.

Lemma accepts_weaken n fs : accepts (S n) fs = true -> accepts n fs = true.
Proof.
  unfold accepts. revert fs. induction n as [|n IH]; intros fs; [reflexivity |].
  destruct fs as [|[|] fs]; cbn [take forallb negb andb]; [reflexivity | discriminate |].
  apply IH.
Qed.

Lemma accepts_next n fs :
  accepts (S n) fs = true -> drop n fs = [] \/ exists fs', drop n fs = false :: fs'.
Proof.
  revert fs. induction n as [|n IH]; intros fs Hacc.
  - rewrite drop_0. apply accepts_S in Hacc as [Hfs _]. exact Hfs.
  - apply accepts_S in Hacc as [_ Hacc]. destruct fs as [|b fs]; [left; reflexivity |].
    cbn [tail] in Hacc. cbn [drop]. apply IH. exact Hacc.
Qed.

Lemma commit_audit_ok sch a w :
  (faults w = [] \/ exists fs', faults w = false :: fs') ->
  commit sch [InsertAudit a] w =
  (Ret tt, {| tables := {| entities := entities (tables w);
                           movement_logs := movement_logs (tables w);
                           audit_logs := audit_logs (tables w) ++ [a] |};
              faults := tail (faults w) |}).
Proof.
  intros [Hfs | [fs' Hfs]]; unfold commit; cbn [flush]; rewrite Hfs; reflexivity.
Qed.

Section CommittedImport.
Context `{FloatLib}.
Import BulkOperations.

Lemma process_row_accepted d cols n row obj :
  process_row d cols n row = Accepted obj ->
  exists_with (entities d) "asset_tag" (getattr obj "asset_tag") = false
  /\ getattr obj "asset_tag" <> VNone
  /\ getattr obj "name" <> VNone
  /\ getattr obj "category" <> VNone.
Proof.
  unfold process_row. destruct (_ || _); [discriminate |].
  destruct (exists_with _ _ _) eqn:Hex; [discriminate |].
  destruct (set_optional cols row OPTIONAL_FIELDS _) as [e | ex] eqn:Hs;
    [| discriminate].
  intros Heq. apply Accepted_inj in Heq. subst obj.
  rewrite (set_optional_other _ _ _ _ _ "asset_tag" Hs)
    by (apply (bool_decide_unpack _); vm_compute; exact I).
  rewrite (set_optional_other _ _ _ _ _ "name" Hs)
    by (apply (bool_decide_unpack _); vm_compute; exact I).
  rewrite (set_optional_other _ _ _ _ _ "category" Hs)
    by (apply (bool_decide_unpack _); vm_compute; exact I).
  getattr_reduce. rewrite Hex. repeat split; discriminate.
Qed.

(** X4: a committed import that the store accepts.  When the required
    columns are there, some row is accepted, the accepted rows carry
    pairwise different asset tags and the store accepts the inserts and
    the audit event: the report has no database error, the entity table
    grows by the number of accepted rows, every row it held is still
    there, every accepted asset tag is in the store, no movement is
    logged, and one audit event [bulk_import] with the count is
    appended. *)
Theorem committed_import_stores_every_accepted_row df user_id w :
  missing_columns REQUIRED_FIELDS df = [] ->
  accepted_of (outcomes process_row (tables w) (columns df) (rows (replace_na df)) 2)
    <> [] ->
  NoDup (map (fun obj => getattr obj "asset_tag")
           (accepted_of (outcomes process_row (tables w) (columns df)
                           (rows (replace_na df)) 2))) ->
  accepts (S (length (accepted_of (outcomes process_row (tables w) (columns df)
                                     (rows (replace_na df)) 2))))
          (faults w) = true ->
  fst (import_from_dataframe df user_id false w)
  = tally (outcomes process_row (tables w) (columns df) (rows (replace_na df)) 2)
  /\ size (entities (tables (snd (import_from_dataframe df user_id false w))))
     = (size (entities (tables w))
        + length (accepted_of (outcomes process_row (tables w) (columns df)
                                 (rows (replace_na df)) 2)))%nat
  /\ (forall id e,
        entities (tables w) !! id = Some e ->
        entities (tables (snd (import_from_dataframe df user_id false w))) !! id = Some e)
  /\ (forall obj,
        obj ∈ accepted_of (outcomes process_row (tables w) (columns df)
                             (rows (replace_na df)) 2) ->
        exists_with (entities (tables (snd (import_from_dataframe df user_id false w))))
          "asset_tag" (getattr obj "asset_tag") = true)
  /\ movement_logs (tables (snd (import_from_dataframe df user_id false w)))
     = movement_logs (tables w)
  /\ audit_logs (tables (snd (import_from_dataframe df user_id false w)))
     = audit_logs (tables w)
       ++ [{| al_user_id := user_id;
              al_equipment_id := None;
              al_action := "bulk_import";
              al_table_name := "equipment";
              al_record_id := None;
              al_old_values := None;
              al_new_values :=
                Some {["count" :=
                         VInt (Z.of_nat
                                 (length (accepted_of
                                            (outcomes process_row (tables w) (columns df)
                                               (rows (replace_na df)) 2))))]} |}].
Proof.
  intros Hm Hne Hnd Hacc. unfold import_from_dataframe.
  rewrite (import_unfold equipment_schema REQUIRED_FIELDS process_row df user_id false w Hm).
  cbn zeta.
  pose proof (accepted_of_outcomes process_row (tables w) (columns df)
                (rows (replace_na df)) 2) as Hrows.
  set (batch := accepted_of _) in *.
  rewrite (bool_decide_eq_false_2 _ Hne). cbn [negb andb].
  destruct (flush_inserts_ok equipment_schema batch (tables w) (faults w))
    as (d' & Hfl & Hmv & Hau & Hsz & Hold & Hin).
  { discriminate. }
  { apply accepts_weaken. exact Hacc. }
  { intros obj Hobj. destruct (Hrows obj Hobj) as (n' & row & Hrow).
    apply process_row_accepted in Hrow as (Hfree & Ht & Hn & Hc).
    cbn [unique_col equipment_schema not_null]. split.
    - apply filter_none. intros k Hk.
      repeat (apply elem_of_cons in Hk as [-> | Hk]);
        [rewrite apply_defaults_equipment by discriminate; assumption .. |].
      apply elem_of_nil in Hk. contradiction.
    - rewrite apply_defaults_equipment by discriminate. exact Hfree. }
  { cbn [unique_col equipment_schema].
    erewrite map_ext; [exact Hnd |].
    intros obj. cbn beta. apply apply_defaults_equipment; discriminate. }
  assert (Hcommit : commit equipment_schema (map InsertEntity batch) w
                    = (Ret tt, {| tables := d';
                                  faults := drop (length batch) (faults w) |}))
    by (unfold commit; rewrite Hfl; reflexivity).
  unfold save_all. rewrite Hcommit. unfold log_audit_event.
  rewrite commit_audit_ok by (apply accepts_next; exact Hacc).
  cbn [fst snd tables entities movement_logs audit_logs].
  split; [reflexivity |]. split; [exact Hsz |]. split; [exact Hold |].
  split.
  { intros obj Hobj. specialize (Hin obj Hobj).
    cbn [unique_col equipment_schema] in Hin.
    rewrite apply_defaults_equipment in Hin by discriminate. exact Hin. }
  split; [exact Hmv |]. rewrite Hau. reflexivity.
Qed.

End CommittedImport.

(** ** Dates *)

Import Calendar.

Lemma check_fields_valid f d : Strptime.check_fields f = Ret d -> valid_date d.
Proof.
  unfold Strptime.check_fields.
  repeat match goal with
         | |- context [negb (?a && ?b)] =>
             destruct a eqn:?; destruct b eqn:?; cbn [negb andb]; try discriminate
         end.
  intros Heq. apply Ret_inj in Heq. subst d. unfold valid_date. cbn [year month day].
  lia.
Qed.

Lemma strptime_valid s fmt d : Strptime.strptime s fmt = Ret d -> valid_date d.
Proof.
  unfold Strptime.strptime. destruct (Strptime.compile _ _); [| discriminate].
  destruct (Strptime.regex_match _ _ _) as [[f [|c rest]] |]; try discriminate.
  apply check_fields_valid.
Qed.

Lemma try_formats_valid s fmts x :
  BulkOperations.try_formats s fmts = Ret x -> exists d, x = VDate d /\ valid_date d.
Proof.
  induction fmts as [|fmt fmts IH]; cbn [BulkOperations.try_formats]; [discriminate |].
  destruct (Strptime.strptime s fmt) as [d | ex] eqn:Hp; [| exact IH].
  intros Heq. apply Ret_inj in Heq. subst x. exists d. split; [reflexivity |].
  eapply strptime_valid. exact Hp.
Qed.

(** X8: [parse_date] returns [None] or a date of the calendar, and the
    date fields of the add and edit forms are dates of the calendar: the
    year is in 1..9999, the month in 1..12 and the day in 1..the length
    of the month. *)
Theorem parsed_dates_are_calendar_dates `{FloatLib} :
  (forall v x,
      BulkOperations.parse_date v = Ret x ->
      x = VNone \/ exists d, x = VDate d /\ valid_date d)
  /\ (forall s x,
      Inventory.form_date s = Ret x -> exists d, x = VDate d /\ valid_date d).
Proof.
  split.
  - intros v x. unfold BulkOperations.parse_date.
    destruct (pd_isna v); [intros Heq; apply Ret_inj in Heq; auto |].
    destruct (py_bool v) as [t | ex]; cbn [bind]; [| discriminate].
    destruct (negb t || _); [intros Heq; apply Ret_inj in Heq; auto |].
    intros Hp. right. eapply try_formats_valid. exact Hp.
  - intros s x. unfold Inventory.form_date.
    destruct (Strptime.strptime s "%Y-%m-%d") as [d | ex] eqn:Hp; cbn [bind];
      [| discriminate].
    intros Heq. apply Ret_inj in Heq. subst x. exists d. split; [reflexivity |].
    eapply strptime_valid. exact Hp.
Qed.

Lemma list_ascii_of_string_app s1 s2 :
  list_ascii_of_string (s1 +:+ s2) = list_ascii_of_string s1 ++ list_ascii_of_string s2.
Proof.
  induction s1 as [|c s1 IH]; [reflexivity |].
  simpl. f_equal. exact IH.
Qed.

Lemma year_text_digits y :
  1 <= y <= 9999 ->
  exists a b c d,
    list_ascii_of_string (pad4 y) = [a; b; c; d]
    /\ is_digit a = true /\ is_digit b = true /\ is_digit c = true /\ is_digit d = true
    /\ digits_val [a; b; c; d] = y.
Proof.
  intros Hy.
  assert (Hall : forallb year_text_ok (map Z.of_nat (seq 1 (Z.to_nat 9999))) = true)
    by (vm_compute; reflexivity).
  rewrite forallb_forall in Hall. specialize (Hall y).
  assert (Hin : In y (map Z.of_nat (seq 1 (Z.to_nat 9999)))).
  { apply in_map_iff. exists (Z.to_nat y). split; [lia |]. apply in_seq. lia. }
  specialize (Hall Hin). unfold year_text_ok in Hall.
  destruct (list_ascii_of_string (pad4 y)) as [|a [|b [|c [|d [|]]]]]; try discriminate.
  apply andb_prop in Hall as [Hall Hv]. apply andb_prop in Hall as [Hall Hd].
  apply andb_prop in Hall as [Hall Hc]. apply andb_prop in Hall as [Ha Hb].
  exists a, b, c, d. repeat split; try assumption. apply Z.eqb_eq. exact Hv.
Qed.

Lemma is_digit_not_space c : is_digit c = true -> is_space c = false.
Proof.
  unfold is_digit, is_space. cbv zeta. intros Hd.
  apply andb_prop in Hd as [H1 H2]. apply Z.leb_le in H1. apply Z.leb_le in H2.
  apply orb_false_intro; apply andb_false_iff; right; apply Z.leb_gt; lia.
Qed.

Lemma regex_year items a b c d s f :
  is_digit a = true -> is_digit b = true -> is_digit c = true -> is_digit d = true ->
  Strptime.regex_match (Strptime.Dir Strptime.DY :: items) (a :: b :: c :: d :: s) f =
  Strptime.regex_match items s
    (Strptime.Fields (digits_val [a; b; c; d]) (Strptime.fm f) (Strptime.fd f)
       (Strptime.fH f) (Strptime.fM f) (Strptime.fS f)).
Proof.
  intros Ha Hb Hc Hd.
  cbn [Strptime.regex_match Strptime.candidates Strptime.alternatives omap list_omap
       Strptime.match_alt].
  rewrite Ha, Hb, Hc, Hd. cbn [Strptime.first_some Strptime.set_field].
  rewrite !filter_cons_True by assumption. rewrite filter_nil.
  destruct (Strptime.regex_match items s _) as [[f' s'] |]; reflexivity.
Qed.

(** The text of a month and a day, for every month and every day up to
    31: what follows the year in the expression reads it back, and the
    text does not end in whitespace. *)
Lemma month_day_text_reads y m dd :
  1 <= m <= 12 -> 1 <= dd <= 31 ->
  Strptime.regex_match
    [Strptime.Lit "-"; Strptime.Dir Strptime.Dm; Strptime.Lit "-";
     Strptime.Dir Strptime.Dd]
    (month_day_text m dd) (Strptime.Fields y 1 1 0 0 0)
  = Some (Strptime.Fields y m dd 0 0 0, [])
  /\ match rev (month_day_text m dd) with
     | h :: _ => is_space h
     | [] => true
     end = false.
Proof.
  intros Hm Hd.
  assert (Hall : forall m' d' : nat,
             (m' < 12)%nat -> (d' < 31)%nat ->
             Strptime.regex_match
               [Strptime.Lit "-"; Strptime.Dir Strptime.Dm; Strptime.Lit "-";
                Strptime.Dir Strptime.Dd]
               (month_day_text (1 + Z.of_nat m') (1 + Z.of_nat d'))
               (Strptime.Fields y 1 1 0 0 0)
             = Some (Strptime.Fields y (1 + Z.of_nat m') (1 + Z.of_nat d') 0 0 0, [])
             /\ match rev (month_day_text (1 + Z.of_nat m') (1 + Z.of_nat d')) with
                | h :: _ => is_space h
                | [] => true
                end = false).
  { intros m' d' Hm' Hd'.
    do 12 (destruct m' as [|m'];
           [do 31 (destruct d' as [|d']; [split; vm_compute; reflexivity |]); lia |]).
    lia. }
  specialize (Hall (Z.to_nat (m - 1)) (Z.to_nat (dd - 1))).
  replace (1 + Z.of_nat (Z.to_nat (m - 1))) with m in Hall by lia.
  replace (1 + Z.of_nat (Z.to_nat (dd - 1))) with dd in Hall by lia.
  apply Hall; lia.
Qed.

Lemma lstrip_app_kept l1 l2 :
  match l1 with h :: _ => is_space h | [] => true end = false ->
  lstrip (l1 ++ l2) = l1 ++ l2.
Proof.
  destruct l1 as [|h t]; [discriminate |]. cbn [app lstrip]. intros ->. reflexivity.
Qed.

Lemma check_fields_date y m dd :
  valid_date (Date y m dd) ->
  Strptime.check_fields (Strptime.Fields y m dd 0 0 0) = Ret (Date y m dd).
Proof.
  unfold valid_date. cbn [year month day]. intros (Hy & Hm & Hd).
  unfold Strptime.check_fields.
  cbn [Strptime.fY Strptime.fm Strptime.fd Strptime.fH Strptime.fM Strptime.fS].
  rewrite (proj2 (Z.leb_le 1 y)), (proj2 (Z.leb_le y 9999)),
          (proj2 (Z.leb_le 1 m)), (proj2 (Z.leb_le m 12)),
          (proj2 (Z.leb_le 1 dd)), (proj2 (Z.leb_le dd _)) by lia.
  reflexivity.
Qed.

Lemma days_in_month_le y m : Strptime.days_in_month y m <= 31.
Proof.
  unfold Strptime.days_in_month.
  destruct (m =? 2); [destruct (Strptime.is_leap y); lia |].
  destruct (_ || _); lia.
Qed.

(** The ISO text of a calendar date has no surrounding whitespace, is
    not empty, and [%Y-%m-%d] reads it back. *)
Lemma isoformat_reads d :
  valid_date d ->
  strip (isoformat d) = isoformat d
  /\ String.eqb (isoformat d) "" = false
  /\ Strptime.strptime (isoformat d) "%Y-%m-%d" = Ret d.
Proof.
  destruct d as [y m dd]. intros Hv. pose proof Hv as (Hy & Hm & Hd).
  cbn [year month day] in Hy, Hm, Hd.
  pose proof (days_in_month_le y m) as Hle.
  destruct (year_text_digits y Hy) as (a & b & c & e & Hyear & Ha & Hb & Hc & He & Hval).
  destruct (month_day_text_reads y m dd) as [Hread Hlast]; [lia | lia |].
  assert (Hl : list_ascii_of_string (isoformat (Date y m dd))
               = a :: b :: c :: e :: month_day_text m dd).
  { unfold isoformat. cbn [year month day]. rewrite list_ascii_of_string_app, Hyear.
    reflexivity. }
  assert (Hs : isoformat (Date y m dd)
               = string_of_list_ascii (a :: b :: c :: e :: month_day_text m dd)).
  { rewrite <- Hl. symmetry. apply string_of_list_ascii_of_string. }
  split; [| split].
  - unfold strip. rewrite Hl. cbn [lstrip]. rewrite (is_digit_not_space a Ha).
    change (a :: b :: c :: e :: month_day_text m dd)
      with ([a; b; c; e] ++ month_day_text m dd).
    rewrite rev_app_distr. rewrite lstrip_app_kept by exact Hlast.
    rewrite <- rev_app_distr. rewrite rev_involutive. symmetry. exact Hs.
  - rewrite Hs. reflexivity.
  - unfold Strptime.strptime.
    change (Strptime.compile (list_ascii_of_string "%Y-%m-%d") false)
      with (Some [Strptime.Dir Strptime.DY; Strptime.Lit "-"%char;
                  Strptime.Dir Strptime.Dm; Strptime.Lit "-"%char;
                  Strptime.Dir Strptime.Dd]).
    rewrite Hl. rewrite regex_year by assumption. rewrite Hval.
    cbn [Strptime.no_fields Strptime.fm Strptime.fd Strptime.fH Strptime.fM Strptime.fS].
    rewrite Hread. apply check_fields_date. exact Hv.
Qed.

(** X9: the ISO text of a date is read back as the date.  For every date
    of the calendar, [parse_date] of the date, [parse_date] of its text
    [YYYY-MM-DD] and the date field of a form filled with that text all
    give the date. *)
Theorem iso_date_text_round_trip `{FloatLib} d :
  valid_date d ->
  BulkOperations.parse_date (VDate d) = Ret (VDate d)
  /\ BulkOperations.parse_date (VStr (isoformat d)) = Ret (VDate d)
  /\ Inventory.form_date (isoformat d) = Ret (VDate d).
Proof.
  intros Hv. destruct (isoformat_reads d Hv) as (Hstrip & Hne & Hread).
  unfold BulkOperations.parse_date, Inventory.form_date.
  cbn [pd_isna py_bool bind py_str negb orb]. rewrite Hstrip, Hne. cbn [negb orb].
  unfold BulkOperations.date_formats. cbn [BulkOperations.try_formats].
  rewrite Hread. cbn [bind]. repeat split; reflexivity.
Qed.

(** ** Texts that read in more than one way *)

Lemma first_some_Some {A B} (k : A -> option B) l b :
  Strptime.first_some k l = Some b -> exists a, a ∈ l /\ k a = Some b.
Proof.
  induction l as [|a l IH]; cbn [Strptime.first_some]; [discriminate |].
  destruct (k a) as [b' |] eqn:Hk.
  - intros Heq. exists a. split; [left | congruence].
  - intros Hl. destruct (IH Hl) as (a' & Hin & Ha'). exists a'. split; [right |]; assumption.
Qed.

Lemma match_alt_split alt s t r :
  Strptime.match_alt alt s = Some (t, r) -> s = t ++ r /\ length t = length alt.
Proof.
  revert s t r. induction alt as [|p alt IH]; intros s t r; cbn [Strptime.match_alt].
  - intros Heq. inversion Heq. auto.
  - destruct s as [|c s]; [discriminate |]. destruct (p c); [| discriminate].
    destruct (Strptime.match_alt alt s) as [[t' r'] |] eqn:Hm; [| discriminate].
    intros Heq. inversion Heq. subst. destruct (IH _ _ _ Hm) as [-> Hlen].
    cbn [app length]. auto.
Qed.

(** A text that [%m/...] matches has its first [/] as its second or its
    third character. *)
Lemma month_then_slash items s f res :
  Strptime.regex_match
    (Strptime.Dir Strptime.Dm :: Strptime.Lit "/" :: items) s f = Some res ->
  exists t r, s = t ++ "/"%char :: r /\ (length t = 1 \/ length t = 2)%nat.
Proof.
  cbn [Strptime.regex_match]. intros Hm.
  apply first_some_Some in Hm as ([f' s'] & Hin & Hrest).
  unfold Strptime.candidates in Hin. apply list_elem_of_omap in Hin as (alt & Halt & Hcand).
  destruct (Strptime.match_alt alt s) as [[t r] |] eqn:Hma; [| discriminate].
  apply Some_inj in Hcand. inversion Hcand. subst f' s'.
  apply match_alt_split in Hma as [-> Hlen].
  apply first_some_Some in Hrest as ([f2 s2] & Hin2 & _).
  unfold Strptime.candidates in Hin2. destruct r as [|c r]; [apply elem_of_nil in Hin2; contradiction |].
  destruct (Ascii.eqb_spec "/" c) as [<- | Hne]; [| apply elem_of_nil in Hin2; contradiction].
  exists t, r. split; [reflexivity |].
  cbn [Strptime.alternatives] in Halt.
  repeat (apply elem_of_cons in Halt as [-> | Halt]; [cbn [length] in Hlen; lia |]).
  apply elem_of_nil in Halt. contradiction.
Qed.

(** A text whose second or third character is [/] does not start with
    a year. *)
Lemma no_year_before_slash items t r f :
  (length t = 1 \/ length t = 2)%nat ->
  Strptime.regex_match (Strptime.Dir Strptime.DY :: items) (t ++ "/"%char :: r) f = None.
Proof.
  intros Hlen. cbn [Strptime.regex_match Strptime.candidates Strptime.alternatives
                    omap list_omap].
  assert (Hno : Strptime.match_alt [is_digit; is_digit; is_digit; is_digit]
                  (t ++ "/"%char :: r) = None).
  { destruct t as [|c1 [|c2 [|c3 t]]]; cbn [length] in Hlen; try lia;
      cbn [app Strptime.match_alt];
      repeat match goal with
             | |- context [is_digit ?c] =>
                 first [ is_var c; destruct (is_digit c)
                       | change (is_digit c) with false ]
             end; try reflexivity;
      destruct r as [|c r]; try reflexivity;
      repeat match goal with
             | |- context [is_digit ?c] => is_var c; destruct (is_digit c)
             end; try reflexivity;
      destruct (Strptime.match_alt _ _) as [[? ?] |]; reflexivity. }
  rewrite Hno. reflexivity.
Qed.

(** X25: a text that reads as month/day/year is read so.  Whenever
    [%m/%d/%Y] reads the stripped text, [parse_date] returns that date:
    [%Y-%m-%d], the only format tried before, cannot read a text whose
    second or third character is [/], and [%d/%m/%Y] is not consulted,
    also when it would read the text as another date. *)
Theorem slash_dates_read_month_first `{FloatLib} s d :
  Strptime.strptime (strip s) "%m/%d/%Y" = Ret d ->
  BulkOperations.parse_date (VStr s) = Ret (VDate d)
  /\ fails (Strptime.strptime (strip s) "%Y-%m-%d").
Proof.
  intros Hmd.
  assert (Hshape : exists t r,
             list_ascii_of_string (strip s) = t ++ "/"%char :: r
             /\ (length t = 1 \/ length t = 2)%nat).
  { unfold Strptime.strptime in Hmd.
    change (Strptime.compile (list_ascii_of_string "%m/%d/%Y") false)
      with (Some [Strptime.Dir Strptime.Dm; Strptime.Lit "/"%char;
                  Strptime.Dir Strptime.Dd; Strptime.Lit "/"%char;
                  Strptime.Dir Strptime.DY]) in Hmd.
    cbv beta iota in Hmd.
    destruct (Strptime.regex_match _ _ _) as [res |] eqn:Hre; [| discriminate].
    exact (month_then_slash _ _ _ _ Hre). }
  destruct Hshape as (t & r & Hs & Hlen).
  assert (Hiso : exists ex, Strptime.strptime (strip s) "%Y-%m-%d" = Raise ex).
  { unfold Strptime.strptime.
    change (Strptime.compile (list_ascii_of_string "%Y-%m-%d") false)
      with (Some [Strptime.Dir Strptime.DY; Strptime.Lit "-"%char;
                  Strptime.Dir Strptime.Dm; Strptime.Lit "-"%char;
                  Strptime.Dir Strptime.Dd]).
    cbv beta iota. rewrite Hs, no_year_before_slash by exact Hlen. eauto. }
  destruct Hiso as [ex Hiso].
  assert (Hne : String.eqb (strip s) "" = false).
  { destruct (String.eqb_spec (strip s) "") as [He | _]; [| reflexivity].
    rewrite He in Hs. destruct t; discriminate Hs. }
  assert (Hs0 : String.eqb s "" = false).
  { destruct (String.eqb_spec s "") as [-> | _]; [| reflexivity]. discriminate Hne. }
  split.
  - unfold BulkOperations.parse_date. cbn [pd_isna py_bool bind py_str].
    rewrite Hs0, Hne. cbn [negb orb]. unfold BulkOperations.date_formats.
    cbn [BulkOperations.try_formats]. rewrite Hiso, Hmd. reflexivity.
  - rewrite Hiso. exact I.
Qed.

Section AmbiguousDate.
Import Examples.

(** ["01/02/2024"] is the second of January. *)
Lemma slash_dates_read_month_first_witness :
  BulkOperations.parse_date (VStr "01/02/2024") = Ret (VDate (Date 2024 1 2))
  /\ fails (Strptime.strptime (strip "01/02/2024") "%Y-%m-%d")
  /\ Strptime.strptime "01/02/2024" "%d/%m/%Y" = Ret (Date 2024 2 1).
Proof.
  destruct (slash_dates_read_month_first "01/02/2024" (Date 2024 1 2)) as [Hp Hf].
  - vm_compute. reflexivity.
  - split; [exact Hp |]. split; [exact Hf | vm_compute; reflexivity].
Defined.

End AmbiguousDate.

(** ** Self-service: whole transitions *)

Lemma accepts_drop n k fs :
  accepts (n + k) fs = true -> accepts n fs = true /\ accepts k (drop n fs) = true.
Proof.
  unfold accepts. revert fs. induction n as [|n IH]; intros fs; cbn [Nat.add].
  - rewrite drop_0. auto.
  - destruct fs as [|[|] fs]; cbn [take forallb negb andb drop].
    + rewrite take_nil. auto.
    + discriminate.
    + apply IH.
Qed.

Lemma tail_drop {A} n (l : list A) : tail (drop n l) = drop (S n) l.
Proof.
  revert l. induction n as [|n IH]; intros l.
  - rewrite drop_0. destruct l; reflexivity.
  - destruct l as [|a l]; [rewrite !drop_nil; reflexivity |]. cbn [drop]. apply IH.
Qed.

Lemma has_permission_role u action :
  has_permission u action = true ->
  (user_role u = "Admin"
   /\ action ∈ ["create"; "read"; "update"; "delete"; "bulk_import"; "user_management"])
  \/ (user_role u = "Lab Staff"
      /\ action ∈ ["create"; "read"; "update"; "delete"; "bulk_import"])
  \/ (user_role u = "Researcher" /\ action ∈ ["read"; "update"; "checkout"; "checkin"])
  \/ (user_role u = "Read-only" /\ action ∈ ["read"]).
Proof.
  unfold has_permission, permissions. cbn [dict_get]. intros Hp.
  apply bool_decide_eq_true in Hp.
  destruct (String.eqb_spec "Admin" (user_role u)) as [<- | _]; [auto |].
  destruct (String.eqb_spec "Lab Staff" (user_role u)) as [<- | _]; [auto |].
  destruct (String.eqb_spec "Researcher" (user_role u)) as [<- | _]; [auto |].
  destruct (String.eqb_spec "Read-only" (user_role u)) as [<- | _]; [auto 6 |].
  apply elem_of_nil in Hp. contradiction.
Qed.

Section WholeTransitions.
Context `{FloatLib}.
Import Inventory.

Lemma checkout_done u id w e :
  entities (tables w) !! id = Some e ->
  getattr e "status" = VStr "Available" ->
  has_permission u "checkout" = true ->
  accepts 3 (faults w) = true ->
  exists a,
    al_action a = "checkout_equipment" /\ al_equipment_id a = Some id
    /\ al_user_id a = user_id u
    /\ checkout u id w =
       (respond ("Equipment " +:+ py_str (getattr e "asset_tag")
                 +:+ " checked out successfully") "success" (Redirect view_endpoint),
        {| tables :=
             {| entities :=
                  <[id := setattr (setattr e "status" (VStr "In Use"))
                            "assigned_to_id" (VInt (user_id u))]> (entities (tables w));
                movement_logs :=
                  movement_logs (tables w)
                  ++ [{| ml_equipment_id := id;
                         ml_user_id := user_id u;
                         ml_action := "checkout";
                         ml_from_location := VNone;
                         ml_to_location := getattr e "location";
                         ml_from_user_id := VNone;
                         ml_to_user_id := VInt (user_id u);
                         ml_notes := "Self-checkout" |}];
                audit_logs := audit_logs (tables w) ++ [a] |};
           faults := drop 3 (faults w) |}).
Proof.
  intros Hlook Hstatus Hperm Hacc.
  destruct (accepts_drop 2 1 (faults w) Hacc) as [Hacc2 Hacc1].
  eexists. split; [| split; [| split]]; cycle 3.
  - unfold checkout. rewrite Hlook. unfold is_available.
    rewrite bool_decide_eq_true_2 by exact Hstatus. rewrite Hperm. cbn [negb].
    rewrite (commit_update_movement _ _ e) by
      (first [exact Hlook | exact Hacc2 | apply check_update_status_assignee]).
    unfold log_audit_event.
    rewrite commit_audit_ok by (cbn [faults]; apply accepts_S in Hacc1 as [Hfs _]; exact Hfs).
    cbn [tables faults entities movement_logs audit_logs].
    rewrite tail_drop. unfold movement. rewrite !getattr_setattr_ne by discriminate.
    reflexivity.
  - reflexivity.
  - reflexivity.
  - reflexivity.
Qed.

Lemma checkin_done u id w e :
  entities (tables w) !! id = Some e ->
  getattr e "assigned_to_id" = VInt (user_id u) \/ has_permission u "update" = true ->
  accepts 3 (faults w) = true ->
  exists a,
    al_action a = "checkin_equipment" /\ al_equipment_id a = Some id
    /\ al_user_id a = user_id u
    /\ checkin u id w =
       (respond ("Equipment " +:+ py_str (getattr e "asset_tag")
                 +:+ " checked in successfully") "success" (Redirect view_endpoint),
        {| tables :=
             {| entities :=
                  <[id := setattr (setattr e "status" (VStr "Available"))
                            "assigned_to_id" VNone]> (entities (tables w));
                movement_logs :=
                  movement_logs (tables w)
                  ++ [{| ml_equipment_id := id;
                         ml_user_id := user_id u;
                         ml_action := "checkin";
                         ml_from_location := VNone;
                         ml_to_location := getattr e "location";
                         ml_from_user_id := getattr e "assigned_to_id";
                         ml_to_user_id := VNone;
                         ml_notes := "Equipment returned" |}];
                audit_logs := audit_logs (tables w) ++ [a] |};
           faults := drop 3 (faults w) |}).
Proof.
  intros Hlook Hmay Hacc.
  destruct (accepts_drop 2 1 (faults w) Hacc) as [Hacc2 Hacc1].
  eexists. split; [| split; [| split]]; cycle 3.
  - unfold checkin. rewrite Hlook.
    assert (Hgate : bool_decide (getattr e "assigned_to_id" <> VInt (user_id u))
                    && negb (has_permission u "update") = false).
    { destruct Hmay as [Ha | Hp].
      - rewrite bool_decide_eq_false_2 by (intros Hn; apply Hn; exact Ha). reflexivity.
      - rewrite Hp. apply andb_false_r. }
    rewrite Hgate.
    rewrite (commit_update_movement _ _ e) by
      (first [exact Hlook | exact Hacc2 | apply check_update_status_assignee]).
    unfold log_audit_event.
    rewrite commit_audit_ok by (cbn [faults]; apply accepts_S in Hacc1 as [Hfs _]; exact Hfs).
    cbn [tables faults entities movement_logs audit_logs].
    rewrite tail_drop. unfold movement. rewrite !getattr_setattr_ne by discriminate.
    reflexivity.
  - reflexivity.
  - reflexivity.
  - reflexivity.
Qed.

End WholeTransitions.

Section SelfServiceRules.
Context `{FloatLib}.
Import Inventory.

Lemma checkout_permission u :
  has_permission u "checkout" = true -> user_role u = "Researcher".
Proof.
  intros Hp. apply has_permission_role in Hp as [[_ Hin] | [[_ Hin] | [[Hr _] | [_ Hin]]]];
    [| | exact Hr |];
    repeat (apply elem_of_cons in Hin as [Hin | Hin]; [discriminate Hin |]);
    apply elem_of_nil in Hin; contradiction.
Qed.

(** X10: only a Researcher checks equipment out.  For a user of any
    other role, the administrator included, [checkout] changes nothing;
    on an available entity the answer is the permission error. *)
Theorem checkout_is_for_researchers_only u id w :
  user_role u <> "Researcher" ->
  snd (checkout u id w) = w
  /\ (forall e,
        entities (tables w) !! id = Some e ->
        getattr e "status" = VStr "Available" ->
        checkout u id w =
        (respond "You do not have permission to checkout equipment" "error"
                 (Redirect view_endpoint), w)).
Proof.
  intros Hrole.
  assert (Hp : has_permission u "checkout" = false).
  { destruct (has_permission u "checkout") eqn:Hp; [| reflexivity].
    apply checkout_permission in Hp. contradiction. }
  unfold checkout. split.
  - destruct (entities (tables w) !! id) as [e |]; [| reflexivity].
    destruct (negb (is_available e)); [reflexivity |]. rewrite Hp. reflexivity.
  - intros e Hlook Hstatus. rewrite Hlook. unfold is_available.
    rewrite bool_decide_eq_true_2 by exact Hstatus. rewrite Hp. reflexivity.
Qed.

(** X11: who may check an entity in.  A user who is not the assignee
    and has no [update] permission is turned away and nothing changes.
    The assignee, whatever the role, and any user with the [update]
    permission pass: when the store accepts the three writes the entity
    is left ['Available'] and unassigned and one movement [checkin] from
    the former assignee is appended. *)
Theorem checkin_gate u id w e :
  entities (tables w) !! id = Some e ->
  (getattr e "assigned_to_id" <> VInt (user_id u) ->
   has_permission u "update" = false ->
   checkin u id w =
   (respond "You can only check in equipment assigned to you" "error"
            (Redirect view_endpoint), w))
  /\ (getattr e "assigned_to_id" = VInt (user_id u) \/ has_permission u "update" = true ->
      accepts 3 (faults w) = true ->
      fst (checkin u id w)
      = respond ("Equipment " +:+ py_str (getattr e "asset_tag")
                 +:+ " checked in successfully") "success" (Redirect view_endpoint)
      /\ entities (tables (snd (checkin u id w)))
         = <[id := setattr (setattr e "status" (VStr "Available")) "assigned_to_id" VNone]>
             (entities (tables w))
      /\ movement_logs (tables (snd (checkin u id w)))
         = movement_logs (tables w)
           ++ [{| ml_equipment_id := id;
                  ml_user_id := user_id u;
                  ml_action := "checkin";
                  ml_from_location := VNone;
                  ml_to_location := getattr e "location";
                  ml_from_user_id := getattr e "assigned_to_id";
                  ml_to_user_id := VNone;
                  ml_notes := "Equipment returned" |}]).
Proof.
  intros Hlook. split.
  - intros Hother Hperm. unfold checkin. rewrite Hlook, Hperm.
    rewrite bool_decide_eq_true_2 by exact Hother. reflexivity.
  - intros Hmay Hacc.
    destruct (checkin_done u id w e Hlook Hmay Hacc) as (a & _ & _ & _ & ->).
    repeat split.
Qed.


(** X13: an entity is not checked out twice.  After a checkout that
    went through, a second checkout of the entity, by anyone, is refused
    as not available and changes nothing. *)
Theorem second_checkout_is_refused u u2 id w e :
  entities (tables w) !! id = Some e ->
  getattr e "status" = VStr "Available" ->
  has_permission u "checkout" = true ->
  accepts 3 (faults w) = true ->
  checkout u2 id (snd (checkout u id w))
  = (respond "Equipment is not available for checkout" "error" (Redirect view_endpoint),
     snd (checkout u id w)).
Proof.
  intros Hlook Hstatus Hperm Hacc.
  destruct (checkout_done u id w e Hlook Hstatus Hperm Hacc) as (a1 & _ & _ & _ & ->).
  cbn [snd]. unfold checkout at 1. cbn [tables entities].
  rewrite lookup_insert_eq. unfold is_available.
  rewrite bool_decide_eq_false_2; [reflexivity |].
  getattr_reduce. discriminate.
Qed.

End SelfServiceRules.

(** ** Edits and adds *)

Section EditRules.
Context `{FloatLib}.
Import Inventory.

Ltac through_binds Hyp :=
  repeat match type of Hyp with
         | context [bind ?r _] =>
             let E := fresh "E" in
             destruct r eqn:E; cbn [bind] in Hyp; [| discriminate Hyp]
         end.

(** X14: the movement that an edit adds to the session.  When the
    assignee of the form is the old one, none.  Otherwise one, from the
    old assignee: [assign] to the new assignee, with the status
    ['In Use'], when the new assignee is neither [None] nor 0, and
    [unassign] to nobody, with the status ['Available'], when it is. *)
Theorem edit_records_an_assignment_change id e u f e' mv :
  edit_fields id e u f = Ret (e', mv) ->
  (getattr e' "assigned_to_id" = getattr e "assigned_to_id" /\ mv = None)
  \/ (getattr e' "assigned_to_id" <> getattr e "assigned_to_id"
      /\ exists m,
           mv = Some m
           /\ ml_equipment_id m = id
           /\ ml_user_id m = user_id u
           /\ ml_from_user_id m = getattr e "assigned_to_id"
           /\ ((ml_action m = "assign"
                /\ ml_to_user_id m = getattr e' "assigned_to_id"
                /\ getattr e' "assigned_to_id" <> VNone
                /\ getattr e' "assigned_to_id" <> VInt 0
                /\ getattr e' "status" = VStr "In Use")
               \/ (ml_action m = "unassign"
                   /\ ml_to_user_id m = VNone
                   /\ (getattr e' "assigned_to_id" = VNone
                       \/ getattr e' "assigned_to_id" = VInt 0)
                   /\ getattr e' "status" = VStr "Available"))).
Proof.
  unfold edit_fields. intros Hf. through_binds Hf.
  match type of Hf with
  | context [bool_decide (getattr e "assigned_to_id" ≠ ?new)] =>
      destruct (bool_decide (getattr e "assigned_to_id" ≠ new)) eqn:Hchanged;
      [destruct (bool_decide (new ≠ VNone ∧ new ≠ VInt 0)) eqn:Hnew |]
  end; through_binds Hf; apply Ret_pair_inj in Hf; destruct Hf as [<- <-];
    getattr_reduce.
  - apply bool_decide_eq_true in Hchanged. apply bool_decide_eq_true in Hnew as [Hn Hz].
    right. split; [congruence |]. eexists. split; [reflexivity |].
    cbn [movement ml_equipment_id ml_user_id ml_from_user_id ml_action ml_to_user_id].
    repeat split. left. repeat split; assumption.
  - apply bool_decide_eq_true in Hchanged. apply bool_decide_eq_false in Hnew.
    right. split; [congruence |]. eexists. split; [reflexivity |].
    cbn [movement ml_equipment_id ml_user_id ml_from_user_id ml_action ml_to_user_id].
    repeat split. right. repeat split.
    match goal with
    | |- ?v = VNone \/ _ =>
        destruct (decide (v = VNone)) as [| Hn]; [left; assumption |];
        destruct (decide (v = VInt 0)) as [| Hz]; [right; assumption |];
        exfalso; apply Hnew; split; assumption
    end.
  - left. split; reflexivity.
Qed.

End EditRules.

Section DuplicateTags.
Context `{FloatLib}.
Import Inventory.

Ltac through_binds Hyp :=
  repeat match type of Hyp with
         | context [bind ?r _] =>
             let E := fresh "E" in
             destruct r eqn:E; cbn [bind] in Hyp; [| discriminate Hyp]
         end.

Lemma edit_fields_required id e u f e' mv :
  edit_fields id e u f = Ret (e', mv) ->
  forall k, k ∈ not_null equipment_schema -> getattr e' k <> VNone.
Proof.
  unfold edit_fields. intros Hf. through_binds Hf.
  match type of Hf with
  | context [bool_decide (getattr e "assigned_to_id" ≠ ?new)] =>
      destruct (bool_decide (getattr e "assigned_to_id" ≠ new));
      [destruct (bool_decide (new ≠ VNone ∧ new ≠ VInt 0)) |]
  end; through_binds Hf; apply Ret_pair_inj in Hf; destruct Hf as [<- _];
    intros k Hk; cbn [not_null equipment_schema] in Hk;
    repeat (apply elem_of_cons in Hk as [-> | Hk]; [getattr_reduce; discriminate |]);
    apply elem_of_nil in Hk; contradiction.
Qed.

(** X15: an asset tag that is taken.  [add_equipment] looks the tag up
    and turns the form away before it writes; [edit] does not look, the
    store refuses the UPDATE, the session is rolled back and the tables
    are the ones before the call. *)
Theorem taken_asset_tag_is_refused :
  (forall u req w equipment t j other,
      has_permission u "create" = true ->
      method req = "POST" ->
      add_fields (form req) = Ret equipment ->
      getattr equipment "asset_tag" = VStr t -> t <> "" ->
      getattr equipment "name" <> VStr "" ->
      entities (tables w) !! j = Some other ->
      getattr other "asset_tag" = VStr t ->
      add_equipment u req w =
      (respond ("Asset tag " +:+ t +:+ " already exists") "error"
               (Render "inventory/add.html"), w))
  /\ (forall u req id w e e' mv j other,
      entities (tables w) !! id = Some e ->
      has_permission u "update" = true ->
      method req = "POST" ->
      edit_fields id e u (form req) = Ret (e', mv) ->
      getattr e' "asset_tag" <> getattr e "asset_tag" ->
      j <> id ->
      entities (tables w) !! j = Some other ->
      getattr other "asset_tag" = getattr e' "asset_tag" ->
      (faults w = [] \/ exists fs', faults w = false :: fs') ->
      exists msg,
        edit u req id w =
        (respond ("Error updating equipment: " +:+ msg) "error"
                 (Render "inventory/edit.html"),
         {| tables := tables w; faults := tail (faults w) |})).
Proof.
  split.
  - intros u req w equipment t j other Hperm Hpost Hf Htag Ht Hname Hj Hother.
    unfold add_equipment. rewrite Hperm, Hpost, Hf. cbn [negb String.eqb Ascii.eqb].
    change (String.eqb "POST" "POST") with true. cbv iota.
    rewrite Htag.
    rewrite bool_decide_eq_false_2 by congruence.
    rewrite bool_decide_eq_false_2 by exact Hname.
    assert (Hex : exists_with (entities (tables w)) "asset_tag" (VStr t) = true)
      by (apply exists_with_true; eauto).
    rewrite Hex. reflexivity.
  - intros u req id w e e' mv j other Hlook Hperm Hpost Hf Hnew Hj Hjrow Hother Hfs.
    unfold edit. rewrite Hlook, Hperm, Hpost, Hf.
    change (String.eqb "POST" "POST") with true. cbn [negb]. cbv iota.
    assert (Hcheck : check_update equipment_schema (delete id (entities (tables w))) e e'
                     = Raise (IntegrityError
                                "UNIQUE constraint failed: equipment.asset_tag")).
    { unfold check_update. rewrite filter_none.
      - cbn [unique_col equipment_schema].
        rewrite bool_decide_eq_true_2 by exact Hnew.
        assert (Hex : exists_with (delete id (entities (tables w))) "asset_tag"
                        (getattr e' "asset_tag") = true).
        { apply exists_with_true. exists j, other. split; [| exact Hother].
          rewrite lookup_delete_ne by congruence. exact Hjrow. }
        rewrite Hex. reflexivity.
      - intros k Hk [Hnone _]. exact (edit_fields_required _ _ _ _ _ _ Hf k Hk Hnone). }
    assert (Hcommit : forall rest,
               commit equipment_schema (UpdateEntity id e' :: rest) w
               = (Raise (IntegrityError "UNIQUE constraint failed: equipment.asset_tag"),
                  {| tables := tables w; faults := tail (faults w) |})).
    { intros rest. unfold commit. cbn [flush exec]. rewrite Hlook.
      change (default ∅ (Some e)) with e. rewrite Hcheck. cbn [bind].
      destruct Hfs as [-> | [fs' ->]]; reflexivity. }
    rewrite Hcommit. eexists. reflexivity.
Qed.

End DuplicateTags.

Section AddRules.
Context `{FloatLib}.
Import Inventory.

Ltac through_binds Hyp :=
  repeat match type of Hyp with
         | context [bind ?r _] =>
             let E := fresh "E" in
             destruct r eqn:E; cbn [bind] in Hyp; [| discriminate Hyp]
         end.

Ltac case_step E :=
  unfold bind in E;
  repeat match type of E with
         | context [match ?c with _ => _ end] =>
             destruct c eqn:?; try discriminate E
         end;
  apply Ret_inj in E; subst; getattr_reduce.

(** One step of [add_fields] that returns the object: the attribute
    [key] is still a str after it. *)
Ltac still_text E key :=
  match type of E with
  | _ = Ret ?g =>
      let F := fresh "F" in
      assert (F : exists s, getattr g key = VStr s)
        by (case_step E; first [assumption | eexists; reflexivity]);
      clear E
  end.

Ltac add_fields_text f key :=
  let Hf := fresh "Hf" in
  unfold add_fields; intros Hf; through_binds Hf; apply Ret_inj in Hf; subst;
  match goal with E : context [f !! "procurement_date"] |- _ => still_text E key end;
  match goal with E : context [f !! "warranty_expiry"] |- _ => still_text E key end;
  match goal with E : context [form_get_or f "pin_count"] |- _ => still_text E key end;
  match goal with E : context [f !! "assigned_to"] |- _ => still_text E key end;
  match goal with E : context [form_get_or f "purchase_cost"] |- _ => still_text E key end;
  destruct (String.eqb (strip (form_get_or f "tags" "")) ""); getattr_reduce; assumption.

Lemma add_fields_required f e :
  add_fields f = Ret e ->
  (exists s, getattr e "asset_tag" = VStr s)
  /\ (exists s, getattr e "name" = VStr s)
  /\ (exists s, getattr e "category" = VStr s).
Proof.
  intros Hadd. split; [| split]; revert Hadd.
  - add_fields_text f "asset_tag".
  - add_fields_text f "name".
  - add_fields_text f "category".
Qed.

(** X22: an add that goes through.  For a user who may create, a form
    whose fields convert, an asset tag and a name that are not empty, an
    asset tag that the store does not hold and a store that accepts
    every write: the entity is stored under the next primary key, which
    was free, with the defaults of the table; one audit event
    [create_equipment] is appended, and one movement [assign] exactly
    when the form has an assignee other than 0. *)
Theorem add_equipment_stores_the_entity u req w equipment t :
  has_permission u "create" = true ->
  method req = "POST" ->
  add_fields (form req) = Ret equipment ->
  getattr equipment "asset_tag" = VStr t -> t <> "" ->
  getattr equipment "name" <> VStr "" ->
  exists_with (entities (tables w)) "asset_tag" (VStr t) = false ->
  faults w = [] ->
  fst (add_equipment u req w)
  = after_success req ("Equipment " +:+ t +:+ " added successfully")
  /\ entities (tables w) !! next_id (entities (tables w)) = None
  /\ entities (tables (snd (add_equipment u req w)))
     = <[next_id (entities (tables w)) :=
           setattr (apply_defaults equipment_schema equipment) "id"
             (VInt (next_id (entities (tables w))))]> (entities (tables w))
  /\ movement_logs (tables (snd (add_equipment u req w)))
     = movement_logs (tables w)
       ++ (if bool_decide (getattr equipment "assigned_to_id" <> VNone
                           /\ getattr equipment "assigned_to_id" <> VInt 0)
           then [movement (next_id (entities (tables w))) equipment u "assign" VNone
                   (getattr equipment "assigned_to_id")
                   "Initial assignment during creation"]
           else [])
  /\ exists a,
       audit_logs (tables (snd (add_equipment u req w))) = audit_logs (tables w) ++ [a]
       /\ al_action a = "create_equipment"
       /\ al_user_id a = user_id u
       /\ al_record_id a = Some (next_id (entities (tables w))).
Proof.
  intros Hperm Hpost Hf Htag Ht Hname Hfree Hfs.
  destruct (add_fields_required _ _ Hf) as (_ & [n Hn] & [c Hc]).
  assert (Hcommit :
            commit equipment_schema [InsertEntity equipment] w
            = (Ret tt,
               {| tables :=
                    {| entities :=
                         <[next_id (entities (tables w)) :=
                             setattr (apply_defaults equipment_schema equipment) "id"
                               (VInt (next_id (entities (tables w))))]>
                           (entities (tables w));
                       movement_logs := movement_logs (tables w);
                       audit_logs := audit_logs (tables w) |};
                  faults := [] |})).
  { unfold commit. cbn [flush exec]. rewrite Hfs. unfold check_row.
    rewrite filter_none.
    - cbn [unique_col equipment_schema].
      rewrite apply_defaults_equipment by discriminate. rewrite Htag, Hfree.
      reflexivity.
    - intros k Hk. cbn [not_null equipment_schema] in Hk.
      repeat (apply elem_of_cons in Hk as [-> | Hk];
              [rewrite apply_defaults_equipment by discriminate; congruence |]).
      apply elem_of_nil in Hk. contradiction. }
  unfold add_equipment. rewrite Hperm, Hpost, Hf.
  change (String.eqb "POST" "POST") with true. cbn [negb]. cbv iota.
  rewrite Htag.
  rewrite bool_decide_eq_false_2 by congruence.
  rewrite bool_decide_eq_false_2 by exact Hname.
  rewrite Hfree. cbv zeta. rewrite Hcommit.
  unfold log_audit_event. rewrite commit_audit_ok by (left; reflexivity).
  cbn [tables faults entities movement_logs audit_logs tail].
  split; [| split; [apply next_id_fresh |]].
  - destruct (bool_decide _); reflexivity.
  - destruct (bool_decide _); cbn [snd tables entities movement_logs audit_logs];
      (split; [reflexivity |]); (split; [rewrite ?app_nil_r; reflexivity |]);
      eexists; (split; [reflexivity |]); repeat split.
Qed.

End AddRules.

(** ** Deletion *)

Section DeleteRules.
Context `{FloatLib}.
Import Inventory.

Lemma delete_permission u :
  has_permission u "delete" = true ->
  user_role u = "Admin" \/ user_role u = "Lab Staff".
Proof.
  intros Hp. apply has_permission_role in Hp as [[Hr _] | [[Hr _] | [[_ Hin] | [_ Hin]]]];
    [left; exact Hr | right; exact Hr | |];
    repeat (apply elem_of_cons in Hin as [Hin | Hin]; [discriminate Hin |]);
    apply elem_of_nil in Hin; contradiction.
Qed.

(** X18: only an administrator or a member of the lab staff deletes.
    For any other role [delete] answers with the permission error and
    changes nothing, whether the entity exists or not: the permission is
    checked before the entity is looked up. *)
Theorem delete_is_for_admin_and_lab_staff u req id w :
  user_role u <> "Admin" -> user_role u <> "Lab Staff" ->
  Deletion.delete u req id w =
  (respond "You do not have permission to delete equipment" "error"
           (Redirect view_endpoint), w).
Proof.
  intros Ha Hl. unfold Deletion.delete.
  destruct (has_permission u "delete") eqn:Hp; [| reflexivity].
  apply delete_permission in Hp as [Hp | Hp]; contradiction.
Qed.

Lemma send_accepted n : Deletion.send n [] = (true, []).
Proof. induction n as [|n IH]; [reflexivity | exact IH]. Qed.

(** X19: what a delete removes.  For a user who may delete, an entity
    that exists and a store that accepts every write: the entity is
    gone, every other entity is as before, the movement log loses
    exactly the movements of the entity, the audit log loses the events
    of the entity and gains the event [delete_equipment], which is then
    the only one about the entity, and a later checkout of the key
    answers 404. *)
Theorem delete_removes_entity_and_history u req id w e :
  has_permission u "delete" = true ->
  entities (tables w) !! id = Some e ->
  faults w = [] ->
  fst (Deletion.delete u req id w)
  = respond ("Equipment " +:+ py_str (getattr e "asset_tag") +:+ " deleted successfully")
      "success"
      (if hx_request req then HxRedirect index_endpoint else Redirect index_endpoint)
  /\ entities (tables (snd (Deletion.delete u req id w))) !! id = None
  /\ (forall j, j <> id ->
        entities (tables (snd (Deletion.delete u req id w))) !! j
        = entities (tables w) !! j)
  /\ movement_logs (tables (snd (Deletion.delete u req id w)))
     = filter (fun m => ml_equipment_id m <> id) (movement_logs (tables w))
  /\ (exists a,
        audit_logs (tables (snd (Deletion.delete u req id w)))
        = filter (fun a => al_equipment_id a <> Some id) (audit_logs (tables w)) ++ [a]
        /\ al_action a = "delete_equipment"
        /\ al_equipment_id a = Some id
        /\ al_user_id a = user_id u
        /\ filter (fun a => al_equipment_id a = Some id)
             (audit_logs (tables (snd (Deletion.delete u req id w)))) = [a])
  /\ fst (checkout u id (snd (Deletion.delete u req id w)))
     = {| flashes := []; body := NotFound |}.
Proof.
  intros Hperm Hlook Hfs. unfold Deletion.delete, Deletion.commit_delete.
  rewrite Hperm, Hlook, Hfs, send_accepted. cbn [negb].
  unfold log_audit_event. rewrite commit_audit_ok by (left; reflexivity).
  cbn [fst snd tables entities movement_logs audit_logs Deletion.cascade_delete].
  split; [reflexivity |]. split; [apply lookup_delete_eq |].
  split; [intros j Hj; apply lookup_delete_ne; congruence |].
  split; [reflexivity |]. split.
  - eexists. split; [reflexivity |]. cbn [al_action al_equipment_id al_user_id].
    repeat split. rewrite filter_app. rewrite filter_cons_True by reflexivity.
    rewrite filter_nil.
    match goal with
    | |- ?l ++ _ = _ => assert (Hnil : l = []); [| rewrite Hnil; reflexivity]
    end.
    apply filter_none. intros a Ha Heq. apply list_elem_of_filter in Ha as [Hne _].
    contradiction.
  - unfold checkout. cbn [tables entities]. rewrite lookup_delete_eq. reflexivity.
Qed.

End DeleteRules.

Section ReadersAndStrangers.
Context `{FloatLib}.
Import Inventory.

Lemma read_is_all u action :
  user_role u <> "Admin" -> user_role u <> "Lab Staff" -> user_role u <> "Researcher" ->
  action <> "read" -> has_permission u action = false.
Proof.
  intros Ha Hl Hr Hread. destruct (has_permission u action) eqn:Hp; [| reflexivity].
  apply has_permission_role in Hp as [[Hrole _] | [[Hrole _] | [[Hrole _] | [_ Hin]]]];
    try contradiction.
  apply elem_of_cons in Hin as [-> | Hin]; [contradiction |].
  apply elem_of_nil in Hin. contradiction.
Qed.

(** X24: a user whose role is none of Admin, Lab Staff and Researcher,
    a Read-only user or a user with an unknown role, changes nothing
    through [add_equipment], [edit], [delete] or [checkout], and nothing
    through [checkin] of an entity that is not assigned to the user. *)
Theorem readers_and_strangers_change_nothing u :
  user_role u <> "Admin" -> user_role u <> "Lab Staff" -> user_role u <> "Researcher" ->
  (forall req w, snd (add_equipment u req w) = w)
  /\ (forall req id w, snd (edit u req id w) = w)
  /\ (forall req id w, snd (Deletion.delete u req id w) = w)
  /\ (forall id w, snd (checkout u id w) = w)
  /\ (forall id w e,
        entities (tables w) !! id = Some e ->
        getattr e "assigned_to_id" <> VInt (user_id u) ->
        snd (checkin u id w) = w).
Proof.
  intros Ha Hl Hr.
  pose proof (read_is_all u "create" Ha Hl Hr ltac:(discriminate)) as Hcreate.
  pose proof (read_is_all u "update" Ha Hl Hr ltac:(discriminate)) as Hupdate.
  pose proof (read_is_all u "delete" Ha Hl Hr ltac:(discriminate)) as Hdelete.
  pose proof (read_is_all u "checkout" Ha Hl Hr ltac:(discriminate)) as Hcheckout.
  split; [| split; [| split; [| split]]].
  - intros req w. unfold add_equipment. rewrite Hcreate. reflexivity.
  - intros req id w. unfold edit.
    destruct (entities (tables w) !! id); [| reflexivity]. rewrite Hupdate. reflexivity.
  - intros req id w. unfold Deletion.delete. rewrite Hdelete. reflexivity.
  - intros id w. unfold checkout.
    destruct (entities (tables w) !! id) as [e |]; [| reflexivity].
    destruct (negb (is_available e)); [reflexivity |]. rewrite Hcheckout. reflexivity.
  - intros id w e Hlook Hother. unfold checkin. rewrite Hlook, Hupdate.
    rewrite bool_decide_eq_true_2 by exact Hother. reflexivity.
Qed.

End ReadersAndStrangers.

Section EditGoesThrough.
Context `{FloatLib}.
Import Inventory.

(** X23: an edit that goes through.  For a user who may update, a form
    whose fields convert, an asset tag that is the old one or that no
    other entity has, and a store that accepts every write: the row of
    the entity is replaced by the edited object and no other row
    changes, the movement of the session, if any, is appended, and one
    audit event [update_equipment] with the old and the new values of
    the audited attributes is appended. *)
Theorem edit_replaces_the_entity u req id w e e' mv :
  entities (tables w) !! id = Some e ->
  has_permission u "update" = true ->
  method req = "POST" ->
  edit_fields id e u (form req) = Ret (e', mv) ->
  (getattr e' "asset_tag" = getattr e "asset_tag"
   \/ exists_with (delete id (entities (tables w))) "asset_tag" (getattr e' "asset_tag")
      = false) ->
  faults w = [] ->
  fst (edit u req id w)
  = after_success req ("Equipment " +:+ py_str (getattr e' "asset_tag")
                       +:+ " updated successfully")
  /\ entities (tables (snd (edit u req id w))) = <[id := e']> (entities (tables w))
  /\ movement_logs (tables (snd (edit u req id w)))
     = movement_logs (tables w) ++ match mv with Some m => [m] | None => [] end
  /\ exists a,
       audit_logs (tables (snd (edit u req id w))) = audit_logs (tables w) ++ [a]
       /\ al_action a = "update_equipment"
       /\ al_user_id a = user_id u
       /\ al_record_id a = Some id
       /\ al_old_values a = dumps (Some (snapshot audit_keys e))
       /\ al_new_values a = dumps (Some (snapshot audit_keys e')).
Proof.
  intros Hlook Hperm Hpost Hf Htag Hfs.
  assert (Hcheck : check_update equipment_schema (delete id (entities (tables w))) e e'
                   = Ret tt).
  { unfold check_update. rewrite filter_none.
    - cbn [unique_col equipment_schema]. destruct Htag as [Hsame | Hfree].
      + rewrite bool_decide_eq_false_2 by (intros Hn; apply Hn; exact Hsame). reflexivity.
      + rewrite Hfree, andb_false_r. reflexivity.
    - intros k Hk [Hnone _]. exact (edit_fields_required _ _ _ _ _ _ Hf k Hk Hnone). }
  assert (Hcommit :
            commit equipment_schema
              (UpdateEntity id e' ::
               match mv with Some m => [InsertMovement m] | None => [] end) w
            = (Ret tt,
               {| tables :=
                    {| entities := <[id := e']> (entities (tables w));
                       movement_logs :=
                         movement_logs (tables w)
                         ++ match mv with Some m => [m] | None => [] end;
                       audit_logs := audit_logs (tables w) |};
                  faults := [] |})).
  { unfold commit. cbn [flush exec]. rewrite Hfs, Hlook.
    change (default ∅ (Some e)) with e. rewrite Hcheck. cbn [bind tail].
    destruct mv as [m |]; cbn [flush exec tail entities movement_logs audit_logs];
      rewrite ?app_nil_r; reflexivity. }
  unfold edit. rewrite Hlook, Hperm, Hpost, Hf.
  change (String.eqb "POST" "POST") with true. cbn [negb]. cbv iota zeta.
  rewrite Hcommit. unfold log_audit_event.
  rewrite commit_audit_ok by (left; reflexivity).
  cbn [fst snd tables entities movement_logs audit_logs].
  split; [reflexivity |]. split; [reflexivity |]. split; [reflexivity |].
  eexists. split; [reflexivity |]. repeat split.
Qed.

End EditGoesThrough.

Section MoreConcrete2.
Import Inventory Examples Samples.

(** The reader may not add, edit, delete or check out, and may not
    check the probe in. *)
Lemma readers_and_strangers_change_nothing_witness :
  snd (add_equipment reader add_counter lab) = lab
  /\ snd (edit reader assign_edit 1 lab) = lab
  /\ snd (Deletion.delete reader plain_post 1 lab) = lab
  /\ snd (checkout reader 1 lab) = lab
  /\ snd (checkin reader 2 lab) = lab.
Proof.
  destruct (readers_and_strangers_change_nothing reader)
    as (Hadd & Hedit & Hdel & Hout & Hin); try (vm_compute; discriminate).
  split; [apply Hadd |]. split; [apply Hedit |]. split; [apply Hdel |].
  split; [apply Hout |]. apply (Hin 2 lab probe lab_probe). vm_compute. discriminate.
Defined.

(** The edit that assigns the oscilloscope to user 2 goes through. *)
Lemma edit_replaces_the_entity_witness :
  fst (edit admin assign_edit 1 lab)
  = after_success assign_edit "Equipment EQ-1 updated successfully"
  /\ ml_action <$> movement_logs (tables (snd (edit admin assign_edit 1 lab)))
     = ["assign"]
  /\ al_action <$> audit_logs (tables (snd (edit admin assign_edit 1 lab)))
     = ["update_equipment"].
Proof.
  assert (Hok : match edit_fields 1 scope admin (form assign_edit) with
                | Ret (e', mv) =>
                    bool_decide (getattr e' "asset_tag" = VStr "EQ-1")
                    && bool_decide ((ml_action <$> mv) = Some "assign")
                | Raise _ => false
                end = true) by (vm_compute; reflexivity).
  destruct (edit_fields 1 scope admin (form assign_edit)) as [[e' mv] | ex] eqn:E;
    [| discriminate Hok].
  apply andb_prop in Hok as [Htag Hmv].
  apply bool_decide_eq_true in Htag. apply bool_decide_eq_true in Hmv.
  destruct (edit_replaces_the_entity admin assign_edit 1 lab scope e' mv)
    as (Hr & _ & Hm & (a & Ha & Haction & _)).
  - exact lab_scope.
  - reflexivity.
  - reflexivity.
  - exact E.
  - left. rewrite Htag. reflexivity.
  - reflexivity.
  - split; [rewrite Hr, Htag; reflexivity |]. split.
    + rewrite Hm. destruct mv as [m |]; [| discriminate Hmv].
      cbn [fmap option_fmap option_map] in Hmv. apply Some_inj in Hmv.
      cbn [movement_logs tables lab app fmap list_fmap]. rewrite Hmv. reflexivity.
    + rewrite Ha, fmap_app. cbn [fmap list_fmap audit_logs tables lab app].
      rewrite Haction. reflexivity.
Defined.

End MoreConcrete2.

(** ** Tags *)

Section TagLists.
Import Tags Inventory.

Lemma lstrip_head l : match lstrip l with h :: _ => is_space h | [] => false end = false.
Proof.
  induction l as [|c l IH]; [reflexivity |]. cbn [lstrip].
  destruct (is_space c) eqn:Hc; [exact IH | exact Hc].
Qed.

Lemma lstrip_suffix l : exists pre, l = pre ++ lstrip l.
Proof.
  induction l as [|c l [pre IH]]; [exists []; reflexivity |]. cbn [lstrip].
  destruct (is_space c); [| exists []; reflexivity].
  exists (c :: pre). cbn [app]. f_equal. exact IH.
Qed.

Lemma lstrip_kept l :
  match l with h :: _ => is_space h | [] => false end = false -> lstrip l = l.
Proof. destruct l as [|h t]; [reflexivity |]. cbn [lstrip]. intros ->. reflexivity. Qed.

Lemma lstrip_idem l : lstrip (lstrip l) = lstrip l.
Proof. apply lstrip_kept. apply lstrip_head. Qed.

Lemma list_of_strip s :
  list_ascii_of_string (strip s)
  = rev (lstrip (rev (lstrip (list_ascii_of_string s)))).
Proof. unfold strip. apply list_ascii_of_string_of_list_ascii. Qed.

Lemma strip_idem s : strip (strip s) = strip s.
Proof.
  unfold strip at 1. rewrite list_of_strip.
  set (a := lstrip (list_ascii_of_string s)).
  set (b := lstrip (rev a)).
  assert (Hkeep : lstrip (rev b) = rev b).
  { apply lstrip_kept. destruct (lstrip_suffix (rev a)) as [pre Hpre]. fold b in Hpre.
    assert (Ha : a = rev b ++ rev pre).
    { rewrite <- (rev_involutive a), Hpre, rev_app_distr. reflexivity. }
    pose proof (lstrip_head (list_ascii_of_string s)) as Hh. fold a in Hh.
    rewrite Ha in Hh. destruct (rev b) as [|h t]; [reflexivity | exact Hh]. }
  rewrite Hkeep, rev_involutive. unfold b at 1. rewrite lstrip_idem.
  unfold strip. reflexivity.
Qed.

Lemma strip_space_first s : strip (String " " s) = strip s.
Proof. reflexivity. Qed.

(** The pieces of [split(',')]. *)
Lemma split_comma_no_comma l cur :
  existsb (Ascii.eqb ",") l = false ->
  split_comma l cur = [string_of_list_ascii (rev cur ++ l)].
Proof.
  revert cur. induction l as [|c l IH]; intros cur; cbn [split_comma existsb].
  - rewrite app_nil_r. reflexivity.
  - intros Hno. apply orb_false_elim in Hno as [Hc Hl].
    rewrite Ascii.eqb_sym in Hc. rewrite Hc. rewrite (IH _ Hl).
    cbn [rev]. rewrite <- app_assoc. reflexivity.
Qed.

Lemma split_comma_at l1 l2 cur :
  existsb (Ascii.eqb ",") l1 = false ->
  split_comma (l1 ++ "," :: l2)%char cur
  = string_of_list_ascii (rev cur ++ l1) :: split_comma l2 [].
Proof.
  revert cur. induction l1 as [|c l1 IH]; intros cur; cbn [app split_comma existsb].
  - intros _. rewrite app_nil_r. reflexivity.
  - intros Hno. apply orb_false_elim in Hno as [Hc Hl].
    rewrite Ascii.eqb_sym in Hc. rewrite Hc. rewrite (IH _ Hl).
    cbn [rev]. rewrite <- app_assoc. reflexivity.
Qed.

Lemma join_comma_cons t l :
  l <> [] -> join_comma (t :: l) = t +:+ ", " +:+ join_comma l.
Proof. destruct l; [contradiction | reflexivity]. Qed.

Lemma has_char_list c s : has_char c s = existsb (Ascii.eqb c) (list_ascii_of_string s).
Proof. reflexivity. Qed.

(** What [split(',')] makes of a joined list, with [pre] before it. *)
Lemma split_joined pre t l :
  existsb (Ascii.eqb ",") pre = false ->
  Forall clean_tag (t :: l) ->
  split_comma (pre ++ list_ascii_of_string (join_comma (t :: l))) []
  = string_of_list_ascii (pre ++ list_ascii_of_string t) :: map (String " ") l.
Proof.
  revert pre t. induction l as [|t2 l IH]; intros pre t Hpre Hall.
  - cbn [join_comma map]. apply split_comma_no_comma.
    rewrite existsb_app, Hpre. apply Forall_cons in Hall as [(_ & _ & Hc) _]. exact Hc.
  - apply Forall_cons in Hall as [(_ & _ & Hc) Hall].
    rewrite join_comma_cons by discriminate.
    rewrite !list_ascii_of_string_app. cbn [list_ascii_of_string app].
    rewrite app_assoc. rewrite split_comma_at by (rewrite existsb_app, Hpre; exact Hc).
    pose proof (IH [" "%char] t2 eq_refl Hall) as Ht. cbn [app] in Ht.
    cbn [rev app map]. rewrite Ht. cbn [string_of_list_ascii].
    rewrite string_of_list_ascii_of_string. reflexivity.
Qed.

Lemma strip_clean_tags l :
  Forall clean_tag l -> filter (fun t => t <> "") (map strip l) = l.
Proof.
  induction 1 as [|t l (Hne & Hs & _) _ IH]; [reflexivity |].
  cbn [map]. rewrite Hs, filter_cons_True by exact Hne. rewrite IH. reflexivity.
Qed.

Lemma strip_spaced_tags l :
  Forall clean_tag l -> filter (fun t => t <> "") (map strip (map (String " ") l)) = l.
Proof.
  induction 1 as [|t l (Hne & Hs & _) _ IH]; [reflexivity |].
  cbn [map]. rewrite strip_space_first, Hs, filter_cons_True by exact Hne.
  rewrite IH. reflexivity.
Qed.

Lemma get_set_tags self tags_list :
  Forall clean_tag tags_list ->
  get_tags_list (set_tags_list self tags_list) = tags_list.
Proof.
  intros Hall. unfold get_tags_list, set_tags_list. rewrite getattr_setattr_eq.
  destruct tags_list as [|t l]; [reflexivity |].
  pose proof (split_joined [] t l eq_refl Hall) as Hsp. cbn [app] in Hsp.
  cbv iota. rewrite Hsp. cbn [map]. rewrite string_of_list_ascii_of_string.
  pose proof Hall as Hall'. apply Forall_cons in Hall' as [(Hne & Hs & _) Hl].
  rewrite Hs, filter_cons_True by exact Hne. f_equal. apply strip_spaced_tags. exact Hl.
Qed.

(** X20: [get_tags_list] reads back what [set_tags_list] stored, for
    every list of tags that are not empty, have no whitespace around
    them and no comma in them. *)
Theorem tags_round_trip self tags_list :
  Forall clean_tag tags_list ->
  get_tags_list (set_tags_list self tags_list) = tags_list.
Proof. apply get_set_tags. Qed.

Lemma existsb_lstrip (f : ascii -> bool) l :
  existsb f l = false -> existsb f (lstrip l) = false.
Proof.
  induction l as [|c l IH]; [reflexivity |]. cbn [lstrip existsb].
  intros Hno. destruct (is_space c); [| exact Hno].
  apply orb_false_elim in Hno as [_ Hl]. exact (IH Hl).
Qed.

Lemma existsb_rev_false (f : ascii -> bool) l :
  existsb f l = false -> existsb f (rev l) = false.
Proof.
  induction l as [|c l IH]; [reflexivity |]. cbn [rev existsb]. intros Hno.
  apply orb_false_elim in Hno as [Hc Hl]. rewrite existsb_app, (IH Hl). cbn [existsb].
  rewrite Hc. reflexivity.
Qed.

Lemma strip_has_char c s : has_char c s = false -> has_char c (strip s) = false.
Proof.
  rewrite !has_char_list, list_of_strip. intros Hno.
  apply existsb_rev_false, existsb_lstrip, existsb_rev_false, existsb_lstrip. exact Hno.
Qed.

Lemma split_comma_pieces l cur :
  existsb (Ascii.eqb ",") cur = false ->
  Forall (fun p => has_char "," p = false) (split_comma l cur).
Proof.
  revert cur. induction l as [|c l IH]; intros cur Hcur; cbn [split_comma].
  - constructor; [| constructor]. rewrite has_char_list, list_ascii_of_string_of_list_ascii.
    apply existsb_rev_false. exact Hcur.
  - destruct (Ascii.eqb c ",") eqn:Hc.
    + constructor; [| apply IH; reflexivity].
      rewrite has_char_list, list_ascii_of_string_of_list_ascii.
      apply existsb_rev_false. exact Hcur.
    + apply IH. cbn [existsb]. rewrite Ascii.eqb_sym, Hc. exact Hcur.
Qed.

Lemma stripped_pieces_clean l :
  Forall (fun p => has_char "," p = false) l ->
  Forall clean_tag (filter (fun t => t <> "") (map strip l)).
Proof.
  induction 1 as [|p l Hp _ IH]; [constructor |]. cbn [map].
  destruct (decide (strip p <> "")) as [Hne | He].
  - rewrite filter_cons_True by exact Hne. constructor; [| exact IH].
    split; [exact Hne |]. split; [apply strip_idem | apply strip_has_char; exact Hp].
  - rewrite filter_cons_False by exact He. exact IH.
Qed.

Lemma get_tags_list_clean self : Forall clean_tag (get_tags_list self).
Proof. unfold get_tags_list. apply stripped_pieces_clean, split_comma_pieces. reflexivity. Qed.

(** X21: the tags that [get_tags_list] returns are not empty, have no
    whitespace around them and no comma in them; storing them again
    changes nothing; and the tags stored from the text of the form are
    the tags of that text. *)
Theorem stored_tags_are_clean :
  (forall self, Forall clean_tag (get_tags_list self))
  /\ (forall self,
        get_tags_list (set_tags_list self (get_tags_list self)) = get_tags_list self)
  /\ (forall self tags_input,
        get_tags_list (setattr self "tags" (tags_of_input tags_input))
        = get_tags_list (setattr self "tags" (VStr tags_input))).
Proof.
  split; [exact get_tags_list_clean |]. split.
  - intros self. apply get_set_tags, get_tags_list_clean.
  - intros self tags_input.
    pose proof (get_set_tags self (get_tags_list (setattr self "tags" (VStr tags_input)))
                  (get_tags_list_clean _)) as Hrt.
    unfold set_tags_list in Hrt.
    assert (Heq : tags_of_input tags_input
                  = VStr (match get_tags_list (setattr self "tags" (VStr tags_input)) with
                          | [] => ""
                          | _ => join_comma
                                   (get_tags_list (setattr self "tags" (VStr tags_input)))
                          end)).
    { unfold tags_of_input, get_tags_list. rewrite getattr_setattr_eq. reflexivity. }
    rewrite Heq. exact Hrt.
Qed.

End TagLists.

(** ** The further properties on concrete data *)

Section MoreConcrete.
Import Inventory Examples Samples.

Lemma busy_scope : entities (tables busy_lab) !! 1 = Some scope.
Proof.
  unfold busy_lab. cbn [tables entities].
  rewrite lookup_insert_ne by discriminate. apply lookup_insert_eq.
Qed.

Lemma busy_meter : entities (tables busy_lab) !! 3 = Some meter.
Proof. apply lookup_insert_eq. Qed.

Lemma lab_tags_unique : unique_key "asset_tag" (entities (tables lab)).
Proof.
  unfold lab. cbn [tables entities]. apply unique_key_insert.
  - intros i j ei ej Hi Hj _.
    apply lookup_singleton_Some in Hi as [<- _].
    apply lookup_singleton_Some in Hj as [<- _]. reflexivity.
  - vm_compute. reflexivity.
Qed.

(** The six rows of which two have no asset tag: six rows counted, four
    accepted. *)
Lemma report_counts_every_row_witness :
  total (fst (BulkOperations.import_from_dataframe six_rows 1 true empty_world))
  = length (rows six_rows)
  /\ success (fst (BulkOperations.import_from_dataframe six_rows 1 true empty_world))
     = 4%nat.
Proof.
  destruct (report_counts_every_row equipment_schema BulkOperations.REQUIRED_FIELDS
              BulkOperations.process_row six_rows 1 true empty_world
              (required_columns_present _)) as (Ht & Hs & _).
  split; [exact Ht |]. etransitivity; [exact Hs | vm_compute; reflexivity].
Defined.

(** A table without the column [category] is turned away whole. *)
Lemma missing_columns_stop_import_witness :
  BulkOperations.import_from_dataframe no_category 1 false empty_world
  = ({| success := 0;
        errors := ["Missing required field in file: category"];
        warnings := [];
        total := 0 |}, empty_world)
  /\ Headers.validate_headers BulkOperations.REQUIRED_FIELDS (columns no_category)
     = Raise (BulkImportError "Missing required fields: category").
Proof.
  destruct (proj1 (missing_columns_stop_import equipment_schema
                     BulkOperations.REQUIRED_FIELDS BulkOperations.process_row
                     no_category 1 false empty_world)) as [Hr Hv].
  { vm_compute. discriminate. }
  unfold BulkOperations.import_from_dataframe. rewrite Hr, Hv.
  split; [f_equal; vm_compute; reflexivity | vm_compute; reflexivity].
Defined.

(** A committed import of one row without an asset tag writes nothing. *)
Lemma import_of_rejected_rows_writes_nothing_witness :
  snd (BulkOperations.import_from_dataframe nothing_required 1 false empty_world)
  = empty_world.
Proof.
  unfold BulkOperations.import_from_dataframe.
  apply (import_of_rejected_rows_writes_nothing equipment_schema
           BulkOperations.REQUIRED_FIELDS BulkOperations.process_row
           nothing_required 1 false empty_world).
  vm_compute. reflexivity.
Defined.

(** Three good rows are committed to the empty store: three entities and
    one audit event. *)
Lemma committed_import_stores_every_accepted_row_witness :
  fst (BulkOperations.import_from_dataframe three_rows 1 false empty_world)
  = {| success := 3; errors := []; warnings := []; total := 3 |}
  /\ size (entities (tables (snd (BulkOperations.import_from_dataframe
                                    three_rows 1 false empty_world)))) = 3%nat
  /\ al_action <$> audit_logs (tables (snd (BulkOperations.import_from_dataframe
                                              three_rows 1 false empty_world)))
     = ["bulk_import"].
Proof.
  destruct (committed_import_stores_every_accepted_row three_rows 1 empty_world)
    as (Hr & Hs & _ & _ & _ & Ha).
  - apply required_columns_present.
  - match goal with
    | |- ?X <> [] =>
        assert (Hlen : length X = 3%nat) by (vm_compute; reflexivity);
        intros Hnil; rewrite Hnil in Hlen; discriminate Hlen
    end.
  - apply (bool_decide_unpack _). vm_compute. exact I.
  - vm_compute. reflexivity.
  - split; [rewrite Hr; vm_compute; reflexivity |].
    split; [rewrite Hs; vm_compute; reflexivity |]. rewrite Ha. reflexivity.
Defined.

(** The second of the six rows is rejected under the number 3. *)
Lemma rejections_name_their_row_witness :
  (exists m, "Row 3: asset_tag is required." = row_label 3 +:+ m)
  /\ "Row 3: asset_tag is required."
     ∈ errors (fst (BulkOperations.import_from_dataframe six_rows 1 false empty_world)).
Proof.
  apply (proj1 rejections_name_their_row six_rows 1 false empty_world 1%nat
           (untagged_row "b")).
  - apply required_columns_present.
  - reflexivity.
  - vm_compute. reflexivity.
Defined.

(** A row of three text cells is accepted with blank optional cells. *)
Lemma accepted_equipment_row_has_blank_optional_cells_witness :
  match BulkOperations.process_row empty_db required_columns 2 (plain_row "EQ-7" "Meter") with
  | Accepted obj =>
      Forall (fun f =>
                getattr obj f = VNone
                /\ (row_get required_columns (plain_row "EQ-7" "Meter") f VNone = VNone
                    \/ exists s, row_get required_columns (plain_row "EQ-7" "Meter") f VNone
                                 = VStr s /\ (strip s = "" \/ strip s = "NA")))
             BulkOperations.OPTIONAL_FIELDS
  | Rejected _ => False
  end.
Proof.
  assert (Hok : match BulkOperations.process_row empty_db required_columns 2
                           (plain_row "EQ-7" "Meter") with
                | Accepted _ => true
                | Rejected _ => false
                end = true) by (vm_compute; reflexivity).
  destruct (BulkOperations.process_row empty_db required_columns 2
              (plain_row "EQ-7" "Meter")) as [obj | msg] eqn:E.
  - exact (accepted_equipment_row_has_blank_optional_cells _ _ _ _ _ E).
  - discriminate Hok.
Defined.

(** An asset row with a vendor and an invoice date is accepted; the
    vendor is stored stripped and the date parsed. *)
Lemma asset_row_with_readable_dates_is_accepted_witness :
  exists obj,
    AssetBulkOperations.process_row empty_db asset_columns 2 asset_row = Accepted obj
    /\ getattr obj "serial_number" = VStr "SN-1"
    /\ getattr obj "vendor" = VStr "Acme"
    /\ BulkOperations.parse_date (VStr "2024-01-31") = Ret (getattr obj "invoice_date").
Proof.
  destruct (asset_row_with_readable_dates_is_accepted empty_db asset_columns 2
              asset_row "SN-1") as (obj & Hrow & Hserial & Hfields).
  - vm_compute. reflexivity.
  - vm_compute. reflexivity.
  - vm_compute. discriminate.
  - vm_compute. discriminate.
  - vm_compute. discriminate.
  - intros f Hf Hb.
    repeat (apply elem_of_cons in Hf as [-> | Hf];
            [first [ vm_compute in Hb; discriminate Hb
                   | eexists; vm_compute; reflexivity ] |]).
    apply elem_of_nil in Hf. contradiction.
  - exists obj. split; [exact Hrow |]. split; [exact Hserial |]. split.
    + refine (Hfields "vendor" _). apply (bool_decide_unpack _). vm_compute. exact I.
    + refine (Hfields "invoice_date" _). apply (bool_decide_unpack _). vm_compute. exact I.
Defined.

(** The last day of February 2024 is read from the form as a date of the
    calendar. *)
Lemma parsed_dates_are_calendar_dates_witness :
  exists d, VDate (Date 2024 2 29) = VDate d /\ valid_date d.
Proof.
  apply (proj2 parsed_dates_are_calendar_dates "2024-02-29").
  vm_compute. reflexivity.
Defined.

Lemma iso_date_text_round_trip_witness :
  BulkOperations.parse_date (VDate (Date 2024 2 29)) = Ret (VDate (Date 2024 2 29))
  /\ BulkOperations.parse_date (VStr "2024-02-29") = Ret (VDate (Date 2024 2 29))
  /\ form_date "2024-02-29" = Ret (VDate (Date 2024 2 29)).
Proof.
  apply (iso_date_text_round_trip (Date 2024 2 29)).
  unfold valid_date. cbn [year month day].
  change (Strptime.days_in_month 2024 2) with 29. lia.
Defined.

(** The administrator may not check the oscilloscope out. *)
Lemma checkout_is_for_researchers_only_witness :
  checkout admin 1 lab
  = (respond "You do not have permission to checkout equipment" "error"
             (Redirect view_endpoint), lab).
Proof.
  apply (proj2 (checkout_is_for_researchers_only admin 1 lab
                  ltac:(vm_compute; discriminate)) scope lab_scope).
  vm_compute. reflexivity.
Defined.

(** The reader holds the meter and may check it in; the probe is not the
    reader's. *)
Lemma checkin_gate_witness :
  checkin reader 2 lab
  = (respond "You can only check in equipment assigned to you" "error"
             (Redirect view_endpoint), lab)
  /\ (fun e' => (getattr e' "status", getattr e' "assigned_to_id"))
       <$> entities (tables (snd (checkin reader 3 busy_lab))) !! 3
     = Some (VStr "Available", VNone).
Proof.
  split.
  - apply (proj1 (checkin_gate reader 2 lab probe lab_probe)).
    + vm_compute. discriminate.
    + vm_compute. reflexivity.
  - destruct (proj2 (checkin_gate reader 3 busy_lab meter busy_meter)) as (_ & He & _).
    + left. vm_compute. reflexivity.
    + vm_compute. reflexivity.
    + rewrite He, lookup_insert_eq. vm_compute. reflexivity.
Defined.


Lemma second_checkout_is_refused_witness :
  checkout researcher 1 (snd (checkout researcher 1 lab))
  = (respond "Equipment is not available for checkout" "error" (Redirect view_endpoint),
     snd (checkout researcher 1 lab)).
Proof.
  apply (second_checkout_is_refused researcher researcher 1 lab scope lab_scope);
    vm_compute; reflexivity.
Defined.

(** The edit that assigns the oscilloscope to user 2 adds one movement
    of action [assign]. *)
Lemma edit_records_an_assignment_change_witness :
  match edit_fields 1 scope admin (form assign_edit) with
  | Ret (e', mv) =>
      (getattr e' "assigned_to_id" = getattr scope "assigned_to_id" /\ mv = None)
      \/ (getattr e' "assigned_to_id" <> getattr scope "assigned_to_id"
          /\ exists m,
               mv = Some m
               /\ ml_equipment_id m = 1
               /\ ml_user_id m = user_id admin
               /\ ml_from_user_id m = getattr scope "assigned_to_id"
               /\ ((ml_action m = "assign"
                    /\ ml_to_user_id m = getattr e' "assigned_to_id"
                    /\ getattr e' "assigned_to_id" <> VNone
                    /\ getattr e' "assigned_to_id" <> VInt 0
                    /\ getattr e' "status" = VStr "In Use")
                   \/ (ml_action m = "unassign"
                       /\ ml_to_user_id m = VNone
                       /\ (getattr e' "assigned_to_id" = VNone
                           \/ getattr e' "assigned_to_id" = VInt 0)
                       /\ getattr e' "status" = VStr "Available")))
  | Raise _ => False
  end.
Proof.
  assert (Hok : match edit_fields 1 scope admin (form assign_edit) with
                | Ret _ => true
                | Raise _ => false
                end = true) by (vm_compute; reflexivity).
  destruct (edit_fields 1 scope admin (form assign_edit)) as [[e' mv] | ex] eqn:E.
  - exact (edit_records_an_assignment_change _ _ _ _ _ _ E).
  - discriminate Hok.
Defined.

(** The add form with the asset tag of the oscilloscope is turned away;
    the edit that gives the oscilloscope the asset tag of the probe is
    stopped by the store. *)
Lemma taken_asset_tag_is_refused_witness :
  add_equipment admin add_scope_again lab
  = (respond "Asset tag EQ-1 already exists" "error" (Render "inventory/add.html"), lab)
  /\ exists msg,
       edit admin retag_edit 1 lab
       = (respond ("Error updating equipment: " +:+ msg) "error"
                  (Render "inventory/edit.html"),
          {| tables := tables lab; faults := tail (faults lab) |}).
Proof.
  split.
  - assert (Hok : match add_fields (form add_scope_again) with
                  | Ret e => bool_decide (getattr e "asset_tag" = VStr "EQ-1")
                             && bool_decide (getattr e "name" <> VStr "")
                  | Raise _ => false
                  end = true) by (vm_compute; reflexivity).
    destruct (add_fields (form add_scope_again)) as [e | ex] eqn:E;
      [| discriminate Hok].
    apply andb_prop in Hok as [Htag Hname].
    apply bool_decide_eq_true in Htag. apply bool_decide_eq_true in Hname.
    apply (proj1 taken_asset_tag_is_refused admin add_scope_again lab e "EQ-1" 1 scope);
      first [ exact E | exact Htag | exact Hname | exact lab_scope
            | discriminate | reflexivity ].
  - assert (Hok : match edit_fields 1 scope admin (form retag_edit) with
                  | Ret (e', _) => bool_decide (getattr e' "asset_tag" = VStr "EQ-2")
                  | Raise _ => false
                  end = true) by (vm_compute; reflexivity).
    destruct (edit_fields 1 scope admin (form retag_edit)) as [[e' mv] | ex] eqn:E;
      [| discriminate Hok].
    apply bool_decide_eq_true in Hok.
    apply (proj2 taken_asset_tag_is_refused admin retag_edit 1 lab scope e' mv 2 probe);
      first [ exact lab_scope | exact lab_probe | exact E | discriminate
            | reflexivity | left; reflexivity
            | rewrite Hok; vm_compute; discriminate
            | rewrite Hok; reflexivity ].
Defined.

(** After the researcher checks the oscilloscope out, the asset tags of
    the laboratory are still unique. *)
Lemma unique_keys_stay_unique_witness :
  unique_key "asset_tag" (entities (tables (snd (checkout researcher 1 lab)))).
Proof. exact (proj1 unique_keys_stay_unique researcher 1 lab lab_tags_unique). Defined.

(** The researcher may not delete the oscilloscope. *)
Lemma delete_is_for_admin_and_lab_staff_witness :
  Deletion.delete researcher plain_post 1 busy_lab
  = (respond "You do not have permission to delete equipment" "error"
             (Redirect view_endpoint), busy_lab).
Proof.
  apply (delete_is_for_admin_and_lab_staff researcher plain_post 1 busy_lab);
    vm_compute; discriminate.
Defined.

(** The administrator deletes the oscilloscope: its movement and its
    audit event go with it, the history of the probe and of the batch
    stays. *)
Lemma delete_removes_entity_and_history_witness :
  entities (tables (snd (Deletion.delete admin plain_post 1 busy_lab))) !! 1 = None
  /\ movement_logs (tables (snd (Deletion.delete admin plain_post 1 busy_lab)))
     = [probe_out]
  /\ al_action <$> audit_logs (tables (snd (Deletion.delete admin plain_post 1 busy_lab)))
     = ["bulk_import"; "delete_equipment"].
Proof.
  destruct (delete_removes_entity_and_history admin plain_post 1 busy_lab scope)
    as (_ & Hgone & _ & Hm & (a & Ha & Haction & _) & _).
  - vm_compute. reflexivity.
  - exact busy_scope.
  - reflexivity.
  - split; [exact Hgone |]. split; [rewrite Hm; vm_compute; reflexivity |].
    rewrite Ha, fmap_app. cbn [fmap list_fmap]. rewrite Haction. reflexivity.
Defined.

Lemma tags_round_trip_witness :
  Tags.get_tags_list (Tags.set_tags_list scope ["fpga"; "rev b"]) = ["fpga"; "rev b"].
Proof.
  apply (tags_round_trip scope ["fpga"; "rev b"]).
  repeat (constructor; [split; [discriminate | split; vm_compute; reflexivity] |]).
  constructor.
Defined.

(** The add form of a counter for user 2 stores it under the next key,
    with one audit event and one movement. *)
Lemma add_equipment_stores_the_entity_witness :
  fst (add_equipment admin add_counter lab)
  = after_success add_counter "Equipment EQ-4 added successfully"
  /\ (fun e' => (getattr e' "asset_tag", getattr e' "status", getattr e' "assigned_to_id"))
       <$> entities (tables (snd (add_equipment admin add_counter lab))) !! 3
     = Some (VStr "EQ-4", VStr "In Use", VInt 2)
  /\ ml_action <$> movement_logs (tables (snd (add_equipment admin add_counter lab)))
     = ["assign"].
Proof.
  assert (Hok : match add_fields (form add_counter) with
                | Ret e => bool_decide (getattr e "asset_tag" = VStr "EQ-4")
                           && bool_decide (getattr e "name" <> VStr "")
                           && bool_decide (getattr e "status" = VStr "In Use")
                           && bool_decide (getattr e "assigned_to_id" = VInt 2)
                | Raise _ => false
                end = true) by (vm_compute; reflexivity).
  assert (Hid : next_id (entities (tables lab)) = 3) by (vm_compute; reflexivity).
  destruct (add_fields (form add_counter)) as [e | ex] eqn:E; [| discriminate Hok].
  apply andb_prop in Hok as [Hok Hassigned]. apply andb_prop in Hok as [Hok Hstatus].
  apply andb_prop in Hok as [Htag Hname].
  apply bool_decide_eq_true in Htag. apply bool_decide_eq_true in Hname.
  apply bool_decide_eq_true in Hstatus. apply bool_decide_eq_true in Hassigned.
  destruct (add_equipment_stores_the_entity admin add_counter lab e "EQ-4")
    as (Hr & _ & He & Hm & _).
  - reflexivity.
  - reflexivity.
  - exact E.
  - exact Htag.
  - discriminate.
  - exact Hname.
  - vm_compute. reflexivity.
  - reflexivity.
  - split; [exact Hr |]. split.
    + rewrite He, Hid, lookup_insert_eq. cbn [fmap option_fmap option_map].
      rewrite !getattr_setattr_ne by discriminate.
      rewrite apply_defaults_equipment by discriminate.
      rewrite (apply_defaults_status e "In Use" Hstatus).
      rewrite apply_defaults_equipment by discriminate.
      rewrite Htag, Hassigned. reflexivity.
    + rewrite Hm, Hassigned. rewrite bool_decide_eq_true_2 by (split; discriminate).
      reflexivity.
Defined.

End MoreConcrete.
